(** * Log-drain HTTP handlers of backend/http/logging.go

    A shallow embedding of [HandleFirehoseLog] (Drain-A) and [HandleJSONLog]
    (Drain-B) together with the parts of the Go standard library they call:
    encoding/json, encoding/base64, strconv, net/textproto header keys,
    time formatting and google/uuid. Go strings and byte slices are both
    byte sequences; they are modelled by [string] (one [ascii] per byte). *)

From Stdlib Require Import ZArith Lia Ascii String List Bool SpecFloat.
From stdpp Require Import gmap strings list.

Set Warnings "-register-all".
Local Open Scope Z_scope.

(** ** Bytes *)

Definition code (c : ascii) : Z := Z.of_N (N_of_ascii c).
Definition chr (z : Z) : ascii := ascii_of_N (Z.to_N (z mod 256)).

Definition between (lo hi x : Z) : bool := (lo <=? x) && (x <=? hi).

Definition is_digit (c : ascii) : bool := between 48 57 (code c).
Definition digit_val (c : ascii) : Z := code c - 48.

Fixpoint bytes_of (l : list Z) : string :=
  match l with
  | [] => EmptyString
  | b :: r => String (chr b) (bytes_of r)
  end.

Fixpoint codes_of (s : string) : list Z :=
  match s with
  | EmptyString => []
  | String c r => code c :: codes_of r
  end.

(** ** Go errors

    Handlers only test [err != nil] and pass [err.Error()] on; an error is
    kept as the value itself, tagged by the package that produced it. *)

Inductive error : Type :=
| SyntaxError                      (* json: invalid JSON text *)
| UnmarshalTypeError               (* json: value does not fit the Go type *)
| CorruptInputError                (* base64 *)
| ErrOther (msg : string).         (* errors of collaborators: io, gzip, model, sink *)

Inductive result (A : Type) : Type :=
| Ok (a : A)
| Err (e : error).
Arguments Ok {A} a.
Arguments Err {A} e.

Definition bind {A B} (r : result A) (k : A -> result B) : result B :=
  match r with
  | Ok a => k a
  | Err e => Err e
  end.

Notation "'try' x := r 'in' k" := (bind r (fun x => k))
  (at level 10, x name, r at level 100, k at level 200).

Definition is_ok {A} (r : result A) : bool :=
  match r with Ok _ => true | Err _ => false end.

(** ** encoding/json: syntax

    Numbers keep their literal text, as the decoder converts the literal only
    once the target type is known. *)

Inductive json : Type :=
| JNull
| JBool (b : bool)
| JNum (lit : string)
| JStr (s : string)
| JArr (elems : list json)
| JObj (members : list (string * json)).

Definition is_space (c : ascii) : bool :=
  let n := code c in (n =? 32) || (n =? 9) || (n =? 13) || (n =? 10).

Fixpoint skip_ws (s : string) : string :=
  match s with
  | String c r => if is_space c then skip_ws r else s
  | EmptyString => s
  end.

(** *** String literals *)

Definition hex_val (c : ascii) : option Z :=
  let n := code c in
  if between 48 57 n then Some (n - 48)
  else if between 97 102 n then Some (n - 87)
  else if between 65 70 n then Some (n - 55)
  else None.

Definition hex4 (a b c d : ascii) : option Z :=
  match hex_val a, hex_val b, hex_val c, hex_val d with
  | Some x, Some y, Some z, Some w => Some (((x * 16 + y) * 16 + z) * 16 + w)
  | _, _, _, _ => None
  end.

(** A scanned string literal: raw bytes and [\uXXXX] escapes. *)
Inductive strtok : Type :=
| TByte (c : ascii)
| TU16 (n : Z).

(** [scan_string s acc] reads the rest of a literal after its opening quote. *)
Fixpoint scan_string (s : string) (acc : list strtok) : option (list strtok * string) :=
  match s with
  | EmptyString => None
  | String c r =>
    if code c =? 34 then Some (rev acc, r)
    else if code c =? 92 then
      match r with
      | String e r' =>
        let n := code e in
        if n =? 34 then scan_string r' (TByte e :: acc)
        else if n =? 92 then scan_string r' (TByte e :: acc)
        else if n =? 47 then scan_string r' (TByte e :: acc)
        else if n =? 98 then scan_string r' (TByte (chr 8) :: acc)
        else if n =? 102 then scan_string r' (TByte (chr 12) :: acc)
        else if n =? 110 then scan_string r' (TByte (chr 10) :: acc)
        else if n =? 114 then scan_string r' (TByte (chr 13) :: acc)
        else if n =? 116 then scan_string r' (TByte (chr 9) :: acc)
        else if n =? 117 then
          match r' with
          | String h1 (String h2 (String h3 (String h4 r''))) =>
            match hex4 h1 h2 h3 h4 with
            | Some u => scan_string r'' (TU16 u :: acc)
            | None => None
            end
          | _ => None
          end
        else None
      | EmptyString => None
      end
    else if code c <? 32 then None
    else scan_string r (TByte c :: acc)
  end.

(** utf8.EncodeRune; surrogates and out-of-range runes become U+FFFD. *)
Definition encode_rune (r : Z) : string :=
  if r <? 0 then bytes_of [239; 191; 189]
  else if r <? 128 then bytes_of [r]
  else if r <? 2048 then bytes_of [192 + r / 64; 128 + r mod 64]
  else if between 55296 57343 r then bytes_of [239; 191; 189]
  else if r <? 65536 then
    bytes_of [224 + r / 4096; 128 + (r / 64) mod 64; 128 + r mod 64]
  else if r <=? 1114111 then
    bytes_of [240 + r / 262144; 128 + (r / 4096) mod 64;
              128 + (r / 64) mod 64; 128 + r mod 64]
  else bytes_of [239; 191; 189].

Definition replacement : string := bytes_of [239; 191; 189].

Definition cont (c : ascii) : bool := between 128 191 (code c).

(** Number of bytes of the well-formed UTF-8 sequence at the head of the raw
    bytes, 0 when the first byte does not start one (utf8.DecodeRune). *)
Definition utf8_len (b0 : ascii) (rest : list strtok) : nat :=
  let n := code b0 in
  if n <? 128 then 1%nat
  else match rest with
  | TByte b1 :: rest1 =>
    let n1 := code b1 in
    if between 194 223 n then (if cont b1 then 2%nat else 0%nat)
    else match rest1 with
    | TByte b2 :: rest2 =>
      let ok2 :=
        ((n =? 224) && between 160 191 n1)
        || (between 225 236 n && cont b1)
        || ((n =? 237) && between 128 159 n1)
        || (between 238 239 n && cont b1) in
      if ok2 then (if cont b2 then 3%nat else 0%nat)
      else match rest2 with
      | TByte b3 :: _ =>
        let ok3 :=
          ((n =? 240) && between 144 191 n1)
          || (between 241 243 n && cont b1)
          || ((n =? 244) && between 128 143 n1) in
        if ok3 && cont b2 && cont b3 then 4%nat else 0%nat
      | _ => 0%nat
      end
    | _ => 0%nat
    end
  | _ => 0%nat
  end.

(** Coerces the literal to well-formed UTF-8. [copy] counts the remaining
    bytes of a sequence already found well-formed. *)
Fixpoint unquote (toks : list strtok) (copy : nat) : string :=
  match toks with
  | [] => EmptyString
  | TByte c :: rest =>
    match copy with
    | S k => String c (unquote rest k)
    | O =>
      match utf8_len c rest with
      | O => replacement +:+ unquote rest 0
      | S k => String c (unquote rest k)
      end
    end
  | TU16 hi :: rest =>
    if between 55296 57343 hi then
      match rest with
      | TU16 lo :: rest' =>
        if between 55296 56319 hi && between 56320 57343 lo then
          encode_rune ((hi - 55296) * 1024 + (lo - 56320) + 65536)
            +:+ unquote rest' 0
        else replacement +:+ unquote rest 0
      | _ => replacement +:+ unquote rest 0
      end
    else encode_rune hi +:+ unquote rest 0
  end.

Definition parse_string (s : string) : option (string * string) :=
  match scan_string s [] with
  | Some (toks, rest) => Some (unquote toks 0, rest)
  | None => None
  end.

(** *** Number literals *)

Fixpoint take_digits (s : string) : string * string :=
  match s with
  | String c r =>
    if is_digit c then let '(d, r') := take_digits r in (String c d, r')
    else (EmptyString, s)
  | EmptyString => (EmptyString, s)
  end.

Definition scan_int (s : string) : option (string * string) :=
  match s with
  | String c r =>
    if code c =? 48 then Some (String c EmptyString, r)
    else if is_digit c then let '(d, r') := take_digits r in Some (String c d, r')
    else None
  | EmptyString => None
  end.

Definition scan_frac (s : string) : option (string * string) :=
  match s with
  | String c r =>
    if code c =? 46 then
      match take_digits r with
      | (EmptyString, _) => None
      | (d, r') => Some (String c d, r')
      end
    else Some (EmptyString, s)
  | EmptyString => Some (EmptyString, s)
  end.

Definition scan_exp (s : string) : option (string * string) :=
  match s with
  | String c r =>
    if (code c =? 101) || (code c =? 69) then
      let '(sign, r1) :=
        match r with
        | String g r1 =>
          if (code g =? 43) || (code g =? 45) then (String g EmptyString, r1)
          else (EmptyString, r)
        | EmptyString => (EmptyString, r)
        end in
      match take_digits r1 with
      | (EmptyString, _) => None
      | (d, r') => Some (String c (sign +:+ d), r')
      end
    else Some (EmptyString, s)
  | EmptyString => Some (EmptyString, s)
  end.

Definition scan_number (s : string) : option (string * string) :=
  let '(minus, s1) :=
    match s with
    | String c r => if code c =? 45 then (String c EmptyString, r) else (EmptyString, s)
    | EmptyString => (EmptyString, s)
    end in
  match scan_int s1 with
  | Some (i, s2) =>
    match scan_frac s2 with
    | Some (f, s3) =>
      match scan_exp s3 with
      | Some (e, s4) => Some (minus +:+ i +:+ f +:+ e, s4)
      | None => None
      end
    | None => None
    end
  | None => None
  end.

(** *** Values *)

Fixpoint strip_prefix (p s : string) : option string :=
  match p, s with
  | EmptyString, _ => Some s
  | String a p', String b s' => if Ascii.eqb a b then strip_prefix p' s' else None
  | String _ _, EmptyString => None
  end.

Definition maxNestingDepth : Z := 10000.

Inductive pmode : Type :=
| PValue
| PElems (acc : list json)
| PMembers (acc : list (string * json)).

(** Recursive descent; [depth] counts the enclosing arrays and objects. *)
Fixpoint parse (fuel : nat) (depth : Z) (m : pmode) (s : string) : option (json * string) :=
  match fuel with
  | O => None
  | S fuel' =>
    match m with
    | PValue =>
      match skip_ws s with
      | EmptyString => None
      | String c r =>
        let n := code c in
        if n =? 123 then
          if maxNestingDepth <? depth + 1 then None
          else match skip_ws r with
               | String c' r' =>
                 if code c' =? 125 then Some (JObj [], r')
                 else parse fuel' (depth + 1) (PMembers []) r
               | EmptyString => None
               end
        else if n =? 91 then
          if maxNestingDepth <? depth + 1 then None
          else match skip_ws r with
               | String c' r' =>
                 if code c' =? 93 then Some (JArr [], r')
                 else parse fuel' (depth + 1) (PElems []) r
               | EmptyString => None
               end
        else if n =? 34 then
          match parse_string r with
          | Some (str, r') => Some (JStr str, r')
          | None => None
          end
        else if n =? 116 then
          match strip_prefix "rue" r with Some r' => Some (JBool true, r') | None => None end
        else if n =? 102 then
          match strip_prefix "alse" r with Some r' => Some (JBool false, r') | None => None end
        else if n =? 110 then
          match strip_prefix "ull" r with Some r' => Some (JNull, r') | None => None end
        else
          match scan_number (String c r) with
          | Some (lit, r') => Some (JNum lit, r')
          | None => None
          end
      end
    | PElems acc =>
      match parse fuel' depth PValue s with
      | Some (v, r) =>
        match skip_ws r with
        | String c r' =>
          if code c =? 44 then parse fuel' depth (PElems (v :: acc)) r'
          else if code c =? 93 then Some (JArr (rev (v :: acc)), r')
          else None
        | EmptyString => None
        end
      | None => None
      end
    | PMembers acc =>
      match skip_ws s with
      | String q r0 =>
        if code q =? 34 then
          match parse_string r0 with
          | Some (k, r1) =>
            match skip_ws r1 with
            | String c r2 =>
              if code c =? 58 then
                match parse fuel' depth PValue r2 with
                | Some (v, r3) =>
                  match skip_ws r3 with
                  | String d r4 =>
                    if code d =? 44 then parse fuel' depth (PMembers ((k, v) :: acc)) r4
                    else if code d =? 125 then Some (JObj (rev ((k, v) :: acc)), r4)
                    else None
                  | EmptyString => None
                  end
                | None => None
                end
              else None
            | EmptyString => None
            end
          | None => None
          end
        else None
      | EmptyString => None
      end
    end
  end.

(** The whole text must be one value, surrounded by optional white space. *)
Definition parse_json (s : string) : result json :=
  match parse (2 * String.length s + 2) 0 PValue s with
  | Some (v, r) =>
    match skip_ws r with
    | EmptyString => Ok v
    | String _ _ => Err SyntaxError
    end
  | None => Err SyntaxError
  end.

(** ** strconv *)

Module strconv.

Fixpoint digits_value (s : string) (acc : Z) : option Z :=
  match s with
  | EmptyString => Some acc
  | String c r => if is_digit c then digits_value r (acc * 10 + digit_val c) else None
  end.

(** [ParseInt(s, 10, 64)]: an optional sign and decimal digits, in range. *)
Definition ParseInt (s : string) : option Z :=
  let '(neg, body) :=
    match s with
    | String c r =>
      if code c =? 45 then (true, r)
      else if code c =? 43 then (false, r)
      else (false, s)
    | EmptyString => (false, s)
    end in
  match body with
  | EmptyString => None
  | String _ _ =>
    match digits_value body 0 with
    | Some n =>
      let v := if neg then - n else n in
      if between (- 2 ^ 63) (2 ^ 63 - 1) v then Some v else None
    | None => None
    end
  end.

Fixpoint digits_of (fuel : nat) (n : Z) (acc : string) : string :=
  match fuel with
  | O => acc
  | S fuel' =>
    let acc' := String (chr (48 + n mod 10)) acc in
    if n <? 10 then acc' else digits_of fuel' (n / 10) acc'
  end.

(** Decimal digits of a natural number. *)
Definition itoa (n : Z) : string := digits_of (S (Z.to_nat (Z.log2 n))) n EmptyString.

(** [FormatInt(i, 10)]. *)
Definition FormatInt (i : Z) : string :=
  if i <? 0 then String "-" (itoa (- i)) else itoa i.

(** *** float64

    A float64 is a [spec_float] in canonical binary64 form: mantissa below
    2^53, exponent between -1074 and 971. *)


(** The parts of a decimal literal [-]int[.frac][e[+-]exp]: the sign, the
    digits of int and frac as one integer, and the power of ten. *)
Definition split_at (c1 c2 : Z) (s : string) : string * string :=
  (fix go (s : string) : string * string :=
     match s with
     | EmptyString => (EmptyString, EmptyString)
     | String c r =>
       if (code c =? c1) || (code c =? c2) then (EmptyString, r)
       else let '(a, b) := go r in (String c a, b)
     end) s.

Definition has_byte (c1 c2 : Z) (s : string) : bool :=
  (fix go (s : string) : bool :=
     match s with
     | EmptyString => false
     | String c r => (code c =? c1) || (code c =? c2) || go r
     end) s.

(** The digits of an exponent as [readFloat] takes them in: once the value
    has reached 10000 the digits that follow are read and left out. *)
Fixpoint exponent_value (s : string) (e : Z) : option Z :=
  match s with
  | EmptyString => Some e
  | String c r =>
    if is_digit c
    then exponent_value r (if e <? 10000 then e * 10 + digit_val c else e)
    else None
  end.

Definition decimal_parts (lit : string) : option (bool * Z * Z) :=
  let '(neg, body) :=
    match lit with
    | String c r => if code c =? 45 then (true, r) else (false, lit)
    | EmptyString => (false, lit)
    end in
  let '(mant, ex) := split_at 101 69 body in
  let '(int, frac) := split_at 46 46 mant in
  let '(eneg, edigits) :=
    match ex with
    | String c r =>
      if code c =? 45 then (true, r)
      else if code c =? 43 then (false, r)
      else (false, ex)
    | EmptyString => (false, ex)
    end in
  match digits_value (int +:+ frac) 0, exponent_value edigits 0 with
  | Some d, Some e =>
    Some (neg, d, (if eneg then - e else e) - Z.of_nat (String.length frac))
  | _, _ => None
  end.

Definition round_half_even (num den : Z) : Z :=
  let q := num / den in
  let r := num mod den in
  if (den <? 2 * r) || ((2 * r =? den) && Z.odd q) then q + 1 else q.

(** The binary64 nearest to [num / den] (both positive), ties to even;
    [None] when it is beyond the largest finite value. *)
Definition nearest_binary64 (neg : bool) (num den : Z) : option spec_float :=
  let a := Z.log2 num - Z.log2 den in
  let lg :=
    if 0 <=? a then (if num <? den * 2 ^ a then a - 1 else a)
    else (if num * 2 ^ (- a) <? den then a - 1 else a) in
  let e := Z.max (lg - 52) (-1074) in
  let m :=
    if 0 <=? e then round_half_even num (den * 2 ^ e)
    else round_half_even (num * 2 ^ (- e)) den in
  let '(m, e) := if m =? 2 ^ 53 then (2 ^ 52, e + 1) else (m, e) in
  if 971 <? e then None
  else if m =? 0 then Some (S754_zero neg)
  else Some (S754_finite neg (Z.to_pos m) e).

(** [ParseFloat(lit, 64)] on a JSON number literal; [None] is ErrRange.
    With the digits read as 0.d1d2...dn (d1 not 0) times 10^[dp], a [dp]
    beyond 310 is an overflow and one below -330 is zero, as in
    [floatBits]; between them the value is rounded exactly. *)
Definition ParseFloat (lit : string) : option spec_float :=
  match decimal_parts lit with
  | None => None
  | Some (neg, d, e10) =>
    if d =? 0 then Some (S754_zero neg)
    else
      let dp := e10 + Z.of_nat (String.length (itoa d)) in
      if 310 <? dp then None
      else if dp <? -330 then Some (S754_zero neg)
      else if 0 <=? e10 then nearest_binary64 neg (d * 10 ^ e10) 1
      else nearest_binary64 neg d (10 ^ (- e10))
  end.

(** *** Shortest formatting

    Quantities are kept as integers scaled by 2^[e2]. *)

(** [c * 10^k] compared with [x * 2^e2]. *)
Definition cmp_scaled (c k x e2 : Z) : comparison :=
  (c * 10 ^ Z.max k 0 * 2 ^ Z.max (- e2) 0 ?= x * 2 ^ Z.max e2 0 * 10 ^ Z.max (- k) 0).

Definition ge_pow10 (x e2 k : Z) : bool :=
  match cmp_scaled 1 k x e2 with Gt => false | _ => true end.

(** Largest [k] with [10^k <= x * 2^e2], searched from an estimate. *)
Fixpoint ilog10 (fuel : nat) (x e2 k : Z) : Z :=
  match fuel with
  | O => k
  | S fuel' =>
    if ge_pow10 x e2 (k + 1) then ilog10 fuel' x e2 (k + 1)
    else if ge_pow10 x e2 k then k
    else ilog10 fuel' x e2 (k - 1)
  end.

(** The shortest digit string that reads back as the same float64, and the
    power of ten of its last digit. [lo], [f], [hi] are the rounding
    interval and the value, all scaled by 2^[e2]. *)
Fixpoint shortest (fuel : nat) (lo f hi e2 : Z) (inclusive : bool) (k : Z) : Z * Z :=
  let num := f * 2 ^ Z.max e2 0 * 10 ^ Z.max (- k) 0 in
  let den := 10 ^ Z.max k 0 * 2 ^ Z.max (- e2) 0 in
  let down := num / den in
  let okdown :=
    match cmp_scaled down k lo e2 with
    | Gt => true | Eq => inclusive | Lt => false
    end in
  let okup :=
    match cmp_scaled (down + 1) k hi e2 with
    | Lt => true | Eq => inclusive | Gt => false
    end in
  match fuel with
  | O => (down, k)
  | S fuel' =>
    if okdown && okup then (round_half_even num den, k)
    else if okdown then (down, k)
    else if okup then (down + 1, k)
    else shortest fuel' lo f hi e2 inclusive (k - 1)
  end.

Fixpoint strip_zeros (fuel : nat) (c k : Z) : Z * Z :=
  match fuel with
  | O => (c, k)
  | S fuel' => if (c mod 10 =? 0) && (10 <=? c) then strip_zeros fuel' (c / 10) (k + 1) else (c, k)
  end.

(** Digits [d1 d2 ... dn] and exponent [x] with value [d1.d2...dn * 10^x]. *)
Definition shortest_decimal (m : positive) (e : Z) : string * Z :=
  let mz := Z.pos m in
  let boundary := (mz =? 2 ^ 52) && (-1074 <? e) in
  let lo := if boundary then 4 * mz - 1 else 4 * mz - 2 in
  let hi := 4 * mz + 2 in
  let e2 := e - 2 in
  let est := ((Z.log2 mz + e) * 3) / 10 in
  let k0 := ilog10 700 (4 * mz) e2 est in
  let '(c, k) := shortest 17 lo (4 * mz) hi e2 (Z.even mz) k0 in
  let '(c, k) := strip_zeros 20 c k in
  let ds := itoa c in
  (ds, k + Z.of_nat (String.length ds) - 1).

(** [%e] layout with the exponent letter 'E'. *)
Definition fmtE (neg : bool) (digits : string) (x : Z) : string :=
  let sign := if neg then "-" else EmptyString in
  let mant :=
    match digits with
    | EmptyString => "0"
    | String d EmptyString => String d EmptyString
    | String d more => String d (String "." more)
    end in
  let xs := itoa (Z.abs x) in
  let xs := if Z.abs x <? 10 then String "0" xs else xs in
  sign +:+ mant +:+ "E" +:+ (if x <? 0 then "-" else "+") +:+ xs.

(** [FormatFloat(f, 'E', -1, 64)]. *)
Definition FormatFloat (f : spec_float) : string :=
  match f with
  | S754_nan => "NaN"
  | S754_infinity neg => if neg then "-Inf" else "+Inf"
  | S754_zero neg => fmtE neg "" 0
  | S754_finite neg m e => let '(ds, x) := shortest_decimal m e in fmtE neg ds x
  end.

End strconv.

(** ** encoding/base64: [StdEncoding.DecodeString] *)

Module base64.

Definition sextet (c : ascii) : option Z :=
  let n := code c in
  if between 65 90 n then Some (n - 65)
  else if between 97 122 n then Some (n - 71)
  else if between 48 57 n then Some (n + 4)
  else if n =? 43 then Some 62
  else if n =? 47 then Some 63
  else None.

Definition is_newline (c : ascii) : bool := (code c =? 10) || (code c =? 13).

Fixpoint skip_newlines (s : string) : string :=
  match s with
  | String c r => if is_newline c then skip_newlines r else s
  | EmptyString => s
  end.

(** The first [n] bytes of the 24 bits held by a quantum of sextets. *)
Definition quantum_bytes (buf : list Z) (n : nat) : string :=
  let v :=
    match buf with
    | a :: b :: c :: d :: _ => ((a * 64 + b) * 64 + c) * 64 + d
    | [a; b; c] => ((a * 64 + b) * 64 + c) * 64
    | [a; b] => (a * 64 + b) * 4096
    | _ => 0
    end in
  bytes_of (take n [v / 65536; (v / 256) mod 256; v mod 256]).

(** [buf] holds the sextets of the quantum being read. Line breaks are
    skipped; padding is required and must end the input. *)
Fixpoint decode (s : string) (buf : list Z) : result string :=
  match s with
  | EmptyString =>
    match buf with
    | [] => Ok EmptyString
    | _ :: _ => Err CorruptInputError
    end
  | String c r =>
    match sextet c with
    | Some v =>
      match buf with
      | [a; b; d] =>
        try rest := decode r [] in Ok (quantum_bytes [a; b; d; v] 3 +:+ rest)
      | _ => decode r (buf ++ [v])
      end
    | None =>
      if is_newline c then decode r buf
      else if code c =? 61 then
        match buf with
        | [a; b] =>
          match skip_newlines r with
          | String c' r' =>
            if code c' =? 61 then
              match skip_newlines r' with
              | EmptyString => Ok (quantum_bytes buf 1)
              | String _ _ => Err CorruptInputError
              end
            else Err CorruptInputError
          | EmptyString => Err CorruptInputError
          end
        | [a; b; d] =>
          match skip_newlines r with
          | EmptyString => Ok (quantum_bytes buf 2)
          | String _ _ => Err CorruptInputError
          end
        | _ => Err CorruptInputError
        end
      else Err CorruptInputError
    end
  end.

Definition DecodeString (s : string) : result string := decode s [].

End base64.

(** ** net/textproto and net/http headers *)

Definition validHeaderFieldByte (c : ascii) : bool :=
  let n := code c in
  between 48 57 n || between 65 90 n || between 97 122 n
  || existsb (Z.eqb n) [33; 35; 36; 37; 38; 39; 42; 43; 45; 46; 94; 95; 96; 124; 126].

Fixpoint canonical (s : string) (upper : bool) : string :=
  match s with
  | EmptyString => EmptyString
  | String c r =>
    let n := code c in
    let c' :=
      if upper && between 97 122 n then chr (n - 32)
      else if negb upper && between 65 90 n then chr (n + 32)
      else c in
    String c' (canonical r (code c' =? 45))
  end.

Fixpoint all_bytes (p : ascii -> bool) (s : string) : bool :=
  match s with
  | EmptyString => true
  | String c r => p c && all_bytes p r
  end.

(** Keys with a byte outside the token alphabet are left unchanged. *)
Definition CanonicalMIMEHeaderKey (s : string) : string :=
  if all_bytes validHeaderFieldByte s then canonical s true else s.

(** [http.Header]: the values received under each canonical key. *)
Definition Header_Get (h : gmap string (list string)) (key : string) : string :=
  match h !! CanonicalMIMEHeaderKey key with
  | Some (v :: _) => v
  | _ => EmptyString
  end.

(** ** time: [time.UnixMilli(ms).UTC().Format(layout)] *)

Module time.

Fixpoint pad (fuel : nat) (width : nat) (s : string) : string :=
  match fuel with
  | O => s
  | S fuel' => if (Nat.ltb (String.length s) width) then pad fuel' width (String "0" s) else s
  end.

(** [appendInt]: zero padded to [width], a minus sign first. *)
Definition appendInt (x : Z) (width : nat) : string :=
  let body := pad width width (strconv.itoa (Z.abs x)) in
  if x <? 0 then String "-" body else body.

(** Year, month and day of a count of days since 1970-01-01, in the
    proleptic Gregorian calendar. *)
Definition civil (days : Z) : Z * Z * Z :=
  let z := days + 719468 in
  let era := z / 146097 in
  let doe := z - era * 146097 in
  let yoe := (doe - doe / 1460 + doe / 36524 - doe / 146096) / 365 in
  let doy := doe - (365 * yoe + yoe / 4 - yoe / 100) in
  let mp := (5 * doy + 2) / 153 in
  let d := doy - (153 * mp + 2) / 5 + 1 in
  let m := if mp <? 10 then mp + 3 else mp - 9 in
  let y := yoe + era * 400 + (if m <=? 2 then 1 else 0) in
  (y, m, d).

End time.

(** Modelled from the spec: the constant [hlog.TimestampFormat] of the SDK
    package sdk/highlight-go/log, "a fixed textual format with millisecond
    precision, UTC"; taken as the layout 2006-01-02T15:04:05.000Z. The
    function renders [time.UnixMilli(ms).UTC()] in that layout. *)
Definition formatTimestamp (ms : Z) : string :=
  let sec := ms / 1000 in
  let milli := ms mod 1000 in
  let '(y, m, d) := time.civil (sec / 86400) in
  let tod := sec mod 86400 in
  time.appendInt y 4 +:+ "-" +:+ time.appendInt m 2 +:+ "-" +:+ time.appendInt d 2
  +:+ "T" +:+ time.appendInt (tod / 3600) 2 +:+ ":" +:+ time.appendInt ((tod / 60) mod 60) 2
  +:+ ":" +:+ time.appendInt (tod mod 60) 2 +:+ "." +:+ time.appendInt milli 3 +:+ "Z".

(** ** google/uuid: [uuid.New().String()] from 16 random bytes *)

Module uuid.

Definition hex_digit (n : Z) : ascii :=
  if n <? 10 then chr (48 + n) else chr (87 + n).

Definition hex_byte (b : Z) (k : string) : string :=
  String (hex_digit (b / 16)) (String (hex_digit (b mod 16)) k).

(** Version 4, variant 10: byte 6 and byte 8 are overwritten in part. *)
Definition New (rand : nat -> ascii) : list Z :=
  map (fun i : nat =>
         let b := code (rand i) in
         if Nat.eqb i 6 then Z.lor (Z.land b 15) 64
         else if Nat.eqb i 8 then Z.lor (Z.land b 63) 128
         else b) (seq 0 16).

Definition String_ (u : list Z) : string :=
  let b (i : nat) := nth i u 0 in
  hex_byte (b 0%nat) (hex_byte (b 1%nat) (hex_byte (b 2%nat) (hex_byte (b 3%nat)
  (String "-" (hex_byte (b 4%nat) (hex_byte (b 5%nat)
  (String "-" (hex_byte (b 6%nat) (hex_byte (b 7%nat)
  (String "-" (hex_byte (b 8%nat) (hex_byte (b 9%nat)
  (String "-" (hex_byte (b 10%nat) (hex_byte (b 11%nat) (hex_byte (b 12%nat)
  (hex_byte (b 13%nat) (hex_byte (b 14%nat) (hex_byte (b 15%nat) EmptyString))))))))))))))))))).

End uuid.

(** ** encoding/json: decoding into Go values

    [Unmarshal] first checks the syntax of the whole text, then stores each
    value into the variable it is given; a value that does not fit makes the
    call return an error. Every decoder takes the value the variable holds
    before the call, since a JSON null leaves strings, numbers and structs
    as they are. *)

Module gojson.

(** Field names match JSON keys up to case: ASCII letters, and the two
    runes U+017F and U+212A that fold to S and K. *)
Fixpoint foldName (s : string) : string :=
  match s with
  | EmptyString => EmptyString
  | String c r =>
    let n := code c in
    if between 97 122 n then String (chr (n - 32)) (foldName r)
    else match r with
    | String c1 r1 =>
      if (n =? 197) && (code c1 =? 191) then String "S" (foldName r1)
      else match r1 with
      | String c2 r2 =>
        if (n =? 226) && (code c1 =? 132) && (code c2 =? 170)
        then String "K" (foldName r2)
        else String c (foldName r)
      | EmptyString => String c (foldName r)
      end
    | EmptyString => String c (foldName r)
    end
  end.

Definition field_is (name key : string) : bool :=
  String.eqb (foldName key) (foldName name).

Definition decode_string (v : json) (cur : string) : result string :=
  match v with
  | JStr s => Ok s
  | JNull => Ok cur
  | _ => Err UnmarshalTypeError
  end.

Definition decode_int64 (v : json) (cur : Z) : result Z :=
  match v with
  | JNum lit =>
    match strconv.ParseInt lit with
    | Some n => Ok n
    | None => Err UnmarshalTypeError
    end
  | JNull => Ok cur
  | _ => Err UnmarshalTypeError
  end.

(** A struct: every member whose key names a field is stored into it, in the
    order of the text; other members are skipped. *)
Fixpoint decode_members {T : Type} (field : string -> json -> T -> result T)
    (members : list (string * json)) (cur : T) : result T :=
  match members with
  | [] => Ok cur
  | (k, v) :: rest =>
    try cur' := field k v cur in decode_members field rest cur'
  end.

Definition decode_struct {T : Type} (field : string -> json -> T -> result T)
    (v : json) (cur : T) : result T :=
  match v with
  | JObj members => decode_members field members cur
  | JNull => Ok cur
  | _ => Err UnmarshalTypeError
  end.

(** A slice variable: its elements, and what its backing array holds
    beyond its length (the elements left behind when an earlier store made
    the slice shorter). *)
Record slice (T : Type) : Type := mkSlice {
  items : list T;
  spare : list T;
}.

Arguments mkSlice {T} items spare.
Arguments items {T} s.
Arguments spare {T} s.

Definition nil_slice {T : Type} : slice T := mkSlice [] [].

(** The loop of [array]: element [i] is decoded over what the backing array
    holds at index [i], the zero value where the array ends. The result is
    the decoded elements and the part of the array behind them. *)
Fixpoint decode_elems {T : Type} (elem : json -> T -> result T) (zero : T)
    (elems : list json) (backing : list T) : result (list T * list T) :=
  match elems with
  | [] => Ok ([], backing)
  | v :: rest =>
    try x := elem v (hd zero backing) in
    try r := decode_elems elem zero rest (tl backing) in
    Ok (x :: fst r, snd r)
  end.

(** An array is stored into the slice the variable holds, which is then cut
    to the length of the array; the empty array gives a new empty slice and
    null the nil slice. *)
Definition decode_slice {T : Type} (elem : json -> T -> result T) (zero : T)
    (v : json) (cur : slice T) : result (slice T) :=
  match v with
  | JArr [] => Ok nil_slice
  | JArr elems =>
    try r := decode_elems elem zero elems (items cur ++ spare cur) in
    Ok (mkSlice (fst r) (snd r))
  | JNull => Ok nil_slice
  | _ => Err UnmarshalTypeError
  end.

(** [map[string]string]: nil, or a made map. Assigning into the nil map is a
    run-time panic. *)
Inductive strmap : Type :=
| nil_map
| made (m : gmap string string).

Definition map_assign (k v : string) (m : strmap) : option strmap :=
  match m with
  | nil_map => None
  | made m => Some (made (<[k := v]> m))
  end.

Fixpoint decode_map_members (members : list (string * json)) (m : gmap string string)
    : result (gmap string string) :=
  match members with
  | [] => Ok m
  | (k, v) :: rest =>
    try s := decode_string v EmptyString in
    decode_map_members rest (<[k := s]> m)
  end.

(** An object is stored into the map the variable holds (a new one if it is
    nil); null sets the variable to the nil map. *)
Definition decode_strmap (v : json) (cur : strmap) : result strmap :=
  match v with
  | JObj members =>
    try m := decode_map_members members
               (match cur with made m => m | nil_map => ∅ end) in
    Ok (made m)
  | JNull => Ok nil_map
  | _ => Err UnmarshalTypeError
  end.

(** [interface{}]: the dynamic types a handler can switch on. The decoder
    stores every JSON number as a float64. *)
Inductive any : Type :=
| ANil
| ABool (b : bool)
| AFloat64 (f : spec_float)
| AInt64 (i : Z)
| AString (s : string)
| ASlice (l : list any)
| AMap (m : gmap string any).

Fixpoint to_any (v : json) : result any :=
  match v with
  | JNull => Ok ANil
  | JBool b => Ok (ABool b)
  | JNum lit =>
    match strconv.ParseFloat lit with
    | Some f => Ok (AFloat64 f)
    | None => Err UnmarshalTypeError
    end
  | JStr s => Ok (AString s)
  | JArr elems =>
    try l := (fix go (l : list json) : result (list any) :=
                match l with
                | [] => Ok []
                | x :: r => try a := to_any x in try r' := go r in Ok (a :: r')
                end) elems in
    Ok (ASlice l)
  | JObj members =>
    try m := (fix go (l : list (string * json)) (m : gmap string any)
                : result (gmap string any) :=
                match l with
                | [] => Ok m
                | (k, x) :: r => try a := to_any x in go r (<[k := a]> m)
                end) members ∅ in
    Ok (AMap m)
  end.

(** [map[string]interface{}] held by a nil variable. *)
Definition decode_anymap (v : json) : result (option (gmap string any)) :=
  match v with
  | JObj _ =>
    match to_any v with
    | Ok (AMap m) => Ok (Some m)
    | Ok _ => Err UnmarshalTypeError
    | Err e => Err e
    end
  | JNull => Ok None
  | _ => Err UnmarshalTypeError
  end.

End gojson.

Export gojson (strmap, nil_map, made, map_assign, any, ANil, ABool, AFloat64, AInt64, AString, ASlice, AMap).

(** ** The canonical log record and the wire structs *)

Module hlog.

(** Modelled from the spec: the struct [hlog.Log] of the SDK package
    sdk/highlight-go/log (the CanonicalLogRecord: message, timestamp, level
    and attributes), with the fields logging.go reads and writes; its JSON
    keys are the field names. *)
Record Log : Type := mkLog {
  Message : string;
  Timestamp : string;
  Level : string;
  Attributes : strmap;
}.

Definition field (k : string) (v : json) (lg : Log) : result Log :=
  if gojson.field_is "message" k then
    try s := gojson.decode_string v (Message lg) in
    Ok (mkLog s (Timestamp lg) (Level lg) (Attributes lg))
  else if gojson.field_is "timestamp" k then
    try s := gojson.decode_string v (Timestamp lg) in
    Ok (mkLog (Message lg) s (Level lg) (Attributes lg))
  else if gojson.field_is "level" k then
    try s := gojson.decode_string v (Level lg) in
    Ok (mkLog (Message lg) (Timestamp lg) s (Attributes lg))
  else if gojson.field_is "attributes" k then
    try m := gojson.decode_strmap v (Attributes lg) in
    Ok (mkLog (Message lg) (Timestamp lg) (Level lg) m)
  else Ok lg.

(** [json.Unmarshal(body, &lg)]. *)
Definition Unmarshal (body : string) (lg : Log) : result Log :=
  try v := parse_json body in gojson.decode_struct field v lg.

End hlog.

(** The variable [lg] of [HandleFirehoseLog]: the BatchEnvelope. *)
Module Envelope.

Record Record_ : Type := mkRecord { Data : string }.

Record t : Type := mk {
  RequestId : string;
  Timestamp : Z;
  Records : list Record_;
}.

Definition record_field (k : string) (v : json) (l : Record_) : result Record_ :=
  if gojson.field_is "Data" k then
    try s := gojson.decode_string v (Data l) in Ok (mkRecord s)
  else Ok l.

(** The variable while [json.Unmarshal] stores into it: [Records] with its
    backing array. *)
Record var : Type := mkVar {
  requestId : string;
  timestamp : Z;
  records : gojson.slice Record_;
}.

Definition field (k : string) (v : json) (lg : var) : result var :=
  if gojson.field_is "RequestId" k then
    try s := gojson.decode_string v (requestId lg) in
    Ok (mkVar s (timestamp lg) (records lg))
  else if gojson.field_is "Timestamp" k then
    try n := gojson.decode_int64 v (timestamp lg) in
    Ok (mkVar (requestId lg) n (records lg))
  else if gojson.field_is "Records" k then
    try l := gojson.decode_slice (gojson.decode_struct record_field)
               (mkRecord EmptyString) v (records lg) in
    Ok (mkVar (requestId lg) (timestamp lg) l)
  else Ok lg.

Definition zero : var := mkVar EmptyString 0 gojson.nil_slice.

Definition value (lg : var) : t :=
  mk (requestId lg) (timestamp lg) (gojson.items (records lg)).

(** [json.Unmarshal(body, &lg)]. *)
Definition Unmarshal (body : string) : result t :=
  try v := parse_json body in
  try lg := gojson.decode_struct field v zero in
  Ok (value lg).

End Envelope.

(** The variable [attributesMap] of [HandleFirehoseLog]; only its one leaf
    field [CommonAttributes.ProjectID] is kept. *)
Module AttributesMap.

Definition common_field (k : string) (v : json) (ProjectID : string) : result string :=
  if gojson.field_is "x-highlight-project" k then gojson.decode_string v ProjectID
  else Ok ProjectID.

Definition field (k : string) (v : json) (ProjectID : string) : result string :=
  if gojson.field_is "commonAttributes" k then
    gojson.decode_struct common_field v ProjectID
  else Ok ProjectID.

(** [json.Unmarshal([]byte(header), &attributesMap)]. *)
Definition Unmarshal (header : string) : result string :=
  try v := parse_json header in gojson.decode_struct field v EmptyString.

End AttributesMap.

(** The variable [cloudwatchPayload] of [HandleFirehoseLog]: the SubEnvelope. *)
Module Cloudwatch.

Record LogEvent : Type := mkEvent {
  Id : string;
  Timestamp : Z;
  Message : string;
}.

Record Payload : Type := mk {
  MessageType : string;
  Owner : string;
  LogGroup : string;
  LogStream : string;
  SubscriptionFilters : list string;
  LogEvents : list LogEvent;
}.

Definition event_field (k : string) (v : json) (ev : LogEvent) : result LogEvent :=
  if gojson.field_is "Id" k then
    try s := gojson.decode_string v (Id ev) in Ok (mkEvent s (Timestamp ev) (Message ev))
  else if gojson.field_is "Timestamp" k then
    try n := gojson.decode_int64 v (Timestamp ev) in Ok (mkEvent (Id ev) n (Message ev))
  else if gojson.field_is "Message" k then
    try s := gojson.decode_string v (Message ev) in Ok (mkEvent (Id ev) (Timestamp ev) s)
  else Ok ev.

(** The variable while [json.Unmarshal] stores into it: the two slices with
    their backing arrays. *)
Record var : Type := mkVar {
  messageType : string;
  owner : string;
  logGroup : string;
  logStream : string;
  subscriptionFilters : gojson.slice string;
  logEvents : gojson.slice LogEvent;
}.

Definition field (k : string) (v : json) (p : var) : result var :=
  if gojson.field_is "MessageType" k then
    try s := gojson.decode_string v (messageType p) in
    Ok (mkVar s (owner p) (logGroup p) (logStream p) (subscriptionFilters p) (logEvents p))
  else if gojson.field_is "Owner" k then
    try s := gojson.decode_string v (owner p) in
    Ok (mkVar (messageType p) s (logGroup p) (logStream p) (subscriptionFilters p) (logEvents p))
  else if gojson.field_is "LogGroup" k then
    try s := gojson.decode_string v (logGroup p) in
    Ok (mkVar (messageType p) (owner p) s (logStream p) (subscriptionFilters p) (logEvents p))
  else if gojson.field_is "LogStream" k then
    try s := gojson.decode_string v (logStream p) in
    Ok (mkVar (messageType p) (owner p) (logGroup p) s (subscriptionFilters p) (logEvents p))
  else if gojson.field_is "SubscriptionFilters" k then
    try l := gojson.decode_slice gojson.decode_string EmptyString v (subscriptionFilters p) in
    Ok (mkVar (messageType p) (owner p) (logGroup p) (logStream p) l (logEvents p))
  else if gojson.field_is "LogEvents" k then
    try l := gojson.decode_slice (gojson.decode_struct event_field)
               (mkEvent EmptyString 0 EmptyString) v (logEvents p) in
    Ok (mkVar (messageType p) (owner p) (logGroup p) (logStream p) (subscriptionFilters p) l)
  else Ok p.

Definition zero : var :=
  mkVar EmptyString EmptyString EmptyString EmptyString gojson.nil_slice gojson.nil_slice.

Definition value (p : var) : Payload :=
  mk (messageType p) (owner p) (logGroup p) (logStream p)
     (gojson.items (subscriptionFilters p)) (gojson.items (logEvents p)).

(** [json.Unmarshal(msg, &cloudwatchPayload)]. *)
Definition Unmarshal (msg : string) : result Payload :=
  try v := parse_json msg in
  try p := gojson.decode_struct field v zero in
  Ok (value p).

End Cloudwatch.

(** ** Requests, responses and the sink *)

(** A reader: the bytes it delivers, then end of file or a read error. *)
Record stream : Type := mkStream {
  avail : string;
  fault : option error;
}.

Definition io_ReadAll (s : stream) : result string :=
  match fault s with
  | Some e => Err e
  | None => Ok (avail s)
  end.

Definition strings_NewReader (s : string) : stream := mkStream s None.

Record Request : Type := mkRequest {
  Header : gmap string (list string);
  Body : stream;
}.

(** What a handler leaves on the [http.ResponseWriter], or a run-time panic
    that unwinds the handler before it writes anything. *)
Inductive outcome : Type :=
| HTTPError (err : error) (status : Z)        (* http.Error(w, err.Error(), status) *)
| FirehoseAck (requestId : string) (timestamp : Z)
                                                (* content-type application/json and the
                                                   marshalled struct, status 200 *)
| StatusOK                                      (* w.WriteHeader(http.StatusOK) *)
| Panic.

Definition StatusBadRequest : Z := 400.

(** One call of [hlog.SubmitHTTPLog]: the project and the record. *)
Definition call : Type := Z * hlog.Log.

Definition LogDrainProjectHeader : string := "x-highlight-project".
Definition LogDrainServiceHeader : string := "x-highlight-service".

(** [semconv.ServiceNameKey] of go.opentelemetry.io/otel/semconv/v1.17.0. *)
Definition ServiceNameKey : string := "service.name".

(** The conversion of the type switch in [HandleJSONLog]; [None] when no
    case applies. *)
Definition coerce (v : any) : option string :=
  match v with
  | AString typed => Some typed
  | AInt64 typed => Some (strconv.FormatInt typed)
  | AFloat64 typed => Some (strconv.FormatFloat typed)
  | _ => None
  end.

(** The body of the loop [for k, v := range lgAttrs]; the accumulator is
    [None] once an assignment has panicked. *)
Definition harvest_step (k : string) (v : any) (acc : option strmap) : option strmap :=
  match coerce v with
  | Some s => acc ≫= map_assign k s
  | None => acc
  end.

(** The loop over the entries of the map. A range over a nil map has no
    iteration. *)
Definition harvest (lgAttrs : option (gmap string any)) (attrs : strmap) : option strmap :=
  match lgAttrs with
  | None => Some attrs
  | Some m => map_fold harvest_step (Some attrs) m
  end.

(** The same loop visiting the entries in the order of a given list: Go
    leaves the order of a range over a map unspecified. *)
Definition harvest_in_order (entries : list (string * any)) (attrs : strmap) : option strmap :=
  fold_left (fun acc kv => uncurry harvest_step kv acc) entries (Some attrs).

Section Handlers.

(** compress/gzip: [gzip.NewReader] reads the member header and fails when
    there is none; [io.ReadAll] on the reader inflates the stream. *)
Context {gzipReader : Type}.
Variable gzip_NewReader : stream -> result gzipReader.
Variable gzip_ReadAll : gzipReader -> result string.

(** [model2.FromVerboseID], the tenant-identifier codec. *)
Variable FromVerboseID : string -> result Z.

(** [hlog.SubmitHTTPLog], the sink: given the calls made so far in this
    request, whether the next call returns an error. *)
Variable SubmitHTTPLog : list call -> Z -> hlog.Log -> option error.

(** [time.Now().UnixMilli()] and the random bytes read by [uuid.New]. *)
Variable now : Z.
Variable rand : nat -> ascii.

(** Process logging ([log.WithContext(...).Error]) is not modelled. *)

(** *** HandleFirehoseLog *)

Definition firehoseAttributes (cloudwatchPayload : Cloudwatch.Payload) : gmap string string :=
  <["service_name" := "firehose"]>
  (<["message_type" := Cloudwatch.MessageType cloudwatchPayload]>
  (<["owner" := Cloudwatch.Owner cloudwatchPayload]>
  (<["log_group" := Cloudwatch.LogGroup cloudwatchPayload]>
  (<["log_stream" := Cloudwatch.LogStream cloudwatchPayload]> ∅)))).

Definition eventLog (cloudwatchPayload : Cloudwatch.Payload) (event : Cloudwatch.LogEvent)
    : hlog.Log :=
  {| hlog.Message := Cloudwatch.Message event;
     hlog.Timestamp := formatTimestamp (Cloudwatch.Timestamp event);
     hlog.Level := "info";
     hlog.Attributes := made (firehoseAttributes cloudwatchPayload) |}.

Definition rawLog (lgTimestamp : Z) (msg : string) : hlog.Log :=
  {| hlog.Message := msg;
     hlog.Timestamp := formatTimestamp lgTimestamp;
     hlog.Level := "info";
     hlog.Attributes := nil_map |}.

(** The loop over [cloudwatchPayload.LogEvents]. The result is the error
    that ended the request, if any, and the sink calls made so far. *)
Fixpoint submitEvents (projectID : Z) (cloudwatchPayload : Cloudwatch.Payload)
    (events : list Cloudwatch.LogEvent) (tr : list call) : option error * list call :=
  match events with
  | [] => (None, tr)
  | event :: rest =>
    let hl := eventLog cloudwatchPayload event in
    match SubmitHTTPLog tr projectID hl with
    | Some err => (Some err, tr ++ [(projectID, hl)])
    | None => submitEvents projectID cloudwatchPayload rest (tr ++ [(projectID, hl)])
    end
  end.

(** The working payload of a record: the inflated bytes when the data
    opens as gzip, the data itself when it does not. *)
Definition recordPayload (data : string) : result string :=
  match gzip_NewReader (strings_NewReader data) with
  | Ok gz => gzip_ReadAll gz
  | Err _ => Ok data
  end.

(** The body of the loop over [lg.Records]. *)
Definition firehoseRecord (projectID lgTimestamp : Z) (l : Envelope.Record_)
    (tr : list call) : option error * list call :=
  match base64.DecodeString (Envelope.Data l) with
  | Err err => (Some err, tr)
  | Ok data =>
    match recordPayload data with
    | Err err => (Some err, tr)
    | Ok msg =>
      match Cloudwatch.Unmarshal msg with
      | Err _ =>
        let hl := rawLog lgTimestamp msg in
        (SubmitHTTPLog tr projectID hl, tr ++ [(projectID, hl)])
      | Ok cloudwatchPayload =>
        submitEvents projectID cloudwatchPayload
          (Cloudwatch.LogEvents cloudwatchPayload) tr
      end
    end
  end.

Fixpoint firehoseRecords (projectID lgTimestamp : Z) (records : list Envelope.Record_)
    (tr : list call) : option error * list call :=
  match records with
  | [] => (None, tr)
  | l :: rest =>
    match firehoseRecord projectID lgTimestamp l tr with
    | (Some err, tr') => (Some err, tr')
    | (None, tr') => firehoseRecords projectID lgTimestamp rest tr'
    end
  end.

Definition firehoseBody (r : Request) : result string :=
  if String.eqb (Header_Get (Header r) "content-encoding") "gzip" then
    try gz := gzip_NewReader (Body r) in gzip_ReadAll gz
  else io_ReadAll (Body r).

(** The envelope with its request id filled in. *)
Definition firehoseEnvelope (r : Request) : result Envelope.t :=
  try body := firehoseBody r in
  try lg := Envelope.Unmarshal body in
  if String.eqb (Envelope.RequestId lg) EmptyString then
    Ok (Envelope.mk (uuid.String_ (uuid.New rand)) (Envelope.Timestamp lg)
          (Envelope.Records lg))
  else Ok lg.

Definition firehoseProject (r : Request) : result Z :=
  try ProjectID :=
    AttributesMap.Unmarshal (Header_Get (Header r) "X-Amz-Firehose-Common-Attributes") in
  FromVerboseID ProjectID.

Definition HandleFirehoseLog (r : Request) : outcome * list call :=
  match firehoseEnvelope r with
  | Err err => (HTTPError err StatusBadRequest, [])
  | Ok lg =>
    match firehoseProject r with
    | Err err => (HTTPError err StatusBadRequest, [])
    | Ok projectID =>
      match firehoseRecords projectID (Envelope.Timestamp lg) (Envelope.Records lg) [] with
      | (Some err, tr) => (HTTPError err StatusBadRequest, tr)
      | (None, tr) => (FirehoseAck (Envelope.RequestId lg) now, tr)
      end
    end
  end.

(** *** HandleJSONLog *)

Definition jsonLogRecord (body : string) : result hlog.Log :=
  hlog.Unmarshal body (hlog.mkLog EmptyString EmptyString EmptyString (made ∅)).

Definition jsonLogAttrs (body : string) : result (option (gmap string any)) :=
  try v := parse_json body in gojson.decode_anymap v.

Definition HandleJSONLog (r : Request) : outcome * list call :=
  match io_ReadAll (Body r) with
  | Err err => (HTTPError err StatusBadRequest, [])
  | Ok body =>
    match jsonLogRecord body with
    | Err err => (HTTPError err StatusBadRequest, [])
    | Ok lg =>
      match jsonLogAttrs body with
      | Err err => (HTTPError err StatusBadRequest, [])
      | Ok lgAttrs =>
        match harvest lgAttrs (hlog.Attributes lg) with
        | None => (Panic, [])
        | Some harvested =>
          let attributes : gmap string string :=
            <[LogDrainServiceHeader := Header_Get (Header r) LogDrainServiceHeader]>
            (<[LogDrainProjectHeader := Header_Get (Header r) LogDrainProjectHeader]> ∅) in
          match FromVerboseID (default EmptyString (attributes !! LogDrainProjectHeader)) with
          | Err err => (HTTPError err StatusBadRequest, [])
          | Ok projectID =>
            match map_assign ServiceNameKey
                    (default EmptyString (attributes !! LogDrainServiceHeader)) harvested with
            | None => (Panic, [])
            | Some attrs =>
              let lg := hlog.mkLog (hlog.Message lg) (hlog.Timestamp lg) (hlog.Level lg) attrs in
              match SubmitHTTPLog [] projectID lg with
              | Some err => (HTTPError err StatusBadRequest, [(projectID, lg)])
              | None => (StatusOK, [(projectID, lg)])
              end
            end
          end
        end
      end
    end
  end.

End Handlers.

(** ** Reference collaborators

    Concrete readers, codec and sinks on which the handlers can be run. *)

(** A gzip reader for members whose deflate stream holds stored blocks only
    (RFC 1952, RFC 1951 section 3.2.4); a compressed block is reported as a
    read error. *)
Module storedgzip.

Definition ErrHeader : error := ErrOther "gzip: invalid header".
Definition ErrChecksum : error := ErrOther "gzip: invalid checksum".
Definition ErrUnexpectedEOF : error := ErrOther "unexpected EOF".
Definition EOF : error := ErrOther "EOF".
Definition CorruptInput : error := ErrOther "flate: corrupt input".

Definition crc_byte (crc b : Z) : Z :=
  let step (c : Z) := if Z.odd c then Z.lxor (Z.shiftr c 1) 3988292384 else Z.shiftr c 1 in
  step (step (step (step (step (step (step (step (Z.lxor crc b)))))))).

Fixpoint crc_update (crc : Z) (s : string) : Z :=
  match s with
  | EmptyString => crc
  | String c r => crc_update (crc_byte crc (code c)) r
  end.

Definition crc32 (s : string) : Z := Z.lxor (crc_update 4294967295 s) 4294967295.

Fixpoint split_bytes (n : nat) (s : string) : option (string * string) :=
  match n with
  | O => Some (EmptyString, s)
  | S n' =>
    match s with
    | String c r =>
      match split_bytes n' r with
      | Some (a, b) => Some (String c a, b)
      | None => None
      end
    | EmptyString => None
    end
  end.

Definition le (s : string) : Z :=
  fold_right (fun b acc => b + 256 * acc) 0 (codes_of s).

(** A zero-terminated header string of fewer than 512 bytes. *)
Fixpoint zstring (fuel : nat) (s : string) : result string :=
  match fuel with
  | O => Err ErrHeader
  | S fuel' =>
    match s with
    | EmptyString => Err ErrUnexpectedEOF
    | String c r => if code c =? 0 then Ok r else zstring fuel' r
    end
  end.

Definition need (n : nat) (s : string) : result (string * string) :=
  match split_bytes n s with
  | Some p => Ok p
  | None => Err ErrUnexpectedEOF
  end.

(** The member header; the result is the stream after it. *)
Definition readHeader (s : string) : result string :=
  match s with
  | EmptyString => Err EOF
  | String _ _ =>
    try p := need 10 s in
    let '(fixed, r) := p in
    match codes_of fixed with
    | id1 :: id2 :: cm :: flg :: _ =>
      if negb ((id1 =? 31) && (id2 =? 139) && (cm =? 8)) then Err ErrHeader
      else
        try r1 :=
          (if Z.testbit flg 2 then
             try p := need 2 r in
             try q := need (Z.to_nat (le (fst p))) (snd p) in Ok (snd q)
           else Ok r) in
        try r2 := (if Z.testbit flg 3 then zstring 512 r1 else Ok r1) in
        try r3 := (if Z.testbit flg 4 then zstring 512 r2 else Ok r2) in
        if Z.testbit flg 1 then
          try p := need 2 r3 in
          let consumed := (String.length s - String.length r3)%nat in
          match split_bytes consumed s with
          | Some (hdr, _) =>
            if le (fst p) =? (crc32 hdr) mod 65536 then Ok (snd p) else Err ErrHeader
          | None => Err ErrHeader
          end
        else Ok r3
    | _ => Err ErrHeader
    end
  end.

(** The stored blocks of one deflate stream: the data and what follows. *)
Fixpoint stored (fuel : nat) (s : string) : result (string * string) :=
  match fuel with
  | O => Err CorruptInput
  | S fuel' =>
    match s with
    | EmptyString => Err ErrUnexpectedEOF
    | String h r =>
      if negb (Z.land (Z.shiftr (code h) 1) 3 =? 0) then Err CorruptInput
      else
        try p := need 4 r in
        let len := le (fst p) mod 65536 in
        let nlen := le (fst p) / 65536 in
        if negb (nlen =? 65535 - len) then Err CorruptInput
        else
          try q := need (Z.to_nat len) (snd p) in
          if Z.odd (code h) then Ok q
          else
            try more := stored fuel' (snd q) in
            Ok (fst q +:+ fst more, snd more)
    end
  end.

(** Every member up to the end of the input, each with its trailer. *)
Fixpoint members (fuel : nat) (s : string) : result string :=
  match fuel with
  | O => Err CorruptInput
  | S fuel' =>
    try p := stored (S (String.length s)) s in
    try t := need 8 (snd p) in
    let '(crc, isize) :=
      match split_bytes 4 (fst t) with
      | Some (a, b) => (le a, le b)
      | None => (0, 0)
      end in
    if negb ((crc =? crc32 (fst p))
             && (isize =? Z.of_nat (String.length (fst p)) mod 4294967296))
    then Err ErrChecksum
    else
      match snd t with
      | EmptyString => Ok (fst p)
      | String _ _ =>
        try next := readHeader (snd t) in
        try more := members fuel' next in
        Ok (fst p +:+ more)
      end
  end.

(** An error for lack of input is the read error of the underlying reader,
    when that reader ends with one. *)
Definition starved (e : error) : bool :=
  match e with
  | ErrOther m => String.eqb m "unexpected EOF" || String.eqb m "EOF"
  | _ => false
  end.

Definition at_fault {A : Type} (s : stream) (r : result A) : result A :=
  match r, fault s with
  | Err x, Some e => if starved x then Err e else Err x
  | _, _ => r
  end.

Definition NewReader (s : stream) : result stream :=
  at_fault s (try r := readHeader (avail s) in Ok (mkStream r (fault s))).

Definition ReadAll (gz : stream) : result string :=
  match members (S (String.length (avail gz))) (avail gz), fault gz with
  | Ok _, Some e => Err e
  | r, _ => at_fault gz r
  end.

End storedgzip.

(** The decimal branch of the tenant codec: an identifier that is a decimal
    number in the range of int is the project id. *)
Definition decimalVerboseID (verboseId : string) : result Z :=
  match strconv.ParseInt verboseId with
  | Some projectID => Ok projectID
  | None => Err (ErrOther "An unsupported verboseID was used")
  end.

(** A sink that accepts every record, and one that rejects the call made
    after [n] earlier ones. *)
Definition acceptAll (tr : list call) (projectID : Z) (lg : hlog.Log) : option error := None.

Definition rejectAfter (n : nat) (tr : list call) (projectID : Z) (lg : hlog.Log) : option error :=
  if Nat.eqb (List.length tr) n then Some (ErrOther "sink unavailable") else None.

(** JSON text written with apostrophes for the quotation marks. *)
Fixpoint dq (s : string) : string :=
  match s with
  | EmptyString => EmptyString
  | String c r => String (if code c =? 39 then chr 34 else c) (dq r)
  end.

Definition header1 (k v : string) : gmap string (list string) := {[ k := [v] ]}.

Definition exampleNow : Z := 1700000000000.
Definition exampleRand (i : nat) : ascii := chr (Z.of_nat i * 17 + 3).

Definition drainA (sink : list call -> Z -> hlog.Log -> option error) (r : Request)
    : outcome * list call :=
  HandleFirehoseLog storedgzip.NewReader storedgzip.ReadAll decimalVerboseID sink
    exampleNow exampleRand r.

Definition drainB (sink : list call -> Z -> hlog.Log -> option error) (r : Request)
    : outcome * list call :=
  HandleJSONLog decimalVerboseID sink r.

(** ** Example requests *)

Definition firehoseRequest (attributes body : string) : Request :=
  mkRequest (header1 "X-Amz-Firehose-Common-Attributes" (dq attributes))
    (strings_NewReader (dq body)).

Definition jsonRequest (headers : gmap string (list string)) (body : string) : Request :=
  mkRequest headers (strings_NewReader (dq body)).

Definition tenant42 : string := "{'commonAttributes':{'x-highlight-project':'42'}}".

(** A SubEnvelope with two log events, as JSON text in base64. *)
Definition twoEvents : string :=
  "eyJtZXNzYWdlVHlwZSI6IkRBVEFfTUVTU0FHRSIsIm93bmVyIjoiMTIzIiwibG9nR3JvdXAiOiJnIiwibG9nU3RyZWFtIjoicyIsInN1YnNjcmlwdGlvbkZpbHRlcnMiOlsiZiJdLCJsb2dFdmVudHMiOlt7ImlkIjoiMSIsInRpbWVzdGFtcCI6MTcwMDAwMDAwMDAwMCwibWVzc2FnZSI6Im9uZSJ9LHsiaWQiOiIyIiwidGltZXN0YW1wIjoxNzAwMDAwMDAwMDAxLCJtZXNzYWdlIjoidHdvIn1dfQ==".

(** The same SubEnvelope as a gzip member of one stored block. *)
Definition twoEventsGzip : string :=
  "H4sIAAAAAAAEAwHfACD/eyJtZXNzYWdlVHlwZSI6IkRBVEFfTUVTU0FHRSIsIm93bmVyIjoiMTIzIiwibG9nR3JvdXAiOiJnIiwibG9nU3RyZWFtIjoicyIsInN1YnNjcmlwdGlvbkZpbHRlcnMiOlsiZiJdLCJsb2dFdmVudHMiOlt7ImlkIjoiMSIsInRpbWVzdGFtcCI6MTcwMDAwMDAwMDAwMCwibWVzc2FnZSI6Im9uZSJ9LHsiaWQiOiIyIiwidGltZXN0YW1wIjoxNzAwMDAwMDAwMDAxLCJtZXNzYWdlIjoidHdvIn1dfTWPLSLfAAAA".

(** The text [plain text line]. *)
Definition plainLine : string := "cGxhaW4gdGV4dCBsaW5l".

(** A gzip member header with nothing after it. *)
Definition headerOnly : string := "H4sIAAAAAAAEAw==".

Definition batch (requestId : string) (data : list string) : Request :=
  firehoseRequest tenant42
    ("{" +:+ requestId +:+ "'timestamp':1700000000000,'records':["
     +:+ String.concat "," (map (fun d => "{'data':'" +:+ d +:+ "'}") data) +:+ "]}").

Definition structuredBatch : Request := batch "'requestId':'req-1'," [twoEventsGzip; twoEvents].
Definition mixedBatch : Request := batch EmptyString [twoEventsGzip; plainLine; twoEvents].
Definition rawBatch : Request := batch "'requestId':'req-2'," [plainLine].
Definition corruptBatch : Request := batch EmptyString [plainLine; headerOnly; twoEvents].

(** A batch of one record with no data at all. *)
Definition emptyDataBatch : Request := batch EmptyString [EmptyString].

Definition project7 : gmap string (list string) := header1 "X-Highlight-Project" "7".

Definition countRequest : Request :=
  jsonRequest project7 "{'message':'hello','level':'warn','count':3}".

Definition emptyRequest : Request := jsonRequest project7 "{}".

Definition nullAttributesRequest : Request :=
  jsonRequest ∅ "{'attributes':null,'a':'b'}".

Definition serviceRequest : Request :=
  jsonRequest (<["X-Highlight-Service" := ["checkout"]]> project7)
    "{'message':'paid','service_name':'from-body','service.name':'also-body'}".

(** The attribute [k] of a record, [None] when it has none. *)
Definition attribute (lg : hlog.Log) (k : string) : option string :=
  match hlog.Attributes lg with
  | made m => m !! k
  | nil_map => None
  end.

Definition int64 (n : Z) : Prop := - 2 ^ 63 <= n <= 2 ^ 63 - 1.

(** Every sink call of [tr] returned no error. *)
Definition accepted (SubmitHTTPLog : list call -> Z -> hlog.Log -> option error)
    (tr : list call) : Prop :=
  forall h c t, tr = h ++ c :: t -> SubmitHTTPLog h (fst c) (snd c) = None.

(** The working payload of a record decodes as the SubEnvelope [p]. *)
Definition structured {gzipReader : Type}
    (gzip_NewReader : stream -> result gzipReader)
    (gzip_ReadAll : gzipReader -> result string)
    (l : Envelope.Record_) (p : Cloudwatch.Payload) : Prop :=
  exists data msg,
    base64.DecodeString (Envelope.Data l) = Ok data
    /\ recordPayload gzip_NewReader gzip_ReadAll data = Ok msg
    /\ Cloudwatch.Unmarshal msg = Ok p.

(** The working payload of a record is [msg] and does not decode. *)
Definition unstructured {gzipReader : Type}
    (gzip_NewReader : stream -> result gzipReader)
    (gzip_ReadAll : gzipReader -> result string)
    (l : Envelope.Record_) (msg : string) : Prop :=
  exists data e,
    base64.DecodeString (Envelope.Data l) = Ok data
    /\ recordPayload gzip_NewReader gzip_ReadAll data = Ok msg
    /\ Cloudwatch.Unmarshal msg = Err e.

(** The attributes [HandleJSONLog] builds from the body alone: the typed
    parse followed by the harvest. *)
Definition bodyAttributes (body : string) : option (gmap string string) :=
  match jsonLogRecord body, jsonLogAttrs body with
  | Ok lg, Ok lgAttrs =>
    match harvest lgAttrs (hlog.Attributes lg) with
    | Some (made m) => Some m
    | _ => None
    end
  | _, _ => None
  end.

(** The calls a structured record makes when the sink accepts them. *)
Definition eventCalls (projectID : Z) (p : Cloudwatch.Payload) : list call :=
  map (fun ev => (projectID, eventLog p ev)) (Cloudwatch.LogEvents p).

(** What a loop leaves behind when it starts after accepted calls: either
    every call was accepted, or the last call is the only one that was not
    and its error is the one the loop returns. *)
Definition settled (SubmitHTTPLog : list call -> Z -> hlog.Log -> option error)
    (res : option error * list call) : Prop :=
  match res with
  | (None, tr') => accepted SubmitHTTPLog tr'
  | (Some err, tr') =>
    accepted SubmitHTTPLog tr'
    \/ exists h c, tr' = h ++ [c] /\ accepted SubmitHTTPLog h
                   /\ SubmitHTTPLog h (fst c) (snd c) = Some err
  end.

(** The shape of the records Drain-A builds: the timestamp is the rendering
    of an int64 count of milliseconds, the level is info. *)
Definition firehoseShaped (hl : hlog.Log) : Prop :=
  exists ms, int64 ms /\ hlog.Timestamp hl = formatTimestamp ms /\ hlog.Level hl = "info".

(** The values the example requests decode to. *)
Definition twoEventsPayload : Cloudwatch.Payload :=
  Cloudwatch.mk "DATA_MESSAGE" "123" "g" "s" ["f"]
    [Cloudwatch.mkEvent "1" 1700000000000 "one";
     Cloudwatch.mkEvent "2" 1700000000001 "two"].

Definition structuredEnvelope : Envelope.t :=
  Envelope.mk "req-1" 1700000000000
    [Envelope.mkRecord twoEventsGzip; Envelope.mkRecord twoEvents].

Definition rawEnvelope : Envelope.t :=
  Envelope.mk "req-2" 1700000000000 [Envelope.mkRecord plainLine].

Definition corruptEnvelope : Envelope.t :=
  Envelope.mk (uuid.String_ (uuid.New exampleRand)) 1700000000000
    [Envelope.mkRecord plainLine; Envelope.mkRecord headerOnly; Envelope.mkRecord twoEvents].

Definition plainCall : call := (42, rawLog 1700000000000 "plain text line").

Definition serviceRecord : hlog.Log :=
  hlog.mkLog "paid" EmptyString EmptyString
    (made (<["service.name" := "checkout"]>
           (<["message" := "paid"]>
           (<["service_name" := "from-body"]> ∅)))).

(** ** Further example requests and predicates *)

(** The bytes a base64 text stands for, none when it is malformed. *)
Definition bytes64 (b64 : string) : string :=
  match base64.DecodeString b64 with
  | Ok data => data
  | Err _ => EmptyString
  end.

(** [rawBatch] with the request id req-3, sent as a gzip member of one
    stored block under content-encoding gzip, and sent as it is. *)
Definition gzipBody : string :=
  bytes64 "H4sIAAAAAAAEAwFbAKT/eyJyZXF1ZXN0SWQiOiJyZXEtMyIsInRpbWVzdGFtcCI6MTcwMDAwMDAwMDAwMCwicmVjb3JkcyI6W3siZGF0YSI6ImNHeGhhVzRnZEdWNGRDQnNhVzVsIn1dfa1F/GhbAAAA".

Definition plainBody : string :=
  dq "{'requestId':'req-3','timestamp':1700000000000,'records':[{'data':'cGxhaW4gdGV4dCBsaW5l'}]}".

Definition tenantHeader : gmap string (list string) :=
  header1 "X-Amz-Firehose-Common-Attributes" (dq tenant42).

Definition gzipRequest : Request :=
  mkRequest (<["Content-Encoding" := ["gzip"]]> tenantHeader) (strings_NewReader gzipBody).

Definition plainRequest : Request :=
  mkRequest tenantHeader (strings_NewReader plainBody).

(** A batch sent without the attributes header. *)
Definition noTenantRequest : Request :=
  mkRequest ∅ (strings_NewReader plainBody).

(** A batch whose second record is not base64. *)
Definition badBase64Batch : Request := batch EmptyString [plainLine; "not base64!"; twoEvents].

(** The JSON texts {"foo":1,"bar":[true]} and "just a string" in base64. *)
Definition otherObject : string := "eyJmb28iOjEsImJhciI6W3RydWVdfQ==".
Definition jsonString : string := "Imp1c3QgYSBzdHJpbmci".

Definition otherObjectBatch : Request := batch "'requestId':'req-4'," [otherObject].
Definition otherObjectEnvelope : Envelope.t :=
  Envelope.mk "req-4" 1700000000000 [Envelope.mkRecord otherObject].

(** The names of the fields of [cloudwatchPayload]. *)
Definition cloudwatchFields : list string :=
  ["MessageType"; "Owner"; "LogGroup"; "LogStream"; "SubscriptionFilters"; "LogEvents"].

Definition namesCloudwatchField (k : string) : bool :=
  existsb (fun name => gojson.field_is name k) cloudwatchFields.

(** The working payload of a record is JSON null, or a JSON object none of
    whose keys names a field of the SubEnvelope. *)
Definition unrecognised {gzipReader : Type}
    (gzip_NewReader : stream -> result gzipReader)
    (gzip_ReadAll : gzipReader -> result string)
    (l : Envelope.Record_) : Prop :=
  exists data msg v,
    base64.DecodeString (Envelope.Data l) = Ok data
    /\ recordPayload gzip_NewReader gzip_ReadAll data = Ok msg
    /\ parse_json msg = Ok v
    /\ (v = JNull
        \/ exists members,
             v = JObj members
             /\ Forall (fun kv => namesCloudwatchField (fst kv) = false) members).

(** A JSON value that is neither an object nor null. *)
Definition is_scalar_or_array (v : json) : bool :=
  match v with
  | JObj _ | JNull => false
  | _ => true
  end.

(** The attributes of the records Drain-A builds: none for a raw record,
    the five attributes of a log event otherwise. *)
Definition firehoseTagged (hl : hlog.Log) : Prop :=
  hlog.Attributes hl = nil_map
  \/ exists m,
       hlog.Attributes hl = made m
       /\ dom m = {["service_name"; "message_type"; "owner"; "log_group"; "log_stream"]}
       /\ m !! "service_name" = Some "firehose".

(** The value an object gives a key: that of the last member with the key. *)
Fixpoint last_member (k : string) (members : list (string * json)) : option json :=
  match members with
  | [] => None
  | (k', v) :: rest =>
    match last_member k rest with
    | Some v' => Some v'
    | None => if String.eqb k' k then Some v else None
    end
  end.

(** Every number of the value, at any depth, is within the range of
    float64. *)
Fixpoint numbers_in_range (v : json) : bool :=
  match v with
  | JNum lit => match strconv.ParseFloat lit with Some _ => true | None => false end
  | JArr elems => forallb numbers_in_range elems
  | JObj members => forallb (fun kv => numbers_in_range (snd kv)) members
  | _ => true
  end.

(** The key names one of the string fields of [hlog.Log]. *)
Definition typedStringField (k : string) : bool :=
  gojson.field_is "message" k || gojson.field_is "timestamp" k || gojson.field_is "level" k.

Definition is_string_or_null (v : json) : bool :=
  match v with
  | JStr _ | JNull => true
  | _ => false
  end.

(** Bodies with a numeric timestamp, with a number beyond float64 in a
    nested field, and with fields of every JSON type. *)
Definition numericTimestampRequest : Request :=
  jsonRequest project7 "{'message':'hi','timestamp':1700000000000}".

Definition hugeNumberRequest : Request :=
  jsonRequest project7 "{'message':'hi','extra':{'deep':[1e999]}}".

Definition hugeNumberBody : json :=
  JObj [("message", JStr "hi"); ("extra", JObj [("deep", JArr [JNum "1e999"])])].

Definition typesRequest : Request :=
  jsonRequest project7
    "{'user':'ann','count':3,'ok':true,'tags':['a'],'attributes':{'tags':'kept','user':'lost'},'user':'bob'}".

Definition typesMembers : list (string * json) :=
  [("user", JStr "ann"); ("count", JNum "3"); ("ok", JBool true); ("tags", JArr [JStr "a"]);
   ("attributes", JObj [("tags", JStr "kept"); ("user", JStr "lost")]); ("user", JStr "bob")].

Definition typesRecord : hlog.Log :=
  hlog.mkLog EmptyString EmptyString EmptyString
    (made (<["service.name" := EmptyString]>
           (<["user" := "bob"]>
           (<["count" := "3E+00"]>
           (<["tags" := "kept"]> ∅))))).

(** A member of the envelope whose value does not fit the field its key
    names: a request id that is not a string, a timestamp that is not an
    integer literal in the range of int64, records that are not an array
    (null fits every field). *)
Definition envelopeMismatch (k : string) (v : json) : bool :=
  match v with
  | JNull => false
  | _ =>
    if gojson.field_is "RequestId" k then negb (is_string_or_null v)
    else if gojson.field_is "Timestamp" k then
      match v with
      | JNum lit => match strconv.ParseInt lit with Some _ => false | None => true end
      | _ => true
      end
    else if gojson.field_is "Records" k then
      match v with JArr _ => false | _ => true end
    else false
  end.

(** A batch whose timestamp is written with a fraction. *)
Definition fractionTimestampRequest : Request :=
  firehoseRequest tenant42 "{'timestamp':1700000000000.0,'records':[]}".

(** The deflate stream of [gzipBody]: what follows its ten-byte header. *)
Definition gzipDeflate : string :=
  match storedgzip.split_bytes 10 gzipBody with
  | Some (_, rest) => rest
  | None => EmptyString
  end.

Definition badBase64Envelope : Envelope.t :=
  Envelope.mk (uuid.String_ (uuid.New exampleRand)) 1700000000000
    [Envelope.mkRecord plainLine; Envelope.mkRecord "not base64!"; Envelope.mkRecord twoEvents].

(** The first sink call of [structuredBatch]. *)
Definition firstEventCall : call :=
  (42, eventLog twoEventsPayload (Cloudwatch.mkEvent "1" 1700000000000 "one")).

(** A decoded body of two attributes, one of them not a string or number. *)
Definition twoEntries : gmap string any :=
  <["a" := AString "x"]> (<["b" := ABool true]> ∅).

(** The JSON value is an object one of whose keys names the field [name]. *)
Definition namesField (name : string) (v : json) : bool :=
  match v with
  | JObj members => existsb (fun kv => gojson.field_is name (fst kv)) members
  | _ => false
  end.

(** Two random sources give [uuid.New] the same 122 bits: the same bytes,
    up to the four bits of byte 6 and the two bits of byte 8 that the
    version and the variant overwrite. *)
Definition sameDraw (rand rand' : nat -> ascii) : Prop :=
  (forall i, (i < 16)%nat -> i <> 6%nat -> i <> 8%nat -> rand i = rand' i)
  /\ Z.land (code (rand 6%nat)) 15 = Z.land (code (rand' 6%nat)) 15
  /\ Z.land (code (rand 8%nat)) 63 = Z.land (code (rand' 8%nat)) 63.

(** A batch whose request id is given as the empty string. *)
Definition emptyIdBatch : Request := batch "'requestId':''," [plainLine].

Definition emptyIdMembers : list (string * json) :=
  [("requestId", JStr EmptyString); ("timestamp", JNum "1700000000000");
   ("records", JArr [JObj [("data", JStr plainLine)]])].

(** A batch without a request id. *)
Definition noIdBatch : Request := batch EmptyString [plainLine].

(** Valid JSON with two log events and a number for the owner, in base64. *)
Definition ownerNumber : string :=
  "eyJvd25lciI6MTIzLCJsb2dFdmVudHMiOlt7ImlkIjoiMSIsInRpbWVzdGFtcCI6MTcwMDAwMDAwMDAwMCwibWVzc2FnZSI6Im9uZSJ9LHsiaWQiOiIyIiwidGltZXN0YW1wIjoxNzAwMDAwMDAwMDAxLCJtZXNzYWdlIjoidHdvIn1dfQ==".

Definition ownerNumberValue : json :=
  JObj [("owner", JNum "123");
        ("logEvents",
         JArr [JObj [("id", JStr "1"); ("timestamp", JNum "1700000000000");
                     ("message", JStr "one")];
               JObj [("id", JStr "2"); ("timestamp", JNum "1700000000001");
                     ("message", JStr "two")]])].

Definition ownerNumberBatch : Request := batch "'requestId':'req-5'," [ownerNumber].

(** A payload that gives the key logEvents three times: three events, then
    one, then two of which the second is the empty object. *)
Definition repeatedKey : string :=
  "eyJsb2dFdmVudHMiOlt7ImlkIjoiYSIsIm1lc3NhZ2UiOiJBIn0seyJpZCI6ImIiLCJtZXNzYWdlIjoiQiJ9LHsiaWQiOiJjIn1dLCJsb2dFdmVudHMiOlt7ImlkIjoiZCJ9XSwibG9nRXZlbnRzIjpbeyJpZCI6ImUifSx7fV19".

(** The identifier that [exampleRand] gives. *)
Definition exampleId : string := "03142536-4758-497a-8b9c-adbecfe0f102".

(** The record of the body {} sent without a service header. *)
Definition emptyRecord : hlog.Log :=
  hlog.mkLog EmptyString EmptyString EmptyString
    (made (<["service.name" := EmptyString]> ∅)).

(** * Properties *)

(** ** Library facts *)

Lemma bind_ok {A B : Type} (r : result A) (k : A -> result B) (b : B) :
  bind r k = Ok b -> exists a, r = Ok a /\ k a = Ok b.
Proof. destruct r as [a|e]; simpl; [eauto | discriminate]. Qed.

Tactic Notation "bind_inv" hyp(H) "as" ident(a) ident(Ha) :=
  apply bind_ok in H as (a & Ha & H).

Tactic Notation "bind_inv" hyp(H) :=
  let a := fresh "a" in
  let Ha := fresh "Ha" in
  apply bind_ok in H as (a & Ha & H).

Lemma append_nonempty (a b : string) : b <> EmptyString -> a +:+ b <> EmptyString.
Proof. destruct a; simpl; [auto | discriminate]. Qed.

Lemma formatTimestamp_nonempty (ms : Z) : formatTimestamp ms <> EmptyString.
Proof.
  unfold formatTimestamp. destruct (time.civil _) as [[y m] d].
  repeat (apply append_nonempty). discriminate.
Qed.

Lemma uuid_length (u : list Z) : String.length (uuid.String_ u) = 36%nat.
Proof. reflexivity. Qed.

Lemma code_chr (z : Z) : code (chr z) = z mod 256.
Proof.
  unfold code, chr. rewrite N_ascii_embedding.
  - apply Z2N.id. apply Z.mod_pos_bound. lia.
  - pose proof (Z.mod_pos_bound z 256 ltac:(lia)). lia.
Qed.

Lemma code_range (c : ascii) : 0 <= code c < 256.
Proof. unfold code. pose proof (N_ascii_bounded c) as H. lia. Qed.

Lemma code_inj (c c' : ascii) : code c = code c' -> c = c'.
Proof.
  unfold code. intros H. apply N2Z.inj in H.
  rewrite <- (ascii_N_embedding c), <- (ascii_N_embedding c'). by rewrite H.
Qed.

(** *** The identifier determines the random bits it was made from *)

Lemma hex_digit_inj (n m : Z) :
  0 <= n < 16 -> 0 <= m < 16 -> uuid.hex_digit n = uuid.hex_digit m -> n = m.
Proof.
  intros Hn Hm H. apply (f_equal code) in H. unfold uuid.hex_digit in H.
  destruct (n <? 10) eqn:En; destruct (m <? 10) eqn:Em; rewrite !code_chr in H;
    rewrite !Z.mod_small in H by lia; lia.
Qed.

Lemma hex_byte_inj (b b' : Z) (k k' : string) :
  0 <= b < 256 -> 0 <= b' < 256 ->
  uuid.hex_byte b k = uuid.hex_byte b' k' -> b = b' /\ k = k'.
Proof.
  intros Hb Hb'. unfold uuid.hex_byte. intros [= H1 H2 H3].
  split; [|exact H3].
  apply hex_digit_inj in H1; [|split; [apply Z.div_pos; lia | apply Z.div_lt_upper_bound; lia]..].
  apply hex_digit_inj in H2; [|apply Z.mod_pos_bound; lia..].
  rewrite (Z.div_mod b 16), (Z.div_mod b' 16) by lia. lia.
Qed.

Lemma land_lor_disjoint (b mask bits : Z) :
  0 <= b -> 0 <= mask -> Z.land mask bits = 0 ->
  Z.lor (Z.land b mask) bits = Z.land b mask + bits.
Proof.
  intros Hb Hm H. rewrite Z.add_nocarry_lxor.
  - symmetry. apply Z.lxor_lor. by rewrite <- Z.land_assoc, H, Z.land_0_r.
  - by rewrite <- Z.land_assoc, H, Z.land_0_r.
Qed.

Lemma uuid_byte_range (rand : nat -> ascii) (i : nat) :
  0 <= nth i (uuid.New rand) 0 < 256.
Proof.
  assert (Hc : forall c, 0 <= code c < 256) by apply code_range.
  assert (H15 : forall c, 0 <= Z.lor (Z.land (code c) 15) 64 < 256).
  { intros c. pose proof (Hc c). rewrite land_lor_disjoint by (reflexivity || lia).
    change 15 with (Z.ones 4). rewrite Z.land_ones by lia.
    pose proof (Z.mod_pos_bound (code c) (2 ^ 4) ltac:(lia)). lia. }
  assert (H63 : forall c, 0 <= Z.lor (Z.land (code c) 63) 128 < 256).
  { intros c. pose proof (Hc c). rewrite land_lor_disjoint by (reflexivity || lia).
    change 63 with (Z.ones 6). rewrite Z.land_ones by lia.
    pose proof (Z.mod_pos_bound (code c) (2 ^ 6) ltac:(lia)). lia. }
  unfold uuid.New. cbn [seq map Nat.eqb].
  do 16 (destruct i as [|i]; [cbn [nth]; first [apply Hc | apply H15 | apply H63]|]).
  destruct i; cbn [nth]; lia.
Qed.

Lemma string_tail (c : ascii) (k k' : string) : String c k = String c k' -> k = k'.
Proof. by intros [= ->]. Qed.

Lemma uuid_String_inj (u u' : list Z) :
  (forall i, 0 <= nth i u 0 < 256) -> (forall i, 0 <= nth i u' 0 < 256) ->
  uuid.String_ u = uuid.String_ u' ->
  forall i, (i < 16)%nat -> nth i u 0 = nth i u' 0.
Proof.
  intros Hu Hu' H. unfold uuid.String_ in H. cbv beta zeta in H.
  repeat match type of H with
         | uuid.hex_byte _ _ = uuid.hex_byte _ _ =>
           apply hex_byte_inj in H as [? H]; [|apply Hu | apply Hu']
         | String _ _ = String _ _ => apply string_tail in H
         end.
  intros i Hi.
  do 16 (destruct i as [|i]; [assumption|]). lia.
Qed.

(** Two draws give the same identifier exactly when they agree on the bits
    that [uuid.New] keeps. *)
Lemma uuid_same_draw (rand rand' : nat -> ascii) :
  uuid.String_ (uuid.New rand) = uuid.String_ (uuid.New rand') <-> sameDraw rand rand'.
Proof.
  split.
  - intros H.
    pose proof (uuid_String_inj _ _ (uuid_byte_range rand) (uuid_byte_range rand') H) as Hb.
    repeat split.
    + intros i Hi H6 H8. specialize (Hb i Hi). apply code_inj.
      unfold uuid.New in Hb. cbn [seq map Nat.eqb] in Hb.
      do 16 (destruct i as [|i]; [first [contradiction | exact Hb]|]). lia.
    + specialize (Hb 6%nat ltac:(lia)). unfold uuid.New in Hb. cbn [seq map Nat.eqb nth] in Hb.
      pose proof (code_range (rand 6%nat)). pose proof (code_range (rand' 6%nat)).
      rewrite !land_lor_disjoint in Hb by (reflexivity || lia). lia.
    + specialize (Hb 8%nat ltac:(lia)). unfold uuid.New in Hb. cbn [seq map Nat.eqb nth] in Hb.
      pose proof (code_range (rand 8%nat)). pose proof (code_range (rand' 8%nat)).
      rewrite !land_lor_disjoint in Hb by (reflexivity || lia). lia.
  - intros (Hother & H6 & H8). f_equal. unfold uuid.New. apply map_ext_in.
    intros i Hi. apply in_seq in Hi. simpl.
    destruct (Nat.eqb_spec i 6) as [->|N6]; [by rewrite H6|].
    destruct (Nat.eqb_spec i 8) as [->|N8]; [by rewrite H8|].
    rewrite Hother by lia. reflexivity.
Qed.

Lemma ParseInt_int64 (s : string) (n : Z) : strconv.ParseInt s = Some n -> int64 n.
Proof.
  unfold strconv.ParseInt, int64, between.
  destruct (match s with EmptyString => _ | String _ _ => _ end) as [neg body].
  destruct body; [discriminate|].
  destruct (strconv.digits_value _ _); [|discriminate].
  destruct (_ && _) eqn:E; [|discriminate].
  intros [= <-]. apply andb_true_iff in E as [E1 E2]. lia.
Qed.

Lemma decode_int64_range (v : json) (cur n : Z) :
  int64 cur -> gojson.decode_int64 v cur = Ok n -> int64 n.
Proof.
  intros Hc. destruct v; simpl; try discriminate.
  - intros [= <-]. exact Hc.
  - destruct (strconv.ParseInt lit) eqn:E; [|discriminate].
    intros [= <-]. eapply ParseInt_int64, E.
Qed.

(** A property of the variable that every field store keeps holds after the
    whole object. *)
Lemma decode_members_inv {T : Type} (P : T -> Prop)
    (field : string -> json -> T -> result T) :
  (forall k v x x', P x -> field k v x = Ok x' -> P x') ->
  forall members cur r, P cur -> gojson.decode_members field members cur = Ok r -> P r.
Proof.
  intros Hf. induction members as [|[k v] rest IH]; simpl; intros cur r Hc H.
  - injection H as <-. exact Hc.
  - bind_inv H. eapply IH; [|exact H]. eapply Hf; eauto.
Qed.

Lemma decode_struct_inv {T : Type} (P : T -> Prop)
    (field : string -> json -> T -> result T) :
  (forall k v x x', P x -> field k v x = Ok x' -> P x') ->
  forall v cur r, P cur -> gojson.decode_struct field v cur = Ok r -> P r.
Proof.
  intros Hf v cur r Hc. destruct v; simpl; try discriminate.
  - intros [= <-]. exact Hc.
  - apply decode_members_inv; assumption.
Qed.

(** A field that no member of the object names keeps the value the variable
    held. *)
Lemma decode_members_keep {T A : Type} (f : T -> A)
    (field : string -> json -> T -> result T) (name : string) :
  (forall k v x x', gojson.field_is name k = false -> field k v x = Ok x' -> f x' = f x) ->
  forall members cur r,
    existsb (fun kv => gojson.field_is name (fst kv)) members = false ->
    gojson.decode_members field members cur = Ok r -> f r = f cur.
Proof.
  intros Hf. induction members as [|[k v] rest IH]; simpl; intros cur r Hn H.
  - by injection H as <-.
  - apply orb_false_elim in Hn as [Hk Hn]. bind_inv H as x Hx.
    rewrite (IH x r Hn H). eapply Hf; eassumption.
Qed.

Lemma decode_struct_keep {T A : Type} (f : T -> A)
    (field : string -> json -> T -> result T) (name : string) :
  (forall k v x x', gojson.field_is name k = false -> field k v x = Ok x' -> f x' = f x) ->
  forall v cur r,
    namesField name v = false -> gojson.decode_struct field v cur = Ok r -> f r = f cur.
Proof.
  intros Hf v cur r. destruct v; simpl; try discriminate.
  - intros _ [= <-]. reflexivity.
  - by apply decode_members_keep.
Qed.

Lemma decode_elems_inv {T : Type} (P : T -> Prop)
    (elem : json -> T -> result T) (zero : T) :
  P zero ->
  (forall v x x', P x -> elem v x = Ok x' -> P x') ->
  forall elems backing r,
    Forall P backing -> gojson.decode_elems elem zero elems backing = Ok r ->
    Forall P (fst r) /\ Forall P (snd r).
Proof.
  intros Hz He. induction elems as [|v rest IH]; simpl; intros backing r Hc H.
  - injection H as <-. split; [constructor | exact Hc].
  - bind_inv H as x Hx. bind_inv H as xs Hxs. injection H as <-. simpl.
    destruct (IH (tl backing) xs) as [H1 H2]; [destruct Hc; simpl; auto | exact Hxs |].
    split; [|exact H2]. constructor; [|exact H1].
    eapply He; [|exact Hx]. destruct Hc; simpl; assumption.
Qed.

(** A property of the elements that every element store keeps holds of the
    whole backing array after a store into the slice. *)
Lemma decode_slice_inv {T : Type} (P : T -> Prop)
    (elem : json -> T -> result T) (zero : T) :
  P zero ->
  (forall v x x', P x -> elem v x = Ok x' -> P x') ->
  forall v cur r,
    Forall P (gojson.items cur) -> Forall P (gojson.spare cur) ->
    gojson.decode_slice elem zero v cur = Ok r ->
    Forall P (gojson.items r) /\ Forall P (gojson.spare r).
Proof.
  intros Hz He v cur r Hi Hs. destruct v; simpl; try discriminate.
  - intros [= <-]. split; constructor.
  - destruct elems as [|x elems]; [intros [= <-]; split; constructor|].
    intros H. bind_inv H as p Hp. injection H as <-. simpl.
    revert Hp. apply decode_elems_inv; try assumption.
    apply Forall_app. split; assumption.
Qed.

Ltac field_cases H :=
  repeat match type of H with
  | (if ?b then _ else _) = _ => destruct b
  end.

Lemma Envelope_Unmarshal_int64 (body : string) (lg : Envelope.t) :
  Envelope.Unmarshal body = Ok lg -> int64 (Envelope.Timestamp lg).
Proof.
  unfold Envelope.Unmarshal. intros H. bind_inv H. bind_inv H as x Hx. injection H as <-.
  revert Hx. apply (decode_struct_inv (fun lg => int64 (Envelope.timestamp lg))).
  - intros k v y y' Hy H. unfold Envelope.field in H. field_cases H.
    + bind_inv H. injection H as <-. exact Hy.
    + bind_inv H. injection H as <-. simpl. eapply decode_int64_range; eauto.
    + bind_inv H. injection H as <-. exact Hy.
    + injection H as <-. exact Hy.
  - unfold int64. simpl. lia.
Qed.

Lemma Cloudwatch_Unmarshal_int64 (msg : string) (p : Cloudwatch.Payload) :
  Cloudwatch.Unmarshal msg = Ok p ->
  Forall (fun ev => int64 (Cloudwatch.Timestamp ev)) (Cloudwatch.LogEvents p).
Proof.
  unfold Cloudwatch.Unmarshal. intros H. bind_inv H. bind_inv H as x Hx. injection H as <-.
  simpl. revert Hx.
  set (P := fun ev => int64 (Cloudwatch.Timestamp ev)).
  intros Hx.
  enough (Forall P (gojson.items (Cloudwatch.logEvents x))
          /\ Forall P (gojson.spare (Cloudwatch.logEvents x))) as [H _] by exact H.
  revert Hx.
  apply (decode_struct_inv
           (fun p => Forall P (gojson.items (Cloudwatch.logEvents p))
                     /\ Forall P (gojson.spare (Cloudwatch.logEvents p)))).
  - intros k v y y' Hy H. unfold Cloudwatch.field in H. field_cases H;
      try (bind_inv H; injection H as <-; exact Hy);
      try (injection H as <-; exact Hy).
    bind_inv H as evs Hevs. injection H as <-. simpl.
    destruct Hy as [Hy1 Hy2].
    revert Hevs. apply decode_slice_inv; [unfold P, int64; simpl; lia | | exact Hy1 | exact Hy2].
    clear. intros v x x' Hx.
    apply (decode_struct_inv P); [|exact Hx].
    clear. intros k v x x' Hx H. unfold Cloudwatch.event_field in H. field_cases H;
      try (bind_inv H; injection H as <-; exact Hx);
      try (injection H as <-; exact Hx).
    bind_inv H. injection H as <-. unfold P. simpl. eapply decode_int64_range; eauto.
  - split; constructor.
Qed.

Lemma Envelope_absent_request_id (body : string) (v : json) (lg : Envelope.t) :
  parse_json body = Ok v -> Envelope.Unmarshal body = Ok lg ->
  namesField "RequestId" v = false -> Envelope.RequestId lg = EmptyString.
Proof.
  unfold Envelope.Unmarshal. intros -> H Hn. simpl in H. bind_inv H as x Hx.
  injection H as <-. simpl.
  apply (decode_struct_keep Envelope.requestId Envelope.field "RequestId") in Hx;
    [exact Hx | | exact Hn].
  clear. intros k v x x' Hk H. unfold Envelope.field in H. rewrite Hk in H.
  field_cases H; try (bind_inv H); by injection H as <-.
Qed.

Lemma hlog_absent_message (body : string) (v : json) (cur lg : hlog.Log) :
  parse_json body = Ok v -> hlog.Unmarshal body cur = Ok lg ->
  namesField "message" v = false -> hlog.Message lg = hlog.Message cur.
Proof.
  unfold hlog.Unmarshal. intros -> H Hn. simpl in H. revert Hn H.
  apply (decode_struct_keep hlog.Message hlog.field "message").
  clear. intros k v x x' Hk H. unfold hlog.field in H. rewrite Hk in H.
  field_cases H; try (bind_inv H); by injection H as <-.
Qed.

Lemma hlog_absent_timestamp (body : string) (v : json) (cur lg : hlog.Log) :
  parse_json body = Ok v -> hlog.Unmarshal body cur = Ok lg ->
  namesField "timestamp" v = false -> hlog.Timestamp lg = hlog.Timestamp cur.
Proof.
  unfold hlog.Unmarshal. intros -> H Hn. simpl in H. revert Hn H.
  apply (decode_struct_keep hlog.Timestamp hlog.field "timestamp").
  clear. intros k v x x' Hk H. unfold hlog.field in H.
  destruct (gojson.field_is "message" k); [bind_inv H; by injection H as <-|].
  rewrite Hk in H.
  field_cases H; try (bind_inv H); by injection H as <-.
Qed.

(** *** The library models on sample values *)

Example parse_json_object :
  parse_json (dq "{'a': [1, -2.5e3, true, null], 'b': 'x\u00e9'}")
  = Ok (JObj [("a", JArr [JNum "1"; JNum "-2.5e3"; JBool true; JNull]);
              ("b", JStr (bytes_of [120; 195; 169]))]).
Proof. vm_compute. reflexivity. Qed.

Example parse_json_rejects :
  map parse_json [dq "[1,]"; "01"; dq "{'a':1,}"; EmptyString; "1 2"; "1."; "nul"; dq "'a"]
  = repeat (Err SyntaxError) 8.
Proof. vm_compute. reflexivity. Qed.

Example FormatFloat_samples :
  map (fun lit => option_map strconv.FormatFloat (strconv.ParseFloat lit))
      ["3"; "-0"; "0.1"; "1500"; "1e21"; "5e-324"; "12345678901234567890";
       "1.7976931348623157e308"; "1e999"]
  = [Some "3E+00"; Some "-0E+00"; Some "1E-01"; Some "1.5E+03"; Some "1E+21";
     Some "5E-324"; Some "1.2345678901234567E+19"; Some "1.7976931348623157E+308"; None].
Proof. vm_compute. reflexivity. Qed.

Example ParseInt_samples :
  map strconv.ParseInt ["3"; "-0"; "9223372036854775807"; "9223372036854775808"; "1.0"; "1e3"]
  = [Some 3; Some 0; Some 9223372036854775807; None; None; None].
Proof. vm_compute. reflexivity. Qed.

Example DecodeString_samples :
  map base64.DecodeString ["aGVsbG8="; "aGVsbG8"; "aA=="; "aA="; "aGVs=bG8="; EmptyString]
  = [Ok "hello"; Err CorruptInputError; Ok "h"; Err CorruptInputError;
     Err CorruptInputError; Ok EmptyString].
Proof. vm_compute. reflexivity. Qed.

Example formatTimestamp_samples :
  map formatTimestamp [0; 1700000000000; -1; 951782400000; 253402300799999]
  = ["1970-01-01T00:00:00.000Z"; "2023-11-14T22:13:20.000Z"; "1969-12-31T23:59:59.999Z";
     "2000-02-29T00:00:00.000Z"; "9999-12-31T23:59:59.999Z"].
Proof. vm_compute. reflexivity. Qed.

Example CanonicalMIMEHeaderKey_samples :
  map CanonicalMIMEHeaderKey
      ["content-encoding"; LogDrainProjectHeader; LogDrainServiceHeader; "a b"]
  = ["Content-Encoding"; "X-Highlight-Project"; "X-Highlight-Service"; "a b"].
Proof. vm_compute. reflexivity. Qed.

(** A key given three times: the second element of the last array is stored
    over what the first array left in the backing array. *)
Example Cloudwatch_repeated_key :
  Cloudwatch.Unmarshal (bytes64 repeatedKey)
  = Ok (Cloudwatch.mk EmptyString EmptyString EmptyString EmptyString []
          [Cloudwatch.mkEvent "e" 0 "A"; Cloudwatch.mkEvent "b" 0 "B"]).
Proof. vm_compute. reflexivity. Qed.

Example ParseFloat_leading_zeros :
  map (fun lit => option_map strconv.FormatFloat (strconv.ParseFloat lit))
      ["0.001e311"; "0.01e310"; "0.0e999"; "0.0001e313"; "1e309"]
  = [Some "1E+308"; Some "1E+308"; Some "0E+00"; None; None].
Proof. vm_compute. reflexivity. Qed.

Example storedgzip_samples :
  map (fun b64 =>
         match base64.DecodeString b64 with
         | Ok data =>
           match storedgzip.NewReader (strings_NewReader data) with
           | Ok gz => storedgzip.ReadAll gz
           | Err e => Err e
           end
         | Err e => Err e
         end)
      ["H4sIAAAAAAAEAwEFAPr/aGVsbG+GphA2BQAAAA=="; headerOnly; plainLine]
  = [Ok "hello"; Err storedgzip.ErrUnexpectedEOF; Err storedgzip.ErrHeader].
Proof. vm_compute. reflexivity. Qed.

(** ** Drain-A: HandleFirehoseLog *)

Section FirehoseFacts.

Context {gzipReader : Type}.
Variable gzip_NewReader : stream -> result gzipReader.
Variable gzip_ReadAll : gzipReader -> result string.
Variable FromVerboseID : string -> result Z.
Variable SubmitHTTPLog : list call -> Z -> hlog.Log -> option error.
Variable now : Z.
Variable rand : nat -> ascii.

Local Abbreviation handler :=
  (HandleFirehoseLog gzip_NewReader gzip_ReadAll FromVerboseID SubmitHTTPLog now rand).
Local Abbreviation envelope := (firehoseEnvelope gzip_NewReader gzip_ReadAll rand).
Local Abbreviation project := (firehoseProject FromVerboseID).
Local Abbreviation records := (firehoseRecords gzip_NewReader gzip_ReadAll SubmitHTTPLog).
Local Abbreviation record := (firehoseRecord gzip_NewReader gzip_ReadAll SubmitHTTPLog).
Local Abbreviation events := (submitEvents SubmitHTTPLog).
Local Abbreviation payload := (recordPayload gzip_NewReader gzip_ReadAll).
Local Abbreviation ok := (accepted SubmitHTTPLog).
Local Abbreviation settled := (settled SubmitHTTPLog).

(** *** The loops, record by record *)

Lemma records_app (projectID ts : Z) (pre post : list Envelope.Record_) (tr : list call) :
  records projectID ts (pre ++ post) tr =
  match records projectID ts pre tr with
  | (Some err, tr') => (Some err, tr')
  | (None, tr') => records projectID ts post tr'
  end.
Proof.
  revert tr. induction pre as [|l pre IH]; intros tr; simpl; [reflexivity|].
  destruct (record projectID ts l tr) as [[err|] tr']; [reflexivity | apply IH].
Qed.

Lemma events_extend (projectID : Z) (p : Cloudwatch.Payload)
    (evs : list Cloudwatch.LogEvent) (tr : list call) :
  exists t, snd (events projectID p evs tr) = tr ++ t.
Proof.
  revert tr. induction evs as [|ev evs IH]; intros tr; simpl.
  - exists []. by rewrite app_nil_r.
  - destruct (SubmitHTTPLog _ _ _).
    + eexists. reflexivity.
    + destruct (IH (tr ++ [(projectID, eventLog p ev)])) as [t Ht].
      exists ((projectID, eventLog p ev) :: t). rewrite Ht, <- app_assoc. reflexivity.
Qed.

Lemma record_extend (projectID ts : Z) (l : Envelope.Record_) (tr : list call) :
  exists t, snd (record projectID ts l tr) = tr ++ t.
Proof.
  unfold firehoseRecord.
  destruct (base64.DecodeString _); [|exists []; by rewrite app_nil_r].
  destruct (payload _); [|exists []; by rewrite app_nil_r].
  destruct (Cloudwatch.Unmarshal _).
  - apply events_extend.
  - eexists. reflexivity.
Qed.

Lemma records_extend (projectID ts : Z) (ls : list Envelope.Record_) (tr : list call) :
  exists t, snd (records projectID ts ls tr) = tr ++ t.
Proof.
  revert tr. induction ls as [|l ls IH]; intros tr; simpl.
  - exists []. by rewrite app_nil_r.
  - destruct (record_extend projectID ts l tr) as [t Ht].
    destruct (record projectID ts l tr) as [[err|] tr']; simpl in Ht; subst tr'.
    + eexists. reflexivity.
    + destruct (IH (tr ++ t)) as [t' Ht']. exists (t ++ t').
      rewrite Ht', <- app_assoc. reflexivity.
Qed.

(** *** An accepting sink *)

Lemma events_accept (projectID : Z) (p : Cloudwatch.Payload)
    (evs : list Cloudwatch.LogEvent) (tr : list call) :
  (forall h q hl, SubmitHTTPLog h q hl = None) ->
  events projectID p evs tr = (None, tr ++ map (fun ev => (projectID, eventLog p ev)) evs).
Proof.
  intros Hsink. revert tr. induction evs as [|ev evs IH]; intros tr; simpl.
  - by rewrite app_nil_r.
  - rewrite Hsink, IH, <- app_assoc. reflexivity.
Qed.

Lemma records_accept (projectID ts : Z) (ls : list Envelope.Record_)
    (ps : list Cloudwatch.Payload) (tr : list call) :
  (forall h q hl, SubmitHTTPLog h q hl = None) ->
  Forall2 (structured gzip_NewReader gzip_ReadAll) ls ps ->
  records projectID ts ls tr = (None, tr ++ concat (map (eventCalls projectID) ps)).
Proof.
  intros Hsink H. revert tr. induction H as [|l p ls ps Hl _ IH]; intros tr; simpl.
  - by rewrite app_nil_r.
  - destruct Hl as (data & msg & Hd & Hm & Hp).
    unfold firehoseRecord. rewrite Hd, Hm, Hp, events_accept by exact Hsink.
    rewrite IH, <- app_assoc. reflexivity.
Qed.

(** C3 as amended. When the envelope and the tenant are valid, the working
    payload of every record is stored into the SubEnvelope struct without
    an error and the sink accepts every record, the calls made are the
    decoded log events of the records, batch entry after batch entry and
    event after event; their number is the sum of the lengths of the decoded
    logEvents lists. Each call carries the project id, the message and the
    rendered timestamp of its event, the level info and the five attributes
    of its record. *)
Theorem firehose_structured_fanout (r : Request) (lg : Envelope.t) (projectID : Z)
    (ps : list Cloudwatch.Payload) :
  envelope r = Ok lg ->
  project r = Ok projectID ->
  Forall2 (structured gzip_NewReader gzip_ReadAll) (Envelope.Records lg) ps ->
  (forall h q hl, SubmitHTTPLog h q hl = None) ->
  snd (handler r) = concat (map (eventCalls projectID) ps)
  /\ List.length (snd (handler r))
     = list_sum (map (fun p => List.length (Cloudwatch.LogEvents p)) ps)
  /\ snd (handler r)
     = concat (map (fun p =>
         map (fun ev =>
                (projectID,
                 hlog.mkLog (Cloudwatch.Message ev)
                   (formatTimestamp (Cloudwatch.Timestamp ev)) "info"
                   (made (<["service_name" := "firehose"]>
                          (<["message_type" := Cloudwatch.MessageType p]>
                          (<["owner" := Cloudwatch.Owner p]>
                          (<["log_group" := Cloudwatch.LogGroup p]>
                          (<["log_stream" := Cloudwatch.LogStream p]> ∅))))))))
             (Cloudwatch.LogEvents p)) ps).
Proof.
  intros He Hp Hs Hsink.
  assert (Htr : snd (handler r) = concat (map (eventCalls projectID) ps)).
  { unfold HandleFirehoseLog. rewrite He, Hp.
    rewrite (records_accept _ _ _ ps) by assumption. reflexivity. }
  split; [exact Htr|]. split; [|exact Htr]. rewrite Htr. clear.
  induction ps as [|p ps IH]; simpl; [reflexivity|].
  rewrite length_app, IH. unfold eventCalls. rewrite length_map. reflexivity.
Qed.

(** *** Sink failures *)

Lemma accepted_snoc (tr : list call) (c : call) :
  ok tr -> SubmitHTTPLog tr (fst c) (snd c) = None -> ok (tr ++ [c]).
Proof.
  intros Htr Hc h c' t E.
  destruct t as [|x t _] using rev_ind.
  - apply app_inj_tail in E as [-> ->]. exact Hc.
  - rewrite app_comm_cons, app_assoc in E. apply app_inj_tail in E as [-> _].
    eapply Htr. reflexivity.
Qed.

Lemma events_settled (projectID : Z) (p : Cloudwatch.Payload)
    (evs : list Cloudwatch.LogEvent) (tr : list call) :
  ok tr -> settled (events projectID p evs tr).
Proof.
  revert tr. induction evs as [|ev evs IH]; intros tr Htr; simpl; [exact Htr|].
  destruct (SubmitHTTPLog tr projectID (eventLog p ev)) eqn:E.
  - right. exists tr, (projectID, eventLog p ev). auto.
  - apply IH. apply accepted_snoc; assumption.
Qed.

Lemma record_settled (projectID ts : Z) (l : Envelope.Record_) (tr : list call) :
  ok tr -> settled (record projectID ts l tr).
Proof.
  intros Htr. unfold firehoseRecord.
  destruct (base64.DecodeString _); [|left; exact Htr].
  destruct (payload _) as [msg|]; [|left; exact Htr].
  destruct (Cloudwatch.Unmarshal _).
  - apply events_settled, Htr.
  - destruct (SubmitHTTPLog tr projectID (rawLog ts msg)) eqn:E; simpl.
    + right. exists tr, (projectID, rawLog ts msg). auto.
    + apply accepted_snoc; assumption.
Qed.

Lemma records_settled (projectID ts : Z) (ls : list Envelope.Record_) (tr : list call) :
  ok tr -> settled (records projectID ts ls tr).
Proof.
  revert tr. induction ls as [|l ls IH]; intros tr Htr; simpl; [exact Htr|].
  pose proof (record_settled projectID ts l tr Htr) as Hl.
  destruct (record projectID ts l tr) as [[err|] tr']; [exact Hl | apply IH, Hl].
Qed.

Lemma accepted_nil : ok [].
Proof. intros h c t E. destruct h; discriminate. Qed.

Lemma settled_first_failure (res : option error * list call)
    (h : list call) (c : call) (t : list call) (err : error) :
  settled res -> snd res = h ++ c :: t ->
  SubmitHTTPLog h (fst c) (snd c) = Some err ->
  t = [] /\ fst res = Some err.
Proof.
  destruct res as [[err'|] tr']; simpl; intros Hs -> Hc.
  - destruct Hs as [Hs | (h0 & c0 & E & Hh & Hc0)].
    + rewrite (Hs h c t eq_refl) in Hc. discriminate.
    + destruct t as [|x t _] using rev_ind.
      * apply app_inj_tail in E as [-> ->]. rewrite Hc in Hc0.
        injection Hc0 as ->. auto.
      * rewrite app_comm_cons, app_assoc in E. apply app_inj_tail in E as [<- _].
        rewrite (Hh h c t eq_refl) in Hc. discriminate.
  - rewrite (Hs h c t eq_refl) in Hc. discriminate.
Qed.

Lemma handler_trace (r : Request) (lg : Envelope.t) (projectID : Z) :
  envelope r = Ok lg -> project r = Ok projectID ->
  snd (handler r) = snd (records projectID (Envelope.Timestamp lg) (Envelope.Records lg) []).
Proof.
  intros He Hp. unfold HandleFirehoseLog. rewrite He, Hp.
  destruct (records _ _ _ _) as [[err|] tr]; reflexivity.
Qed.

(** C5. Records go to the sink while the batch is being read: the calls
    made for a prefix of the batch are made whatever follows it. When a
    sink call returns an error, it is the last call of the request, and
    the response is HTTP 400 with that error. *)
Theorem firehose_streams_and_stops (r : Request) :
  (forall lg projectID pre post,
      envelope r = Ok lg -> project r = Ok projectID ->
      Envelope.Records lg = pre ++ post ->
      fst (records projectID (Envelope.Timestamp lg) pre []) = None ->
      exists t,
        snd (handler r) = snd (records projectID (Envelope.Timestamp lg) pre []) ++ t)
  /\ (forall h c t err,
        snd (handler r) = h ++ c :: t ->
        SubmitHTTPLog h (fst c) (snd c) = Some err ->
        t = [] /\ fst (handler r) = HTTPError err StatusBadRequest).
Proof.
  split.
  - intros lg projectID pre post He Hp Hrec Hpre.
    rewrite (handler_trace r lg projectID He Hp), Hrec, records_app.
    destruct (records projectID _ pre []) as [[err|] tr]; simpl in *; [discriminate|].
    apply records_extend.
  - intros h c t err Htr Hc. unfold HandleFirehoseLog in *.
    destruct (envelope r) as [lg|]; [|destruct h; discriminate].
    destruct (project r) as [projectID|]; [|destruct h; discriminate].
    pose proof (records_settled projectID (Envelope.Timestamp lg) (Envelope.Records lg) []
                  accepted_nil) as Hs.
    destruct (records _ _ _ _) as [[err'|] tr] eqn:E; simpl in Htr.
    + destruct (settled_first_failure _ h c t err Hs Htr Hc) as [-> Herr].
      simpl in Herr. injection Herr as ->. auto.
    + destruct (settled_first_failure _ h c t err Hs Htr Hc) as [_ Herr]. discriminate.
Qed.

(** C6. A record whose working payload does not decode as a SubEnvelope
    makes one sink call, after the calls of the records before it: the
    payload text as the message, the envelope's timestamp, level info and
    no attributes. The calls that follow are those of the later records. *)
Theorem firehose_raw_record (r : Request) (lg : Envelope.t) (projectID : Z)
    (pre : list Envelope.Record_) (l : Envelope.Record_) (post : list Envelope.Record_)
    (tr : list call) (msg : string) :
  envelope r = Ok lg ->
  project r = Ok projectID ->
  Envelope.Records lg = pre ++ l :: post ->
  records projectID (Envelope.Timestamp lg) pre [] = (None, tr) ->
  unstructured gzip_NewReader gzip_ReadAll l msg ->
  exists hl,
    hlog.Message hl = msg
    /\ hlog.Timestamp hl = formatTimestamp (Envelope.Timestamp lg)
    /\ hlog.Level hl = "info"
    /\ hlog.Attributes hl = nil_map
    /\ snd (record projectID (Envelope.Timestamp lg) l tr) = tr ++ [(projectID, hl)]
    /\ snd (handler r) =
       match SubmitHTTPLog tr projectID hl with
       | Some _ => tr ++ [(projectID, hl)]
       | None => snd (records projectID (Envelope.Timestamp lg) post (tr ++ [(projectID, hl)]))
       end.
Proof.
  intros He Hp Hrec Hpre (data & e & Hd & Hm & Hu).
  exists (rawLog (Envelope.Timestamp lg) msg).
  repeat split.
  - unfold firehoseRecord. rewrite Hd, Hm, Hu. reflexivity.
  - rewrite (handler_trace r lg projectID He Hp), Hrec, records_app, Hpre. simpl.
    unfold firehoseRecord. rewrite Hd, Hm, Hu.
    destruct (SubmitHTTPLog tr projectID _); reflexivity.
Qed.

(** C7 as amended. The success response of Drain-A carries the request id
    the envelope decodes to when that is not empty. When it is empty (the
    key is absent, null, or given as the empty string) the response carries
    the identifier made from the random bytes drawn for this request: it is
    36 bytes long, and another draw gives the same identifier only if it
    agrees with this one on all the bits that [uuid.New] keeps. *)
Theorem firehose_request_id (r : Request) (requestId : string) (timestamp : Z) :
  fst (handler r) = FirehoseAck requestId timestamp ->
  exists body v lg,
    firehoseBody gzip_NewReader gzip_ReadAll r = Ok body
    /\ parse_json body = Ok v
    /\ Envelope.Unmarshal body = Ok lg
    /\ (namesField "RequestId" v = false -> Envelope.RequestId lg = EmptyString)
    /\ (Envelope.RequestId lg <> EmptyString -> requestId = Envelope.RequestId lg)
    /\ (Envelope.RequestId lg = EmptyString ->
        requestId = uuid.String_ (uuid.New rand)
        /\ String.length requestId = 36%nat
        /\ requestId <> EmptyString
        /\ forall rand', uuid.String_ (uuid.New rand') = requestId <-> sameDraw rand' rand).
Proof.
  unfold HandleFirehoseLog, firehoseEnvelope. intros H.
  destruct (firehoseBody _ _ r) as [body|]; [|discriminate]. simpl in H.
  destruct (Envelope.Unmarshal body) as [lg|] eqn:Hlg; [|discriminate]. simpl in H.
  destruct (parse_json body) as [v|] eqn:Hv;
    [|unfold Envelope.Unmarshal in Hlg; rewrite Hv in Hlg; discriminate].
  exists body, v, lg. split; [reflexivity|]. split; [exact Hv|]. split; [exact Hlg|].
  split; [apply (Envelope_absent_request_id body v lg Hv Hlg)|].
  destruct (String.eqb_spec (Envelope.RequestId lg) EmptyString) as [E|E];
    destruct (project r); try discriminate;
    destruct (records _ _ _ _) as [[err|] tr]; try discriminate;
    simpl in H; injection H as <- _.
  - split; [congruence|]. intros _.
    split; [reflexivity|]. split; [reflexivity|]. split; [discriminate|].
    intros rand'. apply uuid_same_draw.
  - split; [reflexivity | contradiction].
Qed.

(** *** Corrupt gzip records *)

Lemma records_fail (projectID ts : Z) (ls : list Envelope.Record_)
    (l : Envelope.Record_) (tr : list call) :
  In l ls ->
  (forall tr', exists err, record projectID ts l tr' = (Some err, tr')) ->
  exists err tr', records projectID ts ls tr = (Some err, tr').
Proof.
  intros Hin Hl. revert tr. induction ls as [|x ls IH]; intros tr; [destruct Hin|].
  simpl. destruct Hin as [->|Hin].
  - destruct (Hl tr) as [err ->]. eauto.
  - destruct (record projectID ts x tr) as [[err|] tr']; [eauto | apply IH, Hin].
Qed.

(** C9. A batch with a record whose decoded bytes open as gzip (the header
    is read) but whose stream cannot be read to its end is answered with
    HTTP 400. The decoded bytes are the working payload only when they do
    not open as gzip; when they do, the payload is what the reader
    delivers. *)
Theorem firehose_corrupt_gzip (r : Request) (lg : Envelope.t) (l : Envelope.Record_)
    (data : string) (gz : gzipReader) (err : error) :
  envelope r = Ok lg ->
  In l (Envelope.Records lg) ->
  base64.DecodeString (Envelope.Data l) = Ok data ->
  gzip_NewReader (strings_NewReader data) = Ok gz ->
  gzip_ReadAll gz = Err err ->
  (exists err', fst (handler r) = HTTPError err' StatusBadRequest)
  /\ (forall data' msg,
        payload data' = Ok msg ->
        match gzip_NewReader (strings_NewReader data') with
        | Err _ => msg = data'
        | Ok gz' => gzip_ReadAll gz' = Ok msg
        end).
Proof.
  intros He Hin Hd Hgz Hread. split.
  - unfold HandleFirehoseLog. rewrite He.
    destruct (project r) as [projectID|]; [|eauto].
    destruct (records_fail projectID (Envelope.Timestamp lg) (Envelope.Records lg) l [] Hin)
      as (err' & tr' & ->); [|eauto].
    intros tr'. exists err. unfold firehoseRecord, recordPayload.
    rewrite Hd, Hgz, Hread. reflexivity.
  - intros data' msg. unfold recordPayload.
    destruct (gzip_NewReader (strings_NewReader data')); [auto | congruence].
Qed.

(** Drain-A ends every request with the acknowledgement or with HTTP 400. *)
Lemma firehose_outcome (r : Request) :
  (exists err, fst (handler r) = HTTPError err StatusBadRequest)
  \/ (exists requestId, fst (handler r) = FirehoseAck requestId now).
Proof.
  unfold HandleFirehoseLog.
  destruct (envelope r) as [lg|]; [|eauto].
  destruct (project r) as [projectID|]; [|eauto].
  destruct (records _ _ _ _) as [[err|] tr]; eauto.
Qed.

(** A body announced as gzip that does not open as gzip is answered with
    HTTP 400 and that error, and nothing is parsed or submitted. *)
Lemma firehose_outer_gzip (r : Request) (err : error) :
  Header_Get (Header r) "content-encoding" = "gzip" ->
  gzip_NewReader (Body r) = Err err ->
  handler r = (HTTPError err StatusBadRequest, []).
Proof.
  intros Hh Hgz. unfold HandleFirehoseLog, firehoseEnvelope, firehoseBody.
  rewrite Hh, Hgz. reflexivity.
Qed.

(** Drain-A answers a tenant identifier that is missing or does not decode
    with HTTP 400 and calls the sink for no record. *)
Lemma firehose_invalid_tenant (r : Request) (err : error) :
  project r = Err err ->
  snd (handler r) = [] /\ exists err', fst (handler r) = HTTPError err' StatusBadRequest.
Proof.
  intros Hp. unfold HandleFirehoseLog. rewrite Hp.
  destruct (envelope r); simpl; eauto.
Qed.

Lemma events_shaped (projectID : Z) (p : Cloudwatch.Payload)
    (evs : list Cloudwatch.LogEvent) (tr : list call) :
  Forall (fun ev => int64 (Cloudwatch.Timestamp ev)) evs ->
  Forall (fun c => firehoseShaped (snd c)) tr ->
  Forall (fun c => firehoseShaped (snd c)) (snd (events projectID p evs tr)).
Proof.
  intros Hevs. revert tr. induction Hevs as [|ev evs Hev _ IH]; intros tr Htr; simpl.
  - exact Htr.
  - assert (Forall (fun c : call => firehoseShaped (snd c)) (tr ++ [(projectID, eventLog p ev)])).
    { apply Forall_app. split; [exact Htr|]. repeat constructor.
      exists (Cloudwatch.Timestamp ev). auto. }
    destruct (SubmitHTTPLog _ _ _); [assumption | apply IH; assumption].
Qed.

Lemma records_shaped (projectID ts : Z) (ls : list Envelope.Record_) (tr : list call) :
  int64 ts ->
  Forall (fun c => firehoseShaped (snd c)) tr ->
  Forall (fun c => firehoseShaped (snd c)) (snd (records projectID ts ls tr)).
Proof.
  intros Hts. revert tr. induction ls as [|l ls IH]; intros tr Htr; simpl; [exact Htr|].
  assert (Hl : Forall (fun c : call => firehoseShaped (snd c)) (snd (record projectID ts l tr))).
  { unfold firehoseRecord.
    destruct (base64.DecodeString _); [|exact Htr].
    destruct (payload _) as [msg|]; [|exact Htr].
    destruct (Cloudwatch.Unmarshal msg) as [p|] eqn:E.
    - apply events_shaped; [eapply Cloudwatch_Unmarshal_int64, E | exact Htr].
    - simpl. apply Forall_app. split; [exact Htr|]. repeat constructor.
      exists ts. auto. }
  destruct (record projectID ts l tr) as [[err|] tr']; [exact Hl | apply IH, Hl].
Qed.

Lemma firehose_shaped (r : Request) :
  Forall (fun c => firehoseShaped (snd c)) (snd (handler r)).
Proof.
  unfold HandleFirehoseLog, firehoseEnvelope.
  destruct (firehoseBody _ _ r) as [body|]; [|constructor]. simpl.
  destruct (Envelope.Unmarshal body) as [lg|] eqn:E; [|constructor]. simpl.
  pose proof (Envelope_Unmarshal_int64 body lg E) as Hts.
  assert (Hrec : forall projectID,
             Forall (fun c : call => firehoseShaped (snd c))
               (snd (records projectID (Envelope.Timestamp lg) (Envelope.Records lg) []))).
  { intros. apply records_shaped; [exact Hts | constructor]. }
  destruct (String.eqb _ _); destruct (project r) as [projectID|]; try constructor;
    simpl; specialize (Hrec projectID);
    destruct (records _ _ _ _) as [[err|] tr]; exact Hrec.
Qed.

End FirehoseFacts.

(** ** Drain-B: HandleJSONLog *)

(** *** The harvest loop

    The loop visits the entries of a Go map in no fixed order; its result is
    the same for every order. *)

Lemma harvest_made (lgAttrs : gmap string any) (a : gmap string string) :
  harvest (Some lgAttrs) (made a) = Some (made (omap coerce lgAttrs ∪ a)).
Proof.
  unfold harvest.
  apply (map_fold_weak_ind
           (fun r (m : gmap string any) => r = Some (made (omap coerce m ∪ a)))).
  - by rewrite omap_empty, (left_id_L ∅ (∪)).
  - intros k v m r Hk ->. unfold harvest_step. destruct (coerce v) as [s|] eqn:E; simpl.
    + by rewrite (omap_insert_Some _ _ _ _ s), insert_union_l.
    + rewrite omap_insert_None by exact E.
      rewrite delete_id; [reflexivity|].
      by rewrite lookup_omap, Hk.
Qed.

(** Into the nil map the loop panics exactly when some field converts. *)
Lemma harvest_nil (lgAttrs : gmap string any) :
  (omap coerce lgAttrs = ∅ /\ harvest (Some lgAttrs) nil_map = Some nil_map)
  \/ (omap coerce lgAttrs <> ∅ /\ harvest (Some lgAttrs) nil_map = None).
Proof.
  unfold harvest.
  apply (map_fold_weak_ind
           (fun r (m : gmap string any) =>
              (omap coerce m = ∅ /\ r = Some nil_map) \/ (omap coerce m <> ∅ /\ r = None))).
  - left. by rewrite omap_empty.
  - intros k v m r Hk IH. unfold harvest_step. destruct (coerce v) as [s|] eqn:E; simpl.
    + right. rewrite (omap_insert_Some _ _ _ _ s) by exact E.
      split; [apply insert_non_empty|]. by destruct IH as [[_ ->]|[_ ->]].
    + rewrite omap_insert_None by exact E.
      rewrite delete_id; [exact IH|].
      by rewrite lookup_omap, Hk.
Qed.

Lemma harvest_step_comm (k1 k2 : string) (v1 v2 : any) (acc : option strmap) :
  k1 <> k2 ->
  harvest_step k1 v1 (harvest_step k2 v2 acc) = harvest_step k2 v2 (harvest_step k1 v1 acc).
Proof.
  intros Hne. unfold harvest_step.
  destruct (coerce v1) as [s1|], (coerce v2) as [s2|]; try reflexivity.
  destruct acc as [[|m]|]; simpl; try reflexivity.
  by rewrite insert_insert_ne.
Qed.

(** Whatever the order in which the entries are visited, the loop gives the
    result of [harvest]. *)
Lemma harvest_any_order (lgAttrs : gmap string any) (entries : list (string * any))
    (attrs : strmap) :
  entries ≡ₚ map_to_list lgAttrs ->
  harvest_in_order entries attrs = harvest (Some lgAttrs) attrs.
Proof.
  intros Hperm. unfold harvest_in_order, harvest.
  rewrite map_fold_foldr, <- fold_left_rev_right.
  apply (foldr_permutation eq (uncurry harvest_step) (Some attrs)).
  - intros j1 [k1 v1] j2 [k2 v2] acc Hj H1 H2. simpl.
    apply harvest_step_comm. intros ->.
    assert (Hnd : NoDup (rev entries).*1).
    { rewrite <- (Permutation_rev entries), Hperm. apply NoDup_fst_map_to_list. }
    apply Hj. eapply (NoDup_lookup _ j1 j2 k2 Hnd); rewrite list_lookup_fmap.
    + by rewrite H1.
    + by rewrite H2.
  - by rewrite <- (Permutation_rev entries).
Qed.

(** An attribute of the harvest is the converted body field of that name,
    or else what the typed parse had stored. *)
Lemma harvest_lookup (lgAttrs : gmap string any) (a a' : gmap string string) (k : string) :
  harvest (Some lgAttrs) (made a) = Some (made a') ->
  a' !! k = match lgAttrs !! k ≫= coerce with
            | Some s => Some s
            | None => a !! k
            end.
Proof.
  rewrite harvest_made. intros [= <-].
  rewrite lookup_union, lookup_omap.
  destruct (lgAttrs !! k ≫= coerce); simpl; [by rewrite union_Some_l | by rewrite (left_id_L None _)].
Qed.

(** *** Numbers of the generic parse *)

Lemma to_any_not_int64 (v : json) (a : any) (i : Z) :
  gojson.to_any v = Ok a -> a <> AInt64 i.
Proof.
  destruct v; simpl; intros H.
  - injection H as <-. discriminate.
  - injection H as <-. discriminate.
  - destruct (strconv.ParseFloat lit); [injection H as <- |]; discriminate.
  - injection H as <-. discriminate.
  - bind_inv H. injection H as <-. discriminate.
  - bind_inv H. injection H as <-. discriminate.
Qed.

(** No body makes the generic parse produce an int64: every JSON number,
    whole or not, reaches the type switch as a float64. *)
Lemma json_numbers_are_float64 (body : string) (lgAttrs : gmap string any)
    (k : string) (i : Z) :
  jsonLogAttrs body = Ok (Some lgAttrs) -> lgAttrs !! k <> Some (AInt64 i).
Proof.
  unfold jsonLogAttrs. intros H. bind_inv H as v Hv. clear Hv.
  destruct v; try discriminate. simpl in H.
  match type of H with
  | match bind (?go members ∅) _ with _ => _ end = _ =>
    assert (Hgo : forall l (m m' : gmap string any),
               (forall k, m !! k <> Some (AInt64 i)) ->
               go l m = Ok m' -> forall k, m' !! k <> Some (AInt64 i));
      [| destruct (go members ∅) as [m|] eqn:E; simpl in H; [|discriminate];
         injection H as <-; eapply Hgo; [|exact E]; intros k'; by rewrite lookup_empty ]
  end.
  clear. induction l as [|[k x] l IH]; intros m m' Hm H.
  - injection H as <-. exact Hm.
  - bind_inv H as a Ha. eapply IH; [|exact H].
    intros k'. destruct (decide (k = k')) as [->|Hne].
    + rewrite lookup_insert_eq. intros [= ->]. eapply to_any_not_int64; eauto.
    + rewrite lookup_insert_ne by exact Hne. apply Hm.
Qed.

Lemma Header_Get_absent (h : gmap string (list string)) (key : string) :
  h !! CanonicalMIMEHeaderKey key = None -> Header_Get h key = EmptyString.
Proof. unfold Header_Get. by intros ->. Qed.

Section JSONFacts.

Variable FromVerboseID : string -> result Z.
Variable SubmitHTTPLog : list call -> Z -> hlog.Log -> option error.

Local Abbreviation handler := (HandleJSONLog FromVerboseID SubmitHTTPLog).

(** What the one record handed to the sink is made of. *)
Lemma json_submitted (r : Request) (projectID : Z) (lg : hlog.Log) :
  In (projectID, lg) (snd (handler r)) ->
  exists body lg0 base,
    io_ReadAll (Body r) = Ok body
    /\ jsonLogRecord body = Ok lg0
    /\ bodyAttributes body = Some base
    /\ FromVerboseID (Header_Get (Header r) LogDrainProjectHeader) = Ok projectID
    /\ lg = hlog.mkLog (hlog.Message lg0) (hlog.Timestamp lg0) (hlog.Level lg0)
              (made (<[ServiceNameKey := Header_Get (Header r) LogDrainServiceHeader]> base)).
Proof.
  unfold HandleJSONLog, bodyAttributes.
  destruct (io_ReadAll (Body r)) as [body|]; [|intros []].
  destruct (jsonLogRecord body) as [lg0|] eqn:Hlg; [|intros []].
  destruct (jsonLogAttrs body) as [lgAttrs|] eqn:Hattrs; [|intros []].
  destruct (harvest lgAttrs (hlog.Attributes lg0)) as [harvested|] eqn:Hh; [|intros []].
  rewrite lookup_insert_ne by discriminate.
  rewrite !lookup_insert_eq. simpl.
  destruct (FromVerboseID _) as [pid|] eqn:Hp; [|intros []].
  destruct harvested as [|base]; simpl; [intros []|].
  intros Hin. exists body, lg0, base. rewrite Hlg, Hattrs, Hh.
  destruct (SubmitHTTPLog _ _ _); simpl in Hin;
    destruct Hin as [[= <- <-]|[]]; repeat split; assumption.
Qed.

(** C8 as amended. The record that reaches the submit step carries, under
    the key [service.name], the value of the x-highlight-service header,
    whatever the body held under that key; it is the empty string when the
    header is absent. *)
Theorem json_service_name (r : Request) (projectID : Z) (lg : hlog.Log) :
  In (projectID, lg) (snd (handler r)) ->
  attribute lg ServiceNameKey = Some (Header_Get (Header r) LogDrainServiceHeader)
  /\ (Header r !! CanonicalMIMEHeaderKey LogDrainServiceHeader = None ->
      attribute lg ServiceNameKey = Some EmptyString).
Proof.
  intros Hin. apply json_submitted in Hin as (body & lg0 & base & _ & _ & _ & _ & ->).
  unfold attribute. simpl. rewrite lookup_insert_eq. split; [reflexivity|].
  intros Habs. by rewrite Header_Get_absent.
Qed.

(** C10. The attributes of the record handed to the sink are the
    attributes built from the body with the service name stored over
    them: every other attribute comes from the body, and a request that
    differs only in its tenant header hands over the same record. *)
Theorem json_attributes_origin (r : Request) (projectID : Z) (lg : hlog.Log) :
  In (projectID, lg) (snd (handler r)) ->
  exists body base,
    io_ReadAll (Body r) = Ok body
    /\ bodyAttributes body = Some base
    /\ hlog.Attributes lg
       = made (<[ServiceNameKey := Header_Get (Header r) LogDrainServiceHeader]> base)
    /\ (forall k, k <> ServiceNameKey -> attribute lg k = base !! k)
    /\ (forall r' projectID' lg',
          Body r' = Body r ->
          Header_Get (Header r') LogDrainServiceHeader
          = Header_Get (Header r) LogDrainServiceHeader ->
          In (projectID', lg') (snd (handler r')) -> lg' = lg).
Proof.
  intros Hin. apply json_submitted in Hin as (body & lg0 & base & Hb & H0 & Hbase & _ & ->).
  exists body, base. repeat split; try assumption.
  - intros k Hk. unfold attribute. simpl. by rewrite lookup_insert_ne.
  - intros r' pid' lg' HB HS Hin'.
    apply json_submitted in Hin' as (body' & lg0' & base' & Hb' & H0' & Hbase' & _ & ->).
    rewrite HB, Hb in Hb'. injection Hb' as <-.
    rewrite H0 in H0'. injection H0' as <-.
    rewrite Hbase in Hbase'. injection Hbase' as <-.
    by rewrite HS.
Qed.

(** Drain-B calls the sink for no record when the tenant identifier is
    missing or does not decode, and answers HTTP 400 unless it panicked
    before reaching the tenant check. *)
Lemma json_invalid_tenant (r : Request) (err : error) :
  FromVerboseID (Header_Get (Header r) LogDrainProjectHeader) = Err err ->
  snd (handler r) = []
  /\ (fst (handler r) = Panic
      \/ exists err', fst (handler r) = HTTPError err' StatusBadRequest).
Proof.
  intros Hp. unfold HandleJSONLog.
  destruct (io_ReadAll (Body r)) as [body|]; [|simpl; eauto].
  destruct (jsonLogRecord body) as [lg0|]; [|simpl; eauto].
  destruct (jsonLogAttrs body) as [lgAttrs|]; [|simpl; eauto].
  destruct (harvest lgAttrs (hlog.Attributes lg0)) as [harvested|]; [|simpl; eauto].
  rewrite lookup_insert_ne by discriminate.
  rewrite !lookup_insert_eq. simpl. rewrite Hp. simpl. eauto.
Qed.

(** Drain-B panics only on a body whose typed parse leaves the attributes
    map nil, that is, a body that sets attributes to null. *)
Lemma json_panic_nil_attributes (r : Request) :
  fst (handler r) = Panic ->
  exists body lg0,
    io_ReadAll (Body r) = Ok body
    /\ jsonLogRecord body = Ok lg0
    /\ hlog.Attributes lg0 = nil_map.
Proof.
  unfold HandleJSONLog.
  destruct (io_ReadAll (Body r)) as [body|]; [|discriminate].
  destruct (jsonLogRecord body) as [lg0|] eqn:Hlg; [|discriminate].
  destruct (jsonLogAttrs body) as [lgAttrs|]; [|discriminate].
  intros H. exists body, lg0. split; [reflexivity|]. split; [exact Hlg|].
  destruct (hlog.Attributes lg0) as [|m]; [reflexivity|]. exfalso.
  destruct lgAttrs as [lgAttrs|]; [rewrite harvest_made in H|simpl in H];
    destruct (FromVerboseID _); simpl in H; try discriminate;
    destruct (SubmitHTTPLog _ _ _); discriminate.
Qed.

End JSONFacts.

(** ** Both drains *)

Section SinkRecords.

Context {gzipReader : Type}.
Variable gzip_NewReader : stream -> result gzipReader.
Variable gzip_ReadAll : gzipReader -> result string.
Variable FromVerboseID : string -> result Z.
Variable SubmitHTTPLog : list call -> Z -> hlog.Log -> option error.
Variable now : Z.
Variable rand : nat -> ascii.

Lemma events_all (Q : call -> Prop) (projectID : Z) (p : Cloudwatch.Payload)
    (evs : list Cloudwatch.LogEvent) (tr : list call) :
  Forall Q tr ->
  (forall ev, In ev evs -> Q (projectID, eventLog p ev)) ->
  Forall Q (snd (submitEvents SubmitHTTPLog projectID p evs tr)).
Proof.
  revert tr. induction evs as [|ev evs IH]; intros tr Htr Hev; simpl; [exact Htr|].
  assert (Forall Q (tr ++ [(projectID, eventLog p ev)])).
  { apply Forall_app. split; [exact Htr|]. constructor; [apply Hev; by left | constructor]. }
  destruct (SubmitHTTPLog _ _ _); [assumption|].
  apply IH; [assumption|]. intros ev' Hin. apply Hev. by right.
Qed.

(** What holds of the raw record of every record that does not decode and
    of the record of every log event holds of every sink call. *)
Lemma records_all (Q : call -> Prop) (projectID ts : Z) (ls : list Envelope.Record_)
    (tr : list call) :
  Forall Q tr ->
  (forall l msg, In l ls -> unstructured gzip_NewReader gzip_ReadAll l msg ->
                 Q (projectID, rawLog ts msg)) ->
  (forall l p ev, In l ls -> structured gzip_NewReader gzip_ReadAll l p ->
                  In ev (Cloudwatch.LogEvents p) -> Q (projectID, eventLog p ev)) ->
  Forall Q (snd (firehoseRecords gzip_NewReader gzip_ReadAll SubmitHTTPLog projectID ts ls tr)).
Proof.
  revert tr. induction ls as [|l ls IH]; intros tr Htr Hraw Hev; simpl; [exact Htr|].
  assert (Hl : Forall Q (snd (firehoseRecord gzip_NewReader gzip_ReadAll SubmitHTTPLog
                                projectID ts l tr))).
  { unfold firehoseRecord.
    destruct (base64.DecodeString _) as [data|] eqn:Hd; [|exact Htr].
    destruct (recordPayload _ _ data) as [msg|] eqn:Hm; [|exact Htr].
    destruct (Cloudwatch.Unmarshal msg) as [p|e] eqn:Hp.
    - apply events_all; [exact Htr|]. intros ev Hin.
      apply (Hev l p ev); [by left | by exists data, msg | exact Hin].
    - simpl. apply Forall_app. split; [exact Htr|]. constructor; [|constructor].
      apply (Hraw l msg); [by left | by exists data, e]. }
  destruct (firehoseRecord _ _ _ _ _ _ _) as [[err|] tr']; [exact Hl|].
  apply IH; [exact Hl | |].
  - intros l' msg Hin. apply Hraw. by right.
  - intros l' p ev Hin. apply Hev. by right.
Qed.

(** C2 as amended. Every record Drain-A hands to the sink comes from a
    record of the envelope and has a valid timestamp, never empty: the raw
    record of a payload that does not decode has the payload as message and
    the rendering of the envelope's int64 timestamp; the record of a log
    event has the message of the event and the rendering of its int64
    timestamp. Drain-B hands over the message and the timestamp that the
    typed parse of the body gives, which are empty when the body has no
    such key. *)
Theorem sink_record_fields :
  (forall r c,
      In c (snd (HandleFirehoseLog gzip_NewReader gzip_ReadAll FromVerboseID
                   SubmitHTTPLog now rand r)) ->
      exists lg l,
        firehoseEnvelope gzip_NewReader gzip_ReadAll rand r = Ok lg
        /\ In l (Envelope.Records lg)
        /\ ((exists msg,
               unstructured gzip_NewReader gzip_ReadAll l msg
               /\ snd c = rawLog (Envelope.Timestamp lg) msg
               /\ hlog.Message (snd c) = msg
               /\ hlog.Timestamp (snd c) = formatTimestamp (Envelope.Timestamp lg)
               /\ int64 (Envelope.Timestamp lg))
            \/ (exists p ev,
                  structured gzip_NewReader gzip_ReadAll l p
                  /\ In ev (Cloudwatch.LogEvents p)
                  /\ snd c = eventLog p ev
                  /\ hlog.Message (snd c) = Cloudwatch.Message ev
                  /\ hlog.Timestamp (snd c) = formatTimestamp (Cloudwatch.Timestamp ev)
                  /\ int64 (Cloudwatch.Timestamp ev)))
        /\ hlog.Timestamp (snd c) <> EmptyString)
  /\ (forall r projectID lg,
        In (projectID, lg) (snd (HandleJSONLog FromVerboseID SubmitHTTPLog r)) ->
        exists body v lg0,
          io_ReadAll (Body r) = Ok body
          /\ parse_json body = Ok v
          /\ jsonLogRecord body = Ok lg0
          /\ hlog.Message lg = hlog.Message lg0
          /\ hlog.Timestamp lg = hlog.Timestamp lg0
          /\ (namesField "message" v = false -> hlog.Message lg = EmptyString)
          /\ (namesField "timestamp" v = false -> hlog.Timestamp lg = EmptyString)).
Proof.
  split.
  - intros r c. unfold HandleFirehoseLog.
    destruct (firehoseEnvelope gzip_NewReader gzip_ReadAll rand r) as [lg|] eqn:He;
      [|intros []].
    destruct (firehoseProject FromVerboseID r) as [projectID|]; [|intros []].
    assert (Hts : int64 (Envelope.Timestamp lg)).
    { unfold firehoseEnvelope in He. bind_inv He as body Hb. bind_inv He as lg0 Hlg.
      pose proof (Envelope_Unmarshal_int64 body lg0 Hlg) as H0.
      destruct (String.eqb _ _); injection He as <-; exact H0. }
    set (Q := fun c : call =>
      exists l,
        In l (Envelope.Records lg)
        /\ ((exists msg,
               unstructured gzip_NewReader gzip_ReadAll l msg
               /\ snd c = rawLog (Envelope.Timestamp lg) msg
               /\ hlog.Message (snd c) = msg
               /\ hlog.Timestamp (snd c) = formatTimestamp (Envelope.Timestamp lg)
               /\ int64 (Envelope.Timestamp lg))
            \/ (exists p ev,
                  structured gzip_NewReader gzip_ReadAll l p
                  /\ In ev (Cloudwatch.LogEvents p)
                  /\ snd c = eventLog p ev
                  /\ hlog.Message (snd c) = Cloudwatch.Message ev
                  /\ hlog.Timestamp (snd c) = formatTimestamp (Cloudwatch.Timestamp ev)
                  /\ int64 (Cloudwatch.Timestamp ev)))
        /\ hlog.Timestamp (snd c) <> EmptyString).
    assert (Hall : Forall Q (snd (firehoseRecords gzip_NewReader gzip_ReadAll SubmitHTTPLog
                                    projectID (Envelope.Timestamp lg)
                                    (Envelope.Records lg) []))).
    { apply records_all; [constructor | |].
      - intros l msg Hin Hu. exists l. split; [exact Hin|].
        split; [|apply formatTimestamp_nonempty].
        left. exists msg. split; [exact Hu|]. do 3 (split; [reflexivity|]). exact Hts.
      - intros l p ev Hin Hs Hev. exists l. split; [exact Hin|].
        split; [|apply formatTimestamp_nonempty].
        right. exists p, ev. split; [exact Hs|]. split; [exact Hev|].
        do 3 (split; [reflexivity|]).
        destruct Hs as (data & msg & _ & _ & Hp).
        pose proof (Cloudwatch_Unmarshal_int64 msg p Hp) as Hint.
        rewrite Forall_forall in Hint. apply Hint. by apply list_elem_of_In. }
    intros Hin.
    assert (Hc : Q c).
    { rewrite Forall_forall in Hall. apply Hall, list_elem_of_In.
      destruct (firehoseRecords _ _ _ _ _ _ _) as [[err|] tr]; exact Hin. }
    destruct Hc as (l & Hl & Hc & Hne). exists lg, l. auto.
  - intros r projectID lg Hin.
    apply json_submitted in Hin as (body & lg0 & base & Hb & H0 & _ & _ & ->).
    destruct (parse_json body) as [v|] eqn:Hv;
      [|unfold jsonLogRecord, hlog.Unmarshal in H0; rewrite Hv in H0; discriminate].
    exists body, v, lg0. simpl.
    split; [exact Hb|]. split; [exact Hv|]. split; [exact H0|].
    split; [reflexivity|]. split; [reflexivity|].
    split; intros Hn.
    + apply (hlog_absent_message body v _ lg0 Hv H0 Hn).
    + apply (hlog_absent_timestamp body v _ lg0 Hv H0 Hn).
Qed.

End SinkRecords.

(** ** The handlers on the example requests *)

(** C1. The body with the field count set to 3 is accepted and its record
    has the message hello and the level warn, but the attribute count is the
    float rendering 3E+00: the number reached the type switch as a float64,
    not as an int64. *)
Theorem json_count_rendered_as_float :
  exists lg,
    drainB acceptAll countRequest = (StatusOK, [(7, lg)])
    /\ hlog.Message lg = "hello"
    /\ hlog.Level lg = "warn"
    /\ attribute lg "count" = Some "3E+00".
Proof. eexists. split; [vm_compute; reflexivity|]. repeat split. Qed.

(** C4. With no tenant header, a body that sets attributes to null and has a
    string field makes Drain-B panic in the harvest loop, before the tenant
    check: no HTTP 400 is written (and no record is submitted). *)
Theorem json_null_attributes_panics :
  drainB acceptAll nullAttributesRequest = (Panic, [])
  /\ decimalVerboseID (Header_Get (Header nullAttributesRequest) LogDrainProjectHeader)
     = Err (ErrOther "An unsupported verboseID was used").
Proof. split; vm_compute; reflexivity. Qed.

(** The claim C2 fails in both drains: Drain-B hands the body {} to the sink
    as a record with an empty message and an empty timestamp, and Drain-A
    hands over a raw record with an empty message for a record with no
    data. *)
Lemma empty_record_reaches_sink :
  (exists lg,
      drainB acceptAll emptyRequest = (StatusOK, [(7, lg)])
      /\ hlog.Message lg = EmptyString
      /\ hlog.Timestamp lg = EmptyString)
  /\ (exists lg,
        snd (drainA acceptAll emptyDataBatch) = [(42, lg)]
        /\ hlog.Message lg = EmptyString).
Proof.
  split.
  - eexists. split; [vm_compute; reflexivity|]. split; reflexivity.
  - eexists. split; [vm_compute; reflexivity|]. reflexivity.
Qed.

(** The claim C3 fails for a record that is valid JSON with two log events
    and a number where the SubEnvelope has a string: [json.Unmarshal]
    returns an error, and the record is submitted once, as a raw record. *)
Lemma mistyped_record_is_raw :
  parse_json (bytes64 ownerNumber) = Ok ownerNumberValue
  /\ drainA acceptAll ownerNumberBatch
     = (FirehoseAck "req-5" exampleNow,
        [(42, rawLog 1700000000000 (bytes64 ownerNumber))]).
Proof. split; vm_compute; reflexivity. Qed.

(** The claim C7 fails for a request id supplied as the empty string: the
    response carries the generated identifier. *)
Lemma empty_request_id_is_replaced :
  parse_json (avail (Body emptyIdBatch)) = Ok (JObj emptyIdMembers)
  /\ fst (drainA acceptAll emptyIdBatch) = FirehoseAck exampleId exampleNow
  /\ exampleId = uuid.String_ (uuid.New exampleRand).
Proof. split; [|split]; vm_compute; reflexivity. Qed.

(** The claim C8 fails for the key service_name: the record keeps the value
    of the body under it, while the header value checkout is stored under
    service.name. *)
Lemma service_name_key_keeps_body_value :
  drainB acceptAll serviceRequest = (StatusOK, [(7, serviceRecord)])
  /\ Header_Get (Header serviceRequest) LogDrainServiceHeader = "checkout"
  /\ attribute serviceRecord "service_name" = Some "from-body"
  /\ attribute serviceRecord "service.name" = Some "checkout".
Proof. repeat split; vm_compute; reflexivity. Qed.

(** A record that is gzip around a SubEnvelope with two log events gives two
    records, both with the attribute service_name set to firehose. *)
Example gzip_record_two_events :
  exists lg1 lg2,
    drainA acceptAll (batch EmptyString [twoEventsGzip])
    = (FirehoseAck (uuid.String_ (uuid.New exampleRand)) exampleNow, [(42, lg1); (42, lg2)])
    /\ attribute lg1 "service_name" = Some "firehose"
    /\ attribute lg2 "service_name" = Some "firehose"
    /\ hlog.Message lg1 = "one" /\ hlog.Message lg2 = "two".
Proof. do 2 eexists. split; [vm_compute; reflexivity|]. repeat split. Qed.

(** ** The theorems at the example requests *)

(** The raw record of [rawBatch] carries the timestamp of its envelope; the
    record of the body {} has the empty message and timestamp. *)
Lemma sink_record_fields_witness :
  (In plainCall (snd (drainA acceptAll rawBatch))
   /\ exists lg l,
       firehoseEnvelope storedgzip.NewReader storedgzip.ReadAll exampleRand rawBatch = Ok lg
       /\ In l (Envelope.Records lg)
       /\ ((exists msg,
              unstructured storedgzip.NewReader storedgzip.ReadAll l msg
              /\ snd plainCall = rawLog (Envelope.Timestamp lg) msg
              /\ hlog.Message (snd plainCall) = msg
              /\ hlog.Timestamp (snd plainCall) = formatTimestamp (Envelope.Timestamp lg)
              /\ int64 (Envelope.Timestamp lg))
           \/ (exists p ev,
                 structured storedgzip.NewReader storedgzip.ReadAll l p
                 /\ In ev (Cloudwatch.LogEvents p)
                 /\ snd plainCall = eventLog p ev
                 /\ hlog.Message (snd plainCall) = Cloudwatch.Message ev
                 /\ hlog.Timestamp (snd plainCall) = formatTimestamp (Cloudwatch.Timestamp ev)
                 /\ int64 (Cloudwatch.Timestamp ev)))
       /\ hlog.Timestamp (snd plainCall) <> EmptyString)
  /\ (In (7, emptyRecord) (snd (drainB acceptAll emptyRequest))
      /\ exists body v lg0,
          io_ReadAll (Body emptyRequest) = Ok body
          /\ parse_json body = Ok v
          /\ jsonLogRecord body = Ok lg0
          /\ hlog.Message emptyRecord = hlog.Message lg0
          /\ hlog.Timestamp emptyRecord = hlog.Timestamp lg0
          /\ (namesField "message" v = false -> hlog.Message emptyRecord = EmptyString)
          /\ (namesField "timestamp" v = false -> hlog.Timestamp emptyRecord = EmptyString)).
Proof.
  assert (HA : In plainCall (snd (drainA acceptAll rawBatch))).
  { vm_compute. left. reflexivity. }
  assert (HB : In (7, emptyRecord) (snd (drainB acceptAll emptyRequest))).
  { vm_compute. left. reflexivity. }
  split.
  - split; [exact HA|].
    exact (proj1 (sink_record_fields storedgzip.NewReader storedgzip.ReadAll decimalVerboseID
                    acceptAll exampleNow exampleRand) rawBatch plainCall HA).
  - split; [exact HB|].
    exact (proj2 (sink_record_fields storedgzip.NewReader storedgzip.ReadAll decimalVerboseID
                    acceptAll exampleNow exampleRand) emptyRequest 7 emptyRecord HB).
Defined.

(** [structuredBatch]: two records of two events each give four calls. *)
Lemma firehose_structured_fanout_witness :
  firehoseEnvelope storedgzip.NewReader storedgzip.ReadAll exampleRand structuredBatch
  = Ok structuredEnvelope
  /\ firehoseProject decimalVerboseID structuredBatch = Ok 42
  /\ Forall2 (structured storedgzip.NewReader storedgzip.ReadAll)
       (Envelope.Records structuredEnvelope) [twoEventsPayload; twoEventsPayload]
  /\ (forall h q hl, acceptAll h q hl = None)
  /\ (snd (drainA acceptAll structuredBatch)
      = concat (map (eventCalls 42) [twoEventsPayload; twoEventsPayload])
      /\ List.length (snd (drainA acceptAll structuredBatch))
         = list_sum (map (fun p => List.length (Cloudwatch.LogEvents p))
                       [twoEventsPayload; twoEventsPayload])
      /\ snd (drainA acceptAll structuredBatch)
        = concat (map (fun p =>
            map (fun ev =>
                   (42,
                    hlog.mkLog (Cloudwatch.Message ev)
                      (formatTimestamp (Cloudwatch.Timestamp ev)) "info"
                      (made (<["service_name" := "firehose"]>
                             (<["message_type" := Cloudwatch.MessageType p]>
                             (<["owner" := Cloudwatch.Owner p]>
                             (<["log_group" := Cloudwatch.LogGroup p]>
                             (<["log_stream" := Cloudwatch.LogStream p]> ∅))))))))
                (Cloudwatch.LogEvents p)) [twoEventsPayload; twoEventsPayload])).
Proof.
  assert (He : firehoseEnvelope storedgzip.NewReader storedgzip.ReadAll exampleRand
                 structuredBatch = Ok structuredEnvelope) by (vm_compute; reflexivity).
  assert (Hp : firehoseProject decimalVerboseID structuredBatch = Ok 42)
    by (vm_compute; reflexivity).
  assert (Hs : Forall2 (structured storedgzip.NewReader storedgzip.ReadAll)
                 (Envelope.Records structuredEnvelope) [twoEventsPayload; twoEventsPayload]).
  { assert (Hgz : structured storedgzip.NewReader storedgzip.ReadAll
                    (Envelope.mkRecord twoEventsGzip) twoEventsPayload).
    { unfold structured. do 2 eexists.
      split; [vm_compute; reflexivity|]. split; [vm_compute; reflexivity|].
      vm_compute; reflexivity. }
    assert (Hplain : structured storedgzip.NewReader storedgzip.ReadAll
                       (Envelope.mkRecord twoEvents) twoEventsPayload).
    { unfold structured. do 2 eexists.
      split; [vm_compute; reflexivity|]. split; [vm_compute; reflexivity|].
      vm_compute; reflexivity. }
    constructor; [exact Hgz|]. constructor; [exact Hplain|]. constructor. }
  assert (Ha : forall h q hl, acceptAll h q hl = None) by reflexivity.
  repeat (split; [assumption|]).
  exact (firehose_structured_fanout storedgzip.NewReader storedgzip.ReadAll decimalVerboseID
           acceptAll exampleNow exampleRand structuredBatch structuredEnvelope 42
           [twoEventsPayload; twoEventsPayload] He Hp Hs Ha).
Defined.

(** [mixedBatch] with a sink that rejects the third call: the two events of
    the first record were submitted, the raw record is the last call. *)
Lemma firehose_streams_and_stops_witness :
  snd (drainA (rejectAfter 2) mixedBatch) = eventCalls 42 twoEventsPayload ++ plainCall :: []
  /\ rejectAfter 2 (eventCalls 42 twoEventsPayload) (fst plainCall) (snd plainCall)
     = Some (ErrOther "sink unavailable")
  /\ ([] = ([] : list call)
      /\ fst (drainA (rejectAfter 2) mixedBatch)
         = HTTPError (ErrOther "sink unavailable") StatusBadRequest).
Proof.
  assert (Htr : snd (drainA (rejectAfter 2) mixedBatch)
                = eventCalls 42 twoEventsPayload ++ plainCall :: [])
    by (vm_compute; reflexivity).
  assert (Hc : rejectAfter 2 (eventCalls 42 twoEventsPayload) (fst plainCall) (snd plainCall)
               = Some (ErrOther "sink unavailable")) by reflexivity.
  split; [exact Htr|]. split; [exact Hc|].
  exact (proj2 (firehose_streams_and_stops storedgzip.NewReader storedgzip.ReadAll
                  decimalVerboseID (rejectAfter 2) exampleNow exampleRand mixedBatch)
           (eventCalls 42 twoEventsPayload) plainCall [] (ErrOther "sink unavailable") Htr Hc).
Defined.

(** [rawBatch]: its one record is not JSON and gives one raw record. *)
Lemma firehose_raw_record_witness :
  firehoseEnvelope storedgzip.NewReader storedgzip.ReadAll exampleRand rawBatch = Ok rawEnvelope
  /\ firehoseProject decimalVerboseID rawBatch = Ok 42
  /\ Envelope.Records rawEnvelope = [] ++ Envelope.mkRecord plainLine :: []
  /\ firehoseRecords storedgzip.NewReader storedgzip.ReadAll acceptAll 42
       (Envelope.Timestamp rawEnvelope) [] [] = (None, [])
  /\ unstructured storedgzip.NewReader storedgzip.ReadAll (Envelope.mkRecord plainLine)
       "plain text line"
  /\ exists hl,
      hlog.Message hl = "plain text line"
      /\ hlog.Timestamp hl = formatTimestamp (Envelope.Timestamp rawEnvelope)
      /\ hlog.Level hl = "info"
      /\ hlog.Attributes hl = nil_map
      /\ snd (firehoseRecord storedgzip.NewReader storedgzip.ReadAll acceptAll 42
                (Envelope.Timestamp rawEnvelope) (Envelope.mkRecord plainLine) [])
         = [] ++ [(42, hl)]
      /\ snd (drainA acceptAll rawBatch) =
         match acceptAll [] 42 hl with
         | Some _ => [] ++ [(42, hl)]
         | None => snd (firehoseRecords storedgzip.NewReader storedgzip.ReadAll acceptAll 42
                          (Envelope.Timestamp rawEnvelope) [] ([] ++ [(42, hl)]))
         end.
Proof.
  assert (He : firehoseEnvelope storedgzip.NewReader storedgzip.ReadAll exampleRand rawBatch
               = Ok rawEnvelope) by (vm_compute; reflexivity).
  assert (Hp : firehoseProject decimalVerboseID rawBatch = Ok 42) by (vm_compute; reflexivity).
  assert (Hu : unstructured storedgzip.NewReader storedgzip.ReadAll
                 (Envelope.mkRecord plainLine) "plain text line").
  { exists "plain text line", SyntaxError. repeat split; vm_compute; reflexivity. }
  repeat (split; [first [assumption | reflexivity]|]).
  exact (firehose_raw_record storedgzip.NewReader storedgzip.ReadAll decimalVerboseID
           acceptAll exampleNow exampleRand rawBatch rawEnvelope 42 []
           (Envelope.mkRecord plainLine) [] [] "plain text line"
           He Hp eq_refl eq_refl Hu).
Defined.

(** [structuredBatch] is acknowledged with its own request id, [noIdBatch]
    with the identifier made from the random bytes. *)
Lemma firehose_request_id_witness :
  (fst (drainA acceptAll structuredBatch) = FirehoseAck "req-1" exampleNow
   /\ exists body v lg,
       firehoseBody storedgzip.NewReader storedgzip.ReadAll structuredBatch = Ok body
       /\ parse_json body = Ok v
       /\ Envelope.Unmarshal body = Ok lg
       /\ (namesField "RequestId" v = false -> Envelope.RequestId lg = EmptyString)
       /\ (Envelope.RequestId lg <> EmptyString -> "req-1" = Envelope.RequestId lg)
       /\ (Envelope.RequestId lg = EmptyString ->
           "req-1" = uuid.String_ (uuid.New exampleRand)
           /\ String.length "req-1" = 36%nat
           /\ "req-1" <> EmptyString
           /\ forall rand',
               uuid.String_ (uuid.New rand') = "req-1" <-> sameDraw rand' exampleRand))
  /\ (fst (drainA acceptAll noIdBatch) = FirehoseAck exampleId exampleNow
      /\ exists body v lg,
          firehoseBody storedgzip.NewReader storedgzip.ReadAll noIdBatch = Ok body
          /\ parse_json body = Ok v
          /\ Envelope.Unmarshal body = Ok lg
          /\ (namesField "RequestId" v = false -> Envelope.RequestId lg = EmptyString)
          /\ (Envelope.RequestId lg <> EmptyString -> exampleId = Envelope.RequestId lg)
          /\ (Envelope.RequestId lg = EmptyString ->
              exampleId = uuid.String_ (uuid.New exampleRand)
              /\ String.length exampleId = 36%nat
              /\ exampleId <> EmptyString
              /\ forall rand',
                  uuid.String_ (uuid.New rand') = exampleId <-> sameDraw rand' exampleRand)).
Proof.
  assert (H1 : fst (drainA acceptAll structuredBatch) = FirehoseAck "req-1" exampleNow)
    by (vm_compute; reflexivity).
  assert (H2 : fst (drainA acceptAll noIdBatch) = FirehoseAck exampleId exampleNow)
    by (vm_compute; reflexivity).
  split.
  - split; [exact H1|].
    exact (firehose_request_id storedgzip.NewReader storedgzip.ReadAll decimalVerboseID
             acceptAll exampleNow exampleRand structuredBatch "req-1" exampleNow H1).
  - split; [exact H2|].
    exact (firehose_request_id storedgzip.NewReader storedgzip.ReadAll decimalVerboseID
             acceptAll exampleNow exampleRand noIdBatch exampleId exampleNow H2).
Defined.

(** [serviceRequest]: the header value is stored under service.name. *)
Lemma json_service_name_witness :
  In (7, serviceRecord) (snd (drainB acceptAll serviceRequest))
  /\ (attribute serviceRecord ServiceNameKey
      = Some (Header_Get (Header serviceRequest) LogDrainServiceHeader)
      /\ (Header serviceRequest !! CanonicalMIMEHeaderKey LogDrainServiceHeader = None ->
          attribute serviceRecord ServiceNameKey = Some EmptyString)).
Proof.
  assert (H : In (7, serviceRecord) (snd (drainB acceptAll serviceRequest))).
  { vm_compute. left. reflexivity. }
  split; [exact H|].
  exact (json_service_name decimalVerboseID acceptAll serviceRequest 7 serviceRecord H).
Defined.

(** [corruptBatch]: its second record is a gzip header with no stream. *)
Lemma firehose_corrupt_gzip_witness :
  firehoseEnvelope storedgzip.NewReader storedgzip.ReadAll exampleRand corruptBatch
  = Ok corruptEnvelope
  /\ In (Envelope.mkRecord headerOnly) (Envelope.Records corruptEnvelope)
  /\ base64.DecodeString headerOnly = Ok (bytes_of [31; 139; 8; 0; 0; 0; 0; 0; 4; 3])
  /\ storedgzip.NewReader (strings_NewReader (bytes_of [31; 139; 8; 0; 0; 0; 0; 0; 4; 3]))
     = Ok (strings_NewReader EmptyString)
  /\ storedgzip.ReadAll (strings_NewReader EmptyString) = Err storedgzip.ErrUnexpectedEOF
  /\ ((exists err', fst (drainA acceptAll corruptBatch) = HTTPError err' StatusBadRequest)
      /\ (forall data' msg,
            recordPayload storedgzip.NewReader storedgzip.ReadAll data' = Ok msg ->
            match storedgzip.NewReader (strings_NewReader data') with
            | Err _ => msg = data'
            | Ok gz' => storedgzip.ReadAll gz' = Ok msg
            end)).
Proof.
  assert (He : firehoseEnvelope storedgzip.NewReader storedgzip.ReadAll exampleRand
                 corruptBatch = Ok corruptEnvelope) by (vm_compute; reflexivity).
  assert (Hin : In (Envelope.mkRecord headerOnly) (Envelope.Records corruptEnvelope)).
  { right. left. reflexivity. }
  assert (Hd : base64.DecodeString headerOnly = Ok (bytes_of [31; 139; 8; 0; 0; 0; 0; 0; 4; 3]))
    by (vm_compute; reflexivity).
  assert (Hgz : storedgzip.NewReader
                  (strings_NewReader (bytes_of [31; 139; 8; 0; 0; 0; 0; 0; 4; 3]))
                = Ok (strings_NewReader EmptyString)) by (vm_compute; reflexivity).
  assert (Hr : storedgzip.ReadAll (strings_NewReader EmptyString)
               = Err storedgzip.ErrUnexpectedEOF) by (vm_compute; reflexivity).
  repeat (split; [assumption|]).
  exact (firehose_corrupt_gzip storedgzip.NewReader storedgzip.ReadAll decimalVerboseID
           acceptAll exampleNow exampleRand corruptBatch corruptEnvelope
           (Envelope.mkRecord headerOnly) _ _ _ He Hin Hd Hgz Hr).
Defined.

(** [serviceRequest]: the attributes are those of the body and the service
    name. *)
Lemma json_attributes_origin_witness :
  In (7, serviceRecord) (snd (drainB acceptAll serviceRequest))
  /\ exists body base,
      io_ReadAll (Body serviceRequest) = Ok body
      /\ bodyAttributes body = Some base
      /\ hlog.Attributes serviceRecord
         = made (<[ServiceNameKey := Header_Get (Header serviceRequest) LogDrainServiceHeader]> base)
      /\ (forall k, k <> ServiceNameKey -> attribute serviceRecord k = base !! k)
      /\ (forall r' projectID' lg',
            Body r' = Body serviceRequest ->
            Header_Get (Header r') LogDrainServiceHeader
            = Header_Get (Header serviceRequest) LogDrainServiceHeader ->
            In (projectID', lg') (snd (HandleJSONLog decimalVerboseID acceptAll r')) ->
            lg' = serviceRecord).
Proof.
  assert (H : In (7, serviceRecord) (snd (drainB acceptAll serviceRequest))).
  { vm_compute. left. reflexivity. }
  split; [exact H|].
  exact (json_attributes_origin decimalVerboseID acceptAll serviceRequest 7 serviceRecord H).
Defined.

(** * Further properties of the handlers *)

(** ** Drain-A *)

Section FirehoseMore.

Context {gzipReader : Type}.
Variable gzip_NewReader : stream -> result gzipReader.
Variable gzip_ReadAll : gzipReader -> result string.
Variable FromVerboseID : string -> result Z.
Variable SubmitHTTPLog : list call -> Z -> hlog.Log -> option error.
Variable now : Z.
Variable rand : nat -> ascii.

Local Abbreviation handler :=
  (HandleFirehoseLog gzip_NewReader gzip_ReadAll FromVerboseID SubmitHTTPLog now rand).
Local Abbreviation accepting :=
  (HandleFirehoseLog gzip_NewReader gzip_ReadAll FromVerboseID acceptAll now rand).
Local Abbreviation envelope := (firehoseEnvelope gzip_NewReader gzip_ReadAll rand).
Local Abbreviation project := (firehoseProject FromVerboseID).
Local Abbreviation records := (firehoseRecords gzip_NewReader gzip_ReadAll SubmitHTTPLog).
Local Abbreviation record := (firehoseRecord gzip_NewReader gzip_ReadAll SubmitHTTPLog).
Local Abbreviation events := (submitEvents SubmitHTTPLog).
Local Abbreviation payload := (recordPayload gzip_NewReader gzip_ReadAll).

(** X1. A batch sent under content-encoding gzip is handled exactly as the
    same batch sent uncompressed: same response, same sink calls. *)
Theorem firehose_gzip_transparent (r r' : Request) (gz : gzipReader) (body : string) :
  Header_Get (Header r) "content-encoding" = "gzip" ->
  gzip_NewReader (Body r) = Ok gz ->
  gzip_ReadAll gz = Ok body ->
  Header_Get (Header r') "content-encoding" <> "gzip" ->
  Body r' = strings_NewReader body ->
  Header_Get (Header r') "X-Amz-Firehose-Common-Attributes"
  = Header_Get (Header r) "X-Amz-Firehose-Common-Attributes" ->
  handler r = handler r'.
Proof.
  intros Hgzip Hopen Hread Hplain Hbody Hattrs.
  assert (Hb : firehoseBody gzip_NewReader gzip_ReadAll r
               = firehoseBody gzip_NewReader gzip_ReadAll r').
  { unfold firehoseBody. rewrite Hgzip, Hopen. simpl. rewrite Hread.
    apply String.eqb_neq in Hplain. rewrite Hplain, Hbody. reflexivity. }
  unfold HandleFirehoseLog, firehoseEnvelope, firehoseProject.
  rewrite Hb, Hattrs. reflexivity.
Qed.

(** *** Where the calls go *)

Lemma events_project (projectID : Z) (p : Cloudwatch.Payload)
    (evs : list Cloudwatch.LogEvent) (tr : list call) :
  Forall (fun c => fst c = projectID) tr ->
  Forall (fun c => fst c = projectID) (snd (events projectID p evs tr)).
Proof.
  revert tr. induction evs as [|ev evs IH]; intros tr Htr; simpl; [exact Htr|].
  assert (Forall (fun c : call => fst c = projectID) (tr ++ [(projectID, eventLog p ev)])).
  { apply Forall_app. split; [exact Htr|]. repeat constructor. }
  destruct (SubmitHTTPLog _ _ _); [assumption | apply IH; assumption].
Qed.

Lemma records_project (projectID ts : Z) (ls : list Envelope.Record_) (tr : list call) :
  Forall (fun c => fst c = projectID) tr ->
  Forall (fun c => fst c = projectID) (snd (records projectID ts ls tr)).
Proof.
  revert tr. induction ls as [|l ls IH]; intros tr Htr; simpl; [exact Htr|].
  assert (Hl : Forall (fun c : call => fst c = projectID) (snd (record projectID ts l tr))).
  { unfold firehoseRecord.
    destruct (base64.DecodeString _); [|exact Htr].
    destruct (payload _) as [msg|]; [|exact Htr].
    destruct (Cloudwatch.Unmarshal msg) as [p|].
    - apply events_project, Htr.
    - simpl. apply Forall_app. split; [exact Htr|]. repeat constructor. }
  destruct (record projectID ts l tr) as [[err|] tr']; [exact Hl | apply IH, Hl].
Qed.

(** X2. Drain-A calls the sink only for a request whose envelope parsed and
    whose tenant identifier decoded, and every call carries the project id
    the identifier decoded to. *)
Theorem firehose_calls_carry_project (r : Request) (c : call) :
  In c (snd (handler r)) ->
  exists lg projectID,
    envelope r = Ok lg /\ project r = Ok projectID /\ fst c = projectID.
Proof.
  unfold HandleFirehoseLog.
  destruct (envelope r) as [lg|]; [|intros []].
  destruct (project r) as [projectID|]; [|intros []].
  intros Hin. exists lg, projectID. repeat split.
  pose proof (records_project projectID (Envelope.Timestamp lg) (Envelope.Records lg) []
                (Forall_nil_2 _)) as Hall.
  rewrite Forall_forall in Hall. apply Hall, list_elem_of_In.
  destruct (records _ _ _ _) as [[err|] tr]; exact Hin.
Qed.

(** X3. A batch that arrives without the X-Amz-Firehose-Common-Attributes
    header is answered with HTTP 400 and no record is submitted; when its
    envelope is well formed, the error reported is the JSON syntax error of
    the empty header value. *)
Theorem firehose_missing_attributes_header (r : Request) :
  Header r !! CanonicalMIMEHeaderKey "X-Amz-Firehose-Common-Attributes" = None ->
  snd (handler r) = []
  /\ (exists err, fst (handler r) = HTTPError err StatusBadRequest)
  /\ (forall lg, envelope r = Ok lg -> fst (handler r) = HTTPError SyntaxError StatusBadRequest).
Proof.
  intros Habs. unfold HandleFirehoseLog, firehoseProject.
  rewrite (Header_Get_absent _ _ Habs).
  change (AttributesMap.Unmarshal EmptyString) with (@Err string SyntaxError). simpl.
  destruct (envelope r) as [lg|]; simpl.
  - split; [reflexivity|]. split; [eauto|]. reflexivity.
  - split; [reflexivity|]. split; [eauto|]. intros lg [=].
Qed.

(** X4. A batch with a record whose data is not valid base64 is never
    acknowledged: whatever the other records are, the response is HTTP
    400. *)
Theorem firehose_bad_base64 (r : Request) (lg : Envelope.t) (l : Envelope.Record_)
    (err : error) :
  envelope r = Ok lg ->
  In l (Envelope.Records lg) ->
  base64.DecodeString (Envelope.Data l) = Err err ->
  exists err', fst (handler r) = HTTPError err' StatusBadRequest.
Proof.
  intros He Hin Hd. unfold HandleFirehoseLog. rewrite He.
  destruct (project r) as [projectID|]; [|eauto].
  destruct (records_fail gzip_NewReader gzip_ReadAll SubmitHTTPLog projectID
              (Envelope.Timestamp lg) (Envelope.Records lg) l [] Hin) as (err' & tr' & ->);
    [|eauto].
  intros tr'. exists err. unfold firehoseRecord. rewrite Hd. reflexivity.
Qed.

(** *** The sink only decides where the calls stop *)

Lemma events_against_accepting (projectID : Z) (p : Cloudwatch.Payload)
    (evs : list Cloudwatch.LogEvent) (tr : list call) :
  (fst (events projectID p evs tr) = None ->
   events projectID p evs tr = submitEvents acceptAll projectID p evs tr)
  /\ snd (events projectID p evs tr)
     `prefix_of` snd (submitEvents acceptAll projectID p evs tr).
Proof.
  revert tr. induction evs as [|ev evs IH]; intros tr; simpl.
  - split; [reflexivity|]. reflexivity.
  - destruct (SubmitHTTPLog tr projectID (eventLog p ev)); simpl.
    + split; [discriminate|].
      destruct (events_extend acceptAll projectID p evs
                  (tr ++ [(projectID, eventLog p ev)])) as [t ->].
      by apply prefix_app_r.
    + apply IH.
Qed.

Lemma record_against_accepting (projectID ts : Z) (l : Envelope.Record_) (tr : list call) :
  (fst (record projectID ts l tr) = None ->
   record projectID ts l tr
   = firehoseRecord gzip_NewReader gzip_ReadAll acceptAll projectID ts l tr)
  /\ snd (record projectID ts l tr)
     `prefix_of` snd (firehoseRecord gzip_NewReader gzip_ReadAll acceptAll projectID ts l tr).
Proof.
  unfold firehoseRecord.
  destruct (base64.DecodeString _); [|split; reflexivity].
  destruct (payload _) as [msg|]; [|split; reflexivity].
  destruct (Cloudwatch.Unmarshal msg) as [p|].
  - apply events_against_accepting.
  - simpl. split; [|reflexivity]. intros ->. reflexivity.
Qed.

Lemma records_against_accepting (projectID ts : Z) (ls : list Envelope.Record_)
    (tr : list call) :
  (fst (records projectID ts ls tr) = None ->
   records projectID ts ls tr
   = firehoseRecords gzip_NewReader gzip_ReadAll acceptAll projectID ts ls tr)
  /\ snd (records projectID ts ls tr)
     `prefix_of` snd (firehoseRecords gzip_NewReader gzip_ReadAll acceptAll projectID ts ls tr).
Proof.
  revert tr. induction ls as [|l ls IH]; intros tr; simpl; [split; reflexivity|].
  destruct (record_against_accepting projectID ts l tr) as [Hsame Hpre].
  destruct (record projectID ts l tr) as [[err|] tr1]; simpl in *.
  - split; [discriminate|].
    destruct (firehoseRecord gzip_NewReader gzip_ReadAll acceptAll projectID ts l tr)
      as [[errA|] trA]; simpl in *; [exact Hpre|].
    destruct (records_extend gzip_NewReader gzip_ReadAll acceptAll projectID ts ls trA)
      as [t ->].
    by apply prefix_app_r.
  - rewrite <- (Hsame eq_refl). apply IH.
Qed.

(** X5. The answers of the sink never change which records Drain-A submits
    nor their order, only where the calls stop: the calls of a request are
    a prefix of the calls the same request makes to a sink that accepts
    everything. *)
Theorem firehose_calls_prefix (r : Request) :
  snd (handler r) `prefix_of` snd (accepting r).
Proof.
  unfold HandleFirehoseLog.
  destruct (envelope r) as [lg|]; [|reflexivity].
  destruct (project r) as [projectID|]; [|reflexivity].
  destruct (records_against_accepting projectID (Envelope.Timestamp lg)
              (Envelope.Records lg) []) as [_ Hpre].
  destruct (records _ _ _ _) as [[err|] tr];
    destruct (firehoseRecords _ _ acceptAll _ _ _ _) as [[errA|] trA]; exact Hpre.
Qed.

(** X6. An acknowledged batch was delivered in full: every sink call
    returned no error, the calls are all the calls the batch makes to a
    sink that accepts everything, and the acknowledgement carries the
    current time. *)
Theorem firehose_ack_delivered (r : Request) (requestId : string) (timestamp : Z) :
  fst (handler r) = FirehoseAck requestId timestamp ->
  timestamp = now
  /\ accepted SubmitHTTPLog (snd (handler r))
  /\ handler r = accepting r.
Proof.
  unfold HandleFirehoseLog.
  destruct (envelope r) as [lg|]; [|discriminate].
  destruct (project r) as [projectID|]; [|discriminate].
  destruct (records_against_accepting projectID (Envelope.Timestamp lg)
              (Envelope.Records lg) []) as [Hsame _].
  pose proof (records_settled gzip_NewReader gzip_ReadAll SubmitHTTPLog projectID
                (Envelope.Timestamp lg) (Envelope.Records lg) []
                (accepted_nil SubmitHTTPLog)) as Hs.
  destruct (records _ _ _ _) as [[err|] tr]; [discriminate|].
  simpl. intros [= _ <-]. rewrite <- (Hsame eq_refl). auto.
Qed.

(** *** The attributes of the records *)

Lemma firehoseAttributes_dom (p : Cloudwatch.Payload) :
  dom (firehoseAttributes p)
  = {["service_name"; "message_type"; "owner"; "log_group"; "log_stream"]}.
Proof. unfold firehoseAttributes. rewrite !dom_insert_L, dom_empty_L. set_solver. Qed.

Lemma eventLog_tagged (p : Cloudwatch.Payload) (ev : Cloudwatch.LogEvent) :
  firehoseTagged (eventLog p ev).
Proof.
  right. exists (firehoseAttributes p). split; [reflexivity|].
  split; [apply firehoseAttributes_dom | reflexivity].
Qed.

Lemma events_tagged (projectID : Z) (p : Cloudwatch.Payload)
    (evs : list Cloudwatch.LogEvent) (tr : list call) :
  Forall (fun c => firehoseTagged (snd c)) tr ->
  Forall (fun c => firehoseTagged (snd c)) (snd (events projectID p evs tr)).
Proof.
  revert tr. induction evs as [|ev evs IH]; intros tr Htr; simpl; [exact Htr|].
  assert (Forall (fun c : call => firehoseTagged (snd c)) (tr ++ [(projectID, eventLog p ev)])).
  { apply Forall_app. split; [exact Htr|]. constructor; [apply eventLog_tagged | constructor]. }
  destruct (SubmitHTTPLog _ _ _); [assumption | apply IH; assumption].
Qed.

Lemma records_tagged (projectID ts : Z) (ls : list Envelope.Record_) (tr : list call) :
  Forall (fun c => firehoseTagged (snd c)) tr ->
  Forall (fun c => firehoseTagged (snd c)) (snd (records projectID ts ls tr)).
Proof.
  revert tr. induction ls as [|l ls IH]; intros tr Htr; simpl; [exact Htr|].
  assert (Hl : Forall (fun c : call => firehoseTagged (snd c)) (snd (record projectID ts l tr))).
  { unfold firehoseRecord.
    destruct (base64.DecodeString _); [|exact Htr].
    destruct (payload _) as [msg|]; [|exact Htr].
    destruct (Cloudwatch.Unmarshal msg) as [p|].
    - apply events_tagged, Htr.
    - simpl. apply Forall_app. split; [exact Htr|]. constructor; [by left | constructor]. }
  destruct (record projectID ts l tr) as [[err|] tr']; [exact Hl | apply IH, Hl].
Qed.

(** X7. Every record Drain-A submits has the level info and either no
    attributes at all (a raw record) or exactly the five attributes
    service_name, message_type, owner, log_group and log_stream, with
    service_name set to firehose: nothing of the request headers and no
    other field of the payload becomes an attribute. *)
Theorem firehose_record_attributes (r : Request) (c : call) :
  In c (snd (handler r)) ->
  hlog.Level (snd c) = "info" /\ firehoseTagged (snd c).
Proof.
  intros Hin. split.
  - pose proof (firehose_shaped gzip_NewReader gzip_ReadAll FromVerboseID SubmitHTTPLog
                  now rand r) as Hall.
    rewrite Forall_forall in Hall. destruct (Hall c) as (ms & _ & _ & Hlevel).
    { by apply list_elem_of_In. }
    exact Hlevel.
  - revert Hin. unfold HandleFirehoseLog.
    destruct (envelope r) as [lg|]; [|intros []].
    destruct (project r) as [projectID|]; [|intros []].
    pose proof (records_tagged projectID (Envelope.Timestamp lg) (Envelope.Records lg) []
                  (Forall_nil_2 _)) as Hall.
    rewrite Forall_forall in Hall. intros Hin. apply Hall, list_elem_of_In.
    destruct (records _ _ _ _) as [[err|] tr]; exact Hin.
Qed.

(** *** Payloads that are JSON but no SubEnvelope *)

Lemma unnamed_member_skipped (k : string) (v : json) (p : Cloudwatch.var) :
  namesCloudwatchField k = false -> Cloudwatch.field k v p = Ok p.
Proof.
  unfold namesCloudwatchField, cloudwatchFields. simpl. intros H.
  repeat (apply orb_false_elim in H as [? H]).
  unfold Cloudwatch.field.
  repeat match goal with
         | E : gojson.field_is ?n k = false |- context [gojson.field_is ?n k] => rewrite E
         end.
  reflexivity.
Qed.

Lemma unnamed_members_skipped (members : list (string * json)) (p : Cloudwatch.var) :
  Forall (fun kv => namesCloudwatchField (fst kv) = false) members ->
  gojson.decode_members Cloudwatch.field members p = Ok p.
Proof.
  induction 1 as [|[k v] members Hk _ IH]; simpl; [reflexivity|].
  rewrite (unnamed_member_skipped k v p Hk). simpl. exact IH.
Qed.

Lemma unrecognised_record (projectID ts : Z) (l : Envelope.Record_) (tr : list call) :
  unrecognised gzip_NewReader gzip_ReadAll l -> record projectID ts l tr = (None, tr).
Proof.
  intros (data & msg & v & Hd & Hm & Hv & Hshape).
  unfold firehoseRecord. rewrite Hd, Hm. unfold Cloudwatch.Unmarshal. rewrite Hv. simpl.
  destruct Hshape as [-> | (members & -> & Hun)]; simpl.
  - reflexivity.
  - rewrite (unnamed_members_skipped members _ Hun). reflexivity.
Qed.

(** X8. A record whose payload is JSON null, or a JSON object without any
    of the SubEnvelope keys, is dropped without an error: a batch made of
    such records is acknowledged and nothing is submitted. *)
Theorem firehose_other_json_dropped (r : Request) (lg : Envelope.t) (projectID : Z) :
  envelope r = Ok lg ->
  project r = Ok projectID ->
  Forall (unrecognised gzip_NewReader gzip_ReadAll) (Envelope.Records lg) ->
  handler r = (FirehoseAck (Envelope.RequestId lg) now, []).
Proof.
  intros He Hp Hall. unfold HandleFirehoseLog. rewrite He, Hp.
  assert (Hrec : records projectID (Envelope.Timestamp lg) (Envelope.Records lg) [] = (None, [])).
  { generalize (@nil call) as tr.
    induction Hall as [|l ls Hl _ IH]; intros tr; simpl; [reflexivity|].
    rewrite (unrecognised_record projectID _ l tr Hl). apply IH. }
  rewrite Hrec. reflexivity.
Qed.

(** X9. A record whose payload is valid JSON but neither an object nor null
    (a string, a number, a boolean or an array) is submitted as one raw
    record whose message is the JSON text itself. *)
Theorem firehose_json_scalar_raw (projectID ts : Z) (l : Envelope.Record_) (tr : list call)
    (data msg : string) (v : json) :
  base64.DecodeString (Envelope.Data l) = Ok data ->
  payload data = Ok msg ->
  parse_json msg = Ok v ->
  is_scalar_or_array v = true ->
  snd (record projectID ts l tr) = tr ++ [(projectID, rawLog ts msg)].
Proof.
  intros Hd Hm Hv Hs. unfold firehoseRecord. rewrite Hd, Hm.
  unfold Cloudwatch.Unmarshal. rewrite Hv.
  destruct v; try discriminate; reflexivity.
Qed.

End FirehoseMore.

(** ** The envelope of Drain-A *)

Section EnvelopeMore.

Context {gzipReader : Type}.
Variable gzip_NewReader : stream -> result gzipReader.
Variable gzip_ReadAll : gzipReader -> result string.
Variable FromVerboseID : string -> result Z.
Variable SubmitHTTPLog : list call -> Z -> hlog.Log -> option error.
Variable now : Z.
Variable rand : nat -> ascii.

Lemma decode_string_type_error (v : json) (cur : string) (e : error) :
  gojson.decode_string v cur = Err e -> e = UnmarshalTypeError.
Proof. destruct v; simpl; congruence. Qed.

Lemma decode_int64_type_error (v : json) (cur : Z) (e : error) :
  gojson.decode_int64 v cur = Err e -> e = UnmarshalTypeError.
Proof.
  destruct v; simpl; try congruence.
  destruct (strconv.ParseInt lit); congruence.
Qed.

(** The typed decoders fail with a type error only. *)
Lemma decode_members_type_error {T : Type} (field : string -> json -> T -> result T) :
  (forall k v x e, field k v x = Err e -> e = UnmarshalTypeError) ->
  forall members cur e,
    gojson.decode_members field members cur = Err e -> e = UnmarshalTypeError.
Proof.
  intros Hf. induction members as [|[k v] members IH]; intros cur e; simpl; [discriminate|].
  destruct (field k v cur) eqn:E; simpl.
  - apply IH.
  - intros [= <-]. eapply Hf, E.
Qed.

Lemma decode_struct_type_error {T : Type} (field : string -> json -> T -> result T) :
  (forall k v x e, field k v x = Err e -> e = UnmarshalTypeError) ->
  forall v cur e, gojson.decode_struct field v cur = Err e -> e = UnmarshalTypeError.
Proof.
  intros Hf v cur e. destruct v; simpl; try congruence.
  by apply decode_members_type_error.
Qed.

Lemma decode_elems_type_error {T : Type} (elem : json -> T -> result T) (zero : T) :
  (forall v x e, elem v x = Err e -> e = UnmarshalTypeError) ->
  forall elems backing e,
    gojson.decode_elems elem zero elems backing = Err e -> e = UnmarshalTypeError.
Proof.
  intros He. induction elems as [|x elems IH]; intros backing e; simpl; [discriminate|].
  destruct (elem x (hd zero backing)) eqn:E; simpl.
  - destruct (gojson.decode_elems elem zero elems (tl backing)) eqn:E'; simpl; [discriminate|].
    intros [= <-]. eapply IH, E'.
  - intros [= <-]. eapply He, E.
Qed.

Lemma decode_slice_type_error {T : Type} (elem : json -> T -> result T) (zero : T) :
  (forall v x e, elem v x = Err e -> e = UnmarshalTypeError) ->
  forall v cur e, gojson.decode_slice elem zero v cur = Err e -> e = UnmarshalTypeError.
Proof.
  intros He v cur e. destruct v; simpl; try congruence.
  destruct elems as [|x elems]; [discriminate|].
  destruct (gojson.decode_elems _ _ _ _) eqn:E; simpl; [discriminate|].
  intros [= <-]. eapply decode_elems_type_error, E. exact He.
Qed.

Lemma envelope_field_type_error (k : string) (v : json) (lg : Envelope.var) (e : error) :
  Envelope.field k v lg = Err e -> e = UnmarshalTypeError.
Proof.
  unfold Envelope.field. intros H.
  repeat match type of H with
         | (if ?b then _ else _) = _ => destruct b
         end; try discriminate.
  - destruct (gojson.decode_string v _) eqn:E; simpl in H; [discriminate|].
    injection H as <-. eapply decode_string_type_error, E.
  - destruct (gojson.decode_int64 v _) eqn:E; simpl in H; [discriminate|].
    injection H as <-. eapply decode_int64_type_error, E.
  - destruct (gojson.decode_slice _ _ v _) eqn:E; simpl in H; [discriminate|].
    injection H as <-. revert E. apply decode_slice_type_error.
    intros v' x e'. apply decode_struct_type_error.
    intros k' v'' x' e''. unfold Envelope.record_field.
    destruct (gojson.field_is "Data" k'); [|discriminate].
    destruct (gojson.decode_string v'' _) eqn:E; simpl; [discriminate|].
    intros [= <-]. eapply decode_string_type_error, E.
Qed.

Lemma envelope_field_mismatch (k : string) (v : json) (lg : Envelope.var) :
  envelopeMismatch k v = true -> Envelope.field k v lg = Err UnmarshalTypeError.
Proof.
  unfold envelopeMismatch, Envelope.field. intros H.
  destruct (gojson.field_is "RequestId" k).
  { destruct v; try discriminate; reflexivity. }
  destruct (gojson.field_is "Timestamp" k).
  { destruct v; try discriminate; try reflexivity.
    simpl. destruct (strconv.ParseInt lit); [discriminate | reflexivity]. }
  destruct (gojson.field_is "Records" k).
  { destruct v; try discriminate; reflexivity. }
  destruct v; discriminate.
Qed.

Lemma envelope_members_mismatch (members : list (string * json)) (k : string) (v : json)
    (lg : Envelope.var) :
  In (k, v) members -> envelopeMismatch k v = true ->
  gojson.decode_members Envelope.field members lg = Err UnmarshalTypeError.
Proof.
  intros Hin Hk. revert lg.
  induction members as [|[k' v'] members IH]; intros lg; [destruct Hin|]. simpl.
  destruct (Envelope.field k' v' lg) as [lg'|e] eqn:E; simpl.
  - destruct Hin as [[= -> ->]|Hin]; [|by apply IH].
    rewrite envelope_field_mismatch in E by assumption. discriminate.
  - f_equal. eapply envelope_field_type_error, E.
Qed.

(** X10. A batch whose envelope has a request id that is not a string, a
    timestamp that is not an integer literal within int64 (a fraction or an
    exponent is refused), or records that are not an array, is answered
    with HTTP 400 and a type error, and nothing is submitted. *)
Theorem firehose_envelope_mismatch (r : Request) (body : string)
    (members : list (string * json)) (k : string) (v : json) :
  firehoseBody gzip_NewReader gzip_ReadAll r = Ok body ->
  parse_json body = Ok (JObj members) ->
  In (k, v) members ->
  envelopeMismatch k v = true ->
  HandleFirehoseLog gzip_NewReader gzip_ReadAll FromVerboseID SubmitHTTPLog now rand r
  = (HTTPError UnmarshalTypeError StatusBadRequest, []).
Proof.
  intros Hb Hv Hin Hk. unfold HandleFirehoseLog, firehoseEnvelope. rewrite Hb. simpl.
  unfold Envelope.Unmarshal. rewrite Hv. simpl.
  rewrite (envelope_members_mismatch members k v _ Hin Hk). reflexivity.
Qed.

End EnvelopeMore.

(** ** Drain-B *)

(** *** JSON values, by structural induction *)

Lemma json_nested_ind (P : json -> Prop) :
  P JNull ->
  (forall b, P (JBool b)) ->
  (forall lit, P (JNum lit)) ->
  (forall s, P (JStr s)) ->
  (forall elems, Forall P elems -> P (JArr elems)) ->
  (forall members, Forall (fun kv => P (snd kv)) members -> P (JObj members)) ->
  forall v, P v.
Proof.
  intros Hnull Hbool Hnum Hstr Harr Hobj.
  fix IH 1. intros [| b | lit | s | elems | members].
  - exact Hnull.
  - apply Hbool.
  - apply Hnum.
  - apply Hstr.
  - apply Harr. induction elems as [|x elems IHl]; constructor; [apply IH | exact IHl].
  - apply Hobj. induction members as [|[k x] members IHl]; constructor; [apply IH | exact IHl].
Qed.

(** The generic decoder fails exactly on a number out of range, and with a
    type error. *)
Lemma to_any_in_range (v : json) :
  match gojson.to_any v with
  | Ok _ => numbers_in_range v = true
  | Err e => e = UnmarshalTypeError /\ numbers_in_range v = false
  end.
Proof.
  induction v as [| b | lit | s | elems IH | members IH] using json_nested_ind; simpl;
    try reflexivity.
  - destruct (strconv.ParseFloat lit); auto.
  - match goal with
    | |- match bind (?go elems) _ with _ => _ end =>
      assert (Hgo : match go elems with
                    | Ok _ => forallb numbers_in_range elems = true
                    | Err e => e = UnmarshalTypeError
                               /\ forallb numbers_in_range elems = false
                    end);
        [| destruct (go elems); simpl; exact Hgo]
    end.
    induction IH as [|x elems Hx _ IHl]; simpl; [reflexivity|].
    destruct (gojson.to_any x); simpl.
    + rewrite Hx. simpl.
      match goal with |- context [bind ?g _] => destruct g; simpl; exact IHl end.
    + destruct Hx as [-> ->]. auto.
  - match goal with
    | |- match bind (?go members ∅) _ with _ => _ end =>
      assert (Hgo : forall acc,
                 match go members acc with
                 | Ok _ => forallb (fun kv => numbers_in_range (snd kv)) members = true
                 | Err e => e = UnmarshalTypeError
                            /\ forallb (fun kv => numbers_in_range (snd kv)) members = false
                 end);
        [| specialize (Hgo ∅); destruct (go members ∅); simpl; exact Hgo]
    end.
    induction IH as [|[k x] members Hx _ IHl]; intros acc; simpl; [reflexivity|].
    simpl in Hx. destruct (gojson.to_any x) as [a|]; simpl.
    + rewrite Hx. simpl. apply IHl.
    + destruct Hx as [-> ->]. auto.
Qed.

(** What the generic decoder stores under a key of an object. *)
Lemma to_any_object_lookup (members : list (string * json)) (m : gmap string any)
    (k : string) :
  gojson.to_any (JObj members) = Ok (AMap m) ->
  match last_member k members with
  | Some v => exists a, gojson.to_any v = Ok a /\ m !! k = Some a
  | None => m !! k = None
  end.
Proof.
  simpl. intros H. bind_inv H as m' Hm. injection H as ->.
  revert Hm.
  match goal with
  | |- ?go members ∅ = Ok m -> _ =>
    assert (Hgo : forall l acc,
               go l acc = Ok m ->
               match last_member k l with
               | Some v => exists a, gojson.to_any v = Ok a /\ m !! k = Some a
               | None => m !! k = acc !! k
               end)
  end.
  { induction l as [|[k' x] l IHl]; intros acc H; simpl.
    - by injection H as ->.
    - bind_inv H as a Ha. specialize (IHl _ H).
      destruct (last_member k l); [exact IHl|].
      destruct (String.eqb_spec k' k) as [->|Hne].
      + exists a. split; [exact Ha|]. by rewrite IHl, lookup_insert_eq.
      + by rewrite IHl, lookup_insert_ne. }
  intros H. specialize (Hgo _ _ H).
  destruct (last_member k members); [exact Hgo|]. by rewrite Hgo, lookup_empty.
Qed.

(** *** The rendering of numbers *)

Lemma has_byte_app (c : Z) (a b : string) :
  strconv.has_byte c c (a +:+ b) = strconv.has_byte c c a || strconv.has_byte c c b.
Proof.
  unfold strconv.has_byte. induction a as [|x a IH]; simpl; [reflexivity|].
  rewrite IH. by rewrite !orb_assoc.
Qed.

Lemma digits_of_no_E (fuel : nat) (n : Z) (acc : string) :
  strconv.has_byte 69 69 acc = false ->
  strconv.has_byte 69 69 (strconv.digits_of fuel n acc) = false.
Proof.
  revert n acc. induction fuel as [|fuel IH]; intros n acc Hacc; simpl; [exact Hacc|].
  assert (Hd : strconv.has_byte 69 69 (String (chr (48 + n mod 10)) acc) = false).
  { unfold strconv.has_byte in *. rewrite code_chr.
    pose proof (Z.mod_pos_bound n 10 ltac:(lia)).
    rewrite Z.mod_small by lia.
    replace (48 + n mod 10 =? 69) with false by (symmetry; apply Z.eqb_neq; lia).
    exact Hacc. }
  destruct (n <? 10); [exact Hd | apply IH, Hd].
Qed.

(** Base-10 text has no exponent letter. *)
Lemma FormatInt_no_E (i : Z) : strconv.has_byte 69 69 (strconv.FormatInt i) = false.
Proof.
  unfold strconv.FormatInt, strconv.itoa.
  destruct (i <? 0).
  - change (strconv.has_byte 69 69 (String "-" ?s)) with (strconv.has_byte 69 69 s).
    by apply digits_of_no_E.
  - by apply digits_of_no_E.
Qed.

Lemma fmtE_has_E (neg : bool) (digits : string) (x : Z) :
  strconv.has_byte 69 69 (strconv.fmtE neg digits x) = true.
Proof.
  unfold strconv.fmtE. rewrite !has_byte_app.
  apply orb_true_iff. right. apply orb_true_iff. right. reflexivity.
Qed.

(** A parsed number is zero or finite, and its rendering has the exponent
    letter. *)
Lemma ParseFloat_rendering (lit : string) (f : spec_float) :
  strconv.ParseFloat lit = Some f ->
  strconv.has_byte 69 69 (strconv.FormatFloat f) = true.
Proof.
  unfold strconv.ParseFloat, strconv.nearest_binary64.
  intros H.
  assert (Hf : match f with S754_zero _ | S754_finite _ _ _ => True | _ => False end).
  { repeat match type of H with
           | match ?x with _ => _ end = _ => destruct x
           | (if ?b then _ else _) = _ => destruct b
           | (let '(_, _) := ?x in _) = _ => destruct x
           end; try discriminate; injection H as <-; exact I. }
  destruct f as [s| | |s m e]; try contradiction; simpl.
  - apply fmtE_has_E.
  - destruct (strconv.shortest_decimal m e). apply fmtE_has_E.
Qed.

Section JSONMore.

Variable FromVerboseID : string -> result Z.
Variable SubmitHTTPLog : list call -> Z -> hlog.Log -> option error.

Local Abbreviation handler := (HandleJSONLog FromVerboseID SubmitHTTPLog).

(** What a submitted record says about the two parses of its body. *)
Lemma json_submitted_parses (r : Request) (projectID : Z) (lg : hlog.Log) :
  In (projectID, lg) (snd (handler r)) ->
  exists body lg0 lgAttrs typed base,
    io_ReadAll (Body r) = Ok body
    /\ jsonLogRecord body = Ok lg0
    /\ jsonLogAttrs body = Ok lgAttrs
    /\ hlog.Attributes lg0 = made typed
    /\ harvest lgAttrs (made typed) = Some (made base)
    /\ hlog.Attributes lg
       = made (<[ServiceNameKey := Header_Get (Header r) LogDrainServiceHeader]> base).
Proof.
  intros Hin.
  apply json_submitted in Hin as (body & lg0 & base & Hb & H0 & Hbase & _ & ->).
  unfold bodyAttributes in Hbase. rewrite H0 in Hbase.
  destruct (jsonLogAttrs body) as [lgAttrs|] eqn:Hattrs; [|discriminate].
  destruct (harvest lgAttrs (hlog.Attributes lg0)) as [[|base']|] eqn:Hh; try discriminate.
  injection Hbase as ->.
  destruct (hlog.Attributes lg0) as [|typed] eqn:Htyped.
  - exfalso. destruct lgAttrs as [m|]; [|discriminate].
    destruct (harvest_nil m) as [[_ E]|[_ E]]; rewrite E in Hh; discriminate.
  - exists body, lg0, lgAttrs, typed, base. repeat split; assumption.
Qed.

(** The attribute of a key of the body, by the type of its last value. *)
Lemma harvest_by_key (r : Request) (projectID : Z) (lg : hlog.Log)
    (body : string) (members : list (string * json)) (k : string) :
  In (projectID, lg) (snd (handler r)) ->
  io_ReadAll (Body r) = Ok body ->
  parse_json body = Ok (JObj members) ->
  k <> ServiceNameKey ->
  match last_member k members with
  | Some (JStr s) => attribute lg k = Some s
  | Some (JNum lit) =>
    exists f, strconv.ParseFloat lit = Some f
              /\ attribute lg k = Some (strconv.FormatFloat f)
  | _ => exists lg0, jsonLogRecord body = Ok lg0 /\ attribute lg k = attribute lg0 k
  end.
Proof.
  intros Hin Hb Hv Hk.
  apply json_submitted_parses in Hin
    as (body' & lg0 & lgAttrs & typed & base & Hb' & H0 & Hattrs & Htyped & Hh & Hlg).
  rewrite Hb in Hb'. injection Hb' as <-.
  unfold jsonLogAttrs in Hattrs. rewrite Hv in Hattrs.
  unfold bind, gojson.decode_anymap in Hattrs. cbv beta iota in Hattrs.
  destruct (gojson.to_any (JObj members)) as [a|] eqn:Hany; [|discriminate].
  destruct a as [| | | | | |m]; try discriminate. injection Hattrs as <-.
  pose proof (to_any_object_lookup members m k Hany) as Hlook.
  pose proof (harvest_lookup m typed base k Hh) as Hbase.
  assert (Hattr : attribute lg k = base !! k).
  { unfold attribute. rewrite Hlg. by rewrite lookup_insert_ne. }
  assert (Htyp : attribute lg0 k = typed !! k).
  { unfold attribute. by rewrite Htyped. }
  rewrite Hattr, Hbase.
  destruct (last_member k members) as [v|].
  - destruct Hlook as (a & Ha & ->).
    destruct v; simpl in Ha.
    + injection Ha as <-. exists lg0. by rewrite Htyp.
    + injection Ha as <-. exists lg0. by rewrite Htyp.
    + destruct (strconv.ParseFloat lit) as [f|]; [|discriminate].
      injection Ha as <-. exists f. auto.
    + injection Ha as <-. reflexivity.
    + bind_inv Ha. injection Ha as <-. exists lg0. by rewrite Htyp.
    + bind_inv Ha. injection Ha as <-. exists lg0. by rewrite Htyp.
  - rewrite Hlook. exists lg0. by rewrite Htyp.
Qed.

(** X11. The rule of the harvest, on the body as sent: for a body that is a
    JSON object, a key other than service.name whose (last) value is a
    string has that string as its attribute; one whose value is a number has
    the float64 rendering of the number; for a value of any other type, or a
    key the body does not have, the attribute is what the attributes object
    of the body gave, if anything. *)
Theorem json_harvest_rule (r : Request) (projectID : Z) (lg : hlog.Log)
    (body : string) (members : list (string * json)) (k : string) :
  In (projectID, lg) (snd (handler r)) ->
  io_ReadAll (Body r) = Ok body ->
  parse_json body = Ok (JObj members) ->
  k <> ServiceNameKey ->
  match last_member k members with
  | Some (JStr s) => attribute lg k = Some s
  | Some (JNum lit) =>
    exists f, strconv.ParseFloat lit = Some f
              /\ attribute lg k = Some (strconv.FormatFloat f)
  | _ => exists lg0, jsonLogRecord body = Ok lg0 /\ attribute lg k = attribute lg0 k
  end.
Proof. apply harvest_by_key. Qed.

(** X12. Drain-B never renders a number of the body in base 10: the
    attribute of a numeric field always contains the exponent letter E, so
    it is the base-10 text of no integer. *)
Theorem json_number_never_decimal (r : Request) (projectID : Z) (lg : hlog.Log)
    (body : string) (members : list (string * json)) (k lit : string) :
  In (projectID, lg) (snd (handler r)) ->
  io_ReadAll (Body r) = Ok body ->
  parse_json body = Ok (JObj members) ->
  k <> ServiceNameKey ->
  last_member k members = Some (JNum lit) ->
  exists t,
    attribute lg k = Some t
    /\ strconv.has_byte 69 69 t = true
    /\ forall i, t <> strconv.FormatInt i.
Proof.
  intros Hin Hb Hv Hk Hlast.
  pose proof (harvest_by_key r projectID lg body members k Hin Hb Hv Hk) as Hrule.
  rewrite Hlast in Hrule. destruct Hrule as (f & Hf & Hattr).
  exists (strconv.FormatFloat f). split; [exact Hattr|].
  pose proof (ParseFloat_rendering lit f Hf) as HE.
  split; [exact HE|]. intros i Hi. rewrite Hi, FormatInt_no_E in HE. discriminate.
Qed.

(** X13. Once the typed parse of the body has succeeded, the second,
    generic parse fails exactly when some number of the body, at any depth
    and in a field no one reads, is beyond the range of float64; the
    request is then answered with HTTP 400 and a type error, and nothing is
    submitted. *)
Theorem json_number_out_of_range (r : Request) (body : string) (lg0 : hlog.Log) (v : json) :
  io_ReadAll (Body r) = Ok body ->
  jsonLogRecord body = Ok lg0 ->
  parse_json body = Ok v ->
  (numbers_in_range v = false ->
   handler r = (HTTPError UnmarshalTypeError StatusBadRequest, []))
  /\ (numbers_in_range v = true -> exists lgAttrs, jsonLogAttrs body = Ok lgAttrs).
Proof.
  intros Hb H0 Hv.
  assert (Hshape : v = JNull \/ exists members, v = JObj members).
  { unfold jsonLogRecord, hlog.Unmarshal in H0. rewrite Hv in H0. simpl in H0.
    destruct v; try discriminate; eauto. }
  assert (Hattrs : jsonLogAttrs body = gojson.decode_anymap v).
  { unfold jsonLogAttrs. rewrite Hv. reflexivity. }
  pose proof (to_any_in_range v) as Hrange.
  split.
  - intros Hout. unfold HandleJSONLog. rewrite Hb, H0, Hattrs.
    destruct Hshape as [->|[members ->]]; [discriminate|].
    unfold gojson.decode_anymap.
    destruct (gojson.to_any (JObj members)) as [a|e].
    + rewrite Hrange in Hout. discriminate.
    + destruct Hrange as [-> _]. reflexivity.
  - intros Hin. rewrite Hattrs.
    destruct Hshape as [->|[members ->]]; [by eexists|].
    unfold gojson.decode_anymap.
    destruct (gojson.to_any (JObj members)) as [a|e] eqn:Hany.
    + simpl in Hany. bind_inv Hany. injection Hany as <-. eauto.
    + destruct Hrange as [_ Hr]. rewrite Hr in Hin. discriminate.
Qed.

(** *** Type errors of the typed parse *)

Lemma decode_string_error (v : json) (cur : string) (e : error) :
  gojson.decode_string v cur = Err e -> e = UnmarshalTypeError.
Proof. destruct v; simpl; congruence. Qed.

Lemma decode_map_members_error (members : list (string * json)) (m : gmap string string)
    (e : error) :
  gojson.decode_map_members members m = Err e -> e = UnmarshalTypeError.
Proof.
  revert m. induction members as [|[k v] members IH]; intros m; simpl; [discriminate|].
  destruct (gojson.decode_string v EmptyString) eqn:E; simpl.
  - apply IH.
  - intros [= <-]. eapply decode_string_error, E.
Qed.

Lemma hlog_field_error (k : string) (v : json) (lg : hlog.Log) (e : error) :
  hlog.field k v lg = Err e -> e = UnmarshalTypeError.
Proof.
  unfold hlog.field. intros H.
  repeat match type of H with
         | (if ?b then _ else _) = _ => destruct b
         end; try discriminate.
  1-3: destruct (gojson.decode_string v _) eqn:E; simpl in H; [discriminate|];
       injection H as <-; eapply decode_string_error, E.
  destruct v; simpl in H; try congruence.
  destruct (gojson.decode_map_members _ _) eqn:E; simpl in H; [discriminate|].
  injection H as <-. eapply decode_map_members_error, E.
Qed.

Lemma hlog_field_mismatch (k : string) (v : json) (lg : hlog.Log) :
  typedStringField k = true -> is_string_or_null v = false ->
  hlog.field k v lg = Err UnmarshalTypeError.
Proof.
  unfold typedStringField, hlog.field. intros Hk Hv.
  assert (Hd : forall cur, gojson.decode_string v cur = Err UnmarshalTypeError).
  { intros cur. destruct v; try discriminate; reflexivity. }
  destruct (gojson.field_is "message" k); [by rewrite Hd|].
  destruct (gojson.field_is "timestamp" k); [by rewrite Hd|].
  destruct (gojson.field_is "level" k); [by rewrite Hd | discriminate].
Qed.

Lemma decode_members_mismatch (members : list (string * json)) (k : string) (v : json)
    (lg : hlog.Log) :
  In (k, v) members ->
  typedStringField k = true -> is_string_or_null v = false ->
  gojson.decode_members hlog.field members lg = Err UnmarshalTypeError.
Proof.
  intros Hin Hk Hv. revert lg.
  induction members as [|[k' v'] members IH]; intros lg; [destruct Hin|]. simpl.
  destruct (hlog.field k' v' lg) as [lg'|e] eqn:E; simpl.
  - destruct Hin as [[= -> ->]|Hin]; [|by apply IH].
    rewrite hlog_field_mismatch in E by assumption. discriminate.
  - f_equal. eapply (hlog_field_error k' v' lg), E.
Qed.

(** X14. A body in which message, timestamp or level (in any letter case)
    has a value that is neither a string nor null, for instance a numeric
    timestamp, is rejected with HTTP 400 and a type error, and nothing is
    submitted. *)
Theorem json_typed_field_mismatch (r : Request) (body : string)
    (members : list (string * json)) (k : string) (v : json) :
  io_ReadAll (Body r) = Ok body ->
  parse_json body = Ok (JObj members) ->
  In (k, v) members ->
  typedStringField k = true ->
  is_string_or_null v = false ->
  handler r = (HTTPError UnmarshalTypeError StatusBadRequest, []).
Proof.
  intros Hb Hv Hin Hk Hval. unfold HandleJSONLog. rewrite Hb.
  unfold jsonLogRecord, hlog.Unmarshal. rewrite Hv. simpl.
  rewrite (decode_members_mismatch members k v _ Hin Hk Hval). reflexivity.
Qed.

(** X15. Drain-B calls the sink at most once per request, under the project
    id its tenant header decodes to, and answers 200 exactly when that one
    call was made and returned no error. *)
Theorem json_single_call (r : Request) :
  (List.length (snd (handler r)) <= 1)%nat
  /\ (forall projectID lg,
        In (projectID, lg) (snd (handler r)) ->
        FromVerboseID (Header_Get (Header r) LogDrainProjectHeader) = Ok projectID)
  /\ (fst (handler r) = StatusOK <->
      exists projectID lg,
        snd (handler r) = [(projectID, lg)] /\ SubmitHTTPLog [] projectID lg = None).
Proof.
  split; [|split].
  - unfold HandleJSONLog.
    repeat match goal with
           | |- context [match ?x with _ => _ end] => destruct x; simpl; try lia
           end.
  - intros projectID lg Hin.
    by apply json_submitted in Hin as (_ & _ & _ & _ & _ & _ & Hp & _).
  - unfold HandleJSONLog.
    destruct (io_ReadAll (Body r)) as [body|];
      [|split; [discriminate | intros (? & ? & [=] & _)]].
    destruct (jsonLogRecord body) as [lg0|];
      [|split; [discriminate | intros (? & ? & [=] & _)]].
    destruct (jsonLogAttrs body) as [lgAttrs|];
      [|split; [discriminate | intros (? & ? & [=] & _)]].
    destruct (harvest lgAttrs (hlog.Attributes lg0)) as [harvested|];
      [|split; [discriminate | intros (? & ? & [=] & _)]].
    destruct (FromVerboseID _) as [pid|];
      [|split; [discriminate | intros (? & ? & [=] & _)]].
    destruct (map_assign _ _ harvested) as [attrs|];
      [|split; [discriminate | intros (? & ? & [=] & _)]].
    destruct (SubmitHTTPLog [] pid _) as [err|] eqn:E; simpl.
    + split; [discriminate|]. intros (? & ? & [= <- <-] & E'). congruence.
    + split; [eauto|reflexivity].
Qed.

(** X16. Drain-B panics exactly when the typed parse of the body leaves the
    attributes map nil (the body sets attributes to null) and either some
    field of the body converts to an attribute or the tenant identifier
    decodes: the first assignment into the map is the panic. *)
Theorem json_panic_exactly (r : Request) :
  fst (handler r) = Panic <->
  exists body lg0 lgAttrs,
    io_ReadAll (Body r) = Ok body
    /\ jsonLogRecord body = Ok lg0
    /\ jsonLogAttrs body = Ok lgAttrs
    /\ hlog.Attributes lg0 = nil_map
    /\ ((exists m, lgAttrs = Some m /\ omap coerce m <> ∅)
        \/ exists projectID,
             FromVerboseID (Header_Get (Header r) LogDrainProjectHeader) = Ok projectID).
Proof.
  unfold HandleJSONLog.
  destruct (io_ReadAll (Body r)) as [body|e] eqn:Hb.
  2: { split; [discriminate|]. intros (b & l & a & [=] & _). }
  destruct (jsonLogRecord body) as [lg0|e] eqn:H0.
  2: { split; [discriminate|]. intros (b & l & a & [= <-] & H0' & _). congruence. }
  destruct (jsonLogAttrs body) as [lgAttrs|e] eqn:Hattrs.
  2: { split; [discriminate|]. intros (b & l & a & [= <-] & _ & Ha & _). congruence. }
  rewrite lookup_insert_ne by discriminate. rewrite !lookup_insert_eq. simpl.
  set (tenant := FromVerboseID (Header_Get (Header r) LogDrainProjectHeader)).
  assert (Hiff :
    (exists body' lg0' lgAttrs',
        Ok body = Ok body'
        /\ jsonLogRecord body' = Ok lg0'
        /\ jsonLogAttrs body' = Ok lgAttrs'
        /\ hlog.Attributes lg0' = nil_map
        /\ ((exists m, lgAttrs' = Some m /\ omap coerce m <> ∅)
            \/ exists projectID, tenant = Ok projectID))
    <-> hlog.Attributes lg0 = nil_map
        /\ ((exists m, lgAttrs = Some m /\ omap coerce m <> ∅)
            \/ exists projectID, tenant = Ok projectID)).
  { split.
    - intros (b & l & a & [= <-] & H0' & Ha & Hnil & Hcase).
      rewrite H0 in H0'. injection H0' as <-.
      rewrite Hattrs in Ha. injection Ha as <-. auto.
    - intros [Hnil Hcase]. exists body, lg0, lgAttrs. auto. }
  rewrite Hiff. clear Hiff.
  destruct (hlog.Attributes lg0) as [|typed].
  - (* the nil map *)
    destruct lgAttrs as [m|].
    + destruct (harvest_nil m) as [[Hempty ->]|[Hsome ->]]; simpl.
      * destruct tenant as [pid|]; simpl.
        -- split; [|reflexivity]. intros _. split; [reflexivity|]. right. eauto.
        -- split; [discriminate|].
           intros [_ [(m' & [= <-] & Hne)|[? [=]]]]. contradiction.
      * split; [|reflexivity]. intros _. split; [reflexivity|]. left. eauto.
    + simpl. destruct tenant as [pid|]; simpl.
      * split; [|reflexivity]. intros _. split; [reflexivity|]. right. eauto.
      * split; [discriminate|]. intros [_ [(m' & [=] & _)|[? [=]]]].
  - (* a made map never panics *)
    split; [|intros [[=] _]].
    destruct lgAttrs as [m|]; [rewrite harvest_made|]; simpl;
      destruct tenant; simpl; try discriminate;
      destruct (SubmitHTTPLog _ _ _); discriminate.
Qed.

End JSONMore.

(** X17. The result of the harvest loop does not depend on the order in
    which the range over the map visits the fields of the body: any two
    orders give the same attributes, or both panic. *)
Theorem harvest_order_irrelevant (lgAttrs : gmap string any)
    (entries entries' : list (string * any)) (attrs : strmap) :
  entries ≡ₚ map_to_list lgAttrs ->
  entries' ≡ₚ map_to_list lgAttrs ->
  harvest_in_order entries attrs = harvest_in_order entries' attrs.
Proof.
  intros H H'. by rewrite (harvest_any_order lgAttrs entries), (harvest_any_order lgAttrs entries').
Qed.

(** ** The further properties at the example requests *)

(** [gzipRequest] and [plainRequest]: one batch, compressed and not. *)
Lemma firehose_gzip_transparent_witness :
  Header_Get (Header gzipRequest) "content-encoding" = "gzip"
  /\ storedgzip.NewReader (Body gzipRequest) = Ok (strings_NewReader gzipDeflate)
  /\ storedgzip.ReadAll (strings_NewReader gzipDeflate) = Ok plainBody
  /\ Body plainRequest = strings_NewReader plainBody
  /\ drainA acceptAll gzipRequest = drainA acceptAll plainRequest.
Proof.
  assert (Hh : Header_Get (Header gzipRequest) "content-encoding" = "gzip")
    by (vm_compute; reflexivity).
  assert (Hgz : storedgzip.NewReader (Body gzipRequest) = Ok (strings_NewReader gzipDeflate))
    by (vm_compute; reflexivity).
  assert (Hr : storedgzip.ReadAll (strings_NewReader gzipDeflate) = Ok plainBody)
    by (vm_compute; reflexivity).
  assert (Hh' : Header_Get (Header plainRequest) "content-encoding" <> "gzip")
    by (vm_compute; discriminate).
  assert (Hb : Body plainRequest = strings_NewReader plainBody) by reflexivity.
  assert (Ha : Header_Get (Header plainRequest) "X-Amz-Firehose-Common-Attributes"
               = Header_Get (Header gzipRequest) "X-Amz-Firehose-Common-Attributes")
    by (vm_compute; reflexivity).
  repeat (split; [assumption|]).
  exact (firehose_gzip_transparent storedgzip.NewReader storedgzip.ReadAll decimalVerboseID
           acceptAll exampleNow exampleRand gzipRequest plainRequest _ _ Hh Hgz Hr Hh' Hb Ha).
Defined.

(** [rawBatch]: its one call carries the project 42 of the header. *)
Lemma firehose_calls_carry_project_witness :
  In plainCall (snd (drainA acceptAll rawBatch))
  /\ exists lg projectID,
      firehoseEnvelope storedgzip.NewReader storedgzip.ReadAll exampleRand rawBatch = Ok lg
      /\ firehoseProject decimalVerboseID rawBatch = Ok projectID
      /\ fst plainCall = projectID.
Proof.
  assert (H : In plainCall (snd (drainA acceptAll rawBatch)))
    by (vm_compute; left; reflexivity).
  split; [exact H|].
  exact (firehose_calls_carry_project storedgzip.NewReader storedgzip.ReadAll decimalVerboseID
           acceptAll exampleNow exampleRand rawBatch plainCall H).
Defined.

(** [noTenantRequest]: a well-formed batch without the attributes header. *)
Lemma firehose_missing_attributes_header_witness :
  Header noTenantRequest !! CanonicalMIMEHeaderKey "X-Amz-Firehose-Common-Attributes" = None
  /\ snd (drainA acceptAll noTenantRequest) = []
  /\ (exists err, fst (drainA acceptAll noTenantRequest) = HTTPError err StatusBadRequest)
  /\ (forall lg,
        firehoseEnvelope storedgzip.NewReader storedgzip.ReadAll exampleRand noTenantRequest
        = Ok lg ->
        fst (drainA acceptAll noTenantRequest) = HTTPError SyntaxError StatusBadRequest).
Proof.
  assert (H : Header noTenantRequest
              !! CanonicalMIMEHeaderKey "X-Amz-Firehose-Common-Attributes" = None)
    by (vm_compute; reflexivity).
  split; [exact H|].
  exact (firehose_missing_attributes_header storedgzip.NewReader storedgzip.ReadAll
           decimalVerboseID acceptAll exampleNow exampleRand noTenantRequest H).
Defined.

(** [badBase64Batch]: its second record is not base64. *)
Lemma firehose_bad_base64_witness :
  firehoseEnvelope storedgzip.NewReader storedgzip.ReadAll exampleRand badBase64Batch
  = Ok badBase64Envelope
  /\ In (Envelope.mkRecord "not base64!") (Envelope.Records badBase64Envelope)
  /\ base64.DecodeString "not base64!" = Err CorruptInputError
  /\ exists err', fst (drainA acceptAll badBase64Batch) = HTTPError err' StatusBadRequest.
Proof.
  assert (He : firehoseEnvelope storedgzip.NewReader storedgzip.ReadAll exampleRand
                 badBase64Batch = Ok badBase64Envelope) by (vm_compute; reflexivity).
  assert (Hin : In (Envelope.mkRecord "not base64!") (Envelope.Records badBase64Envelope)).
  { right. left. reflexivity. }
  assert (Hd : base64.DecodeString "not base64!" = Err CorruptInputError)
    by (vm_compute; reflexivity).
  repeat (split; [assumption|]).
  exact (firehose_bad_base64 storedgzip.NewReader storedgzip.ReadAll decimalVerboseID
           acceptAll exampleNow exampleRand badBase64Batch badBase64Envelope
           (Envelope.mkRecord "not base64!") CorruptInputError He Hin Hd).
Defined.

(** [structuredBatch] with a sink that would reject a fifth call: the four
    calls of the batch are accepted. *)
Lemma firehose_ack_delivered_witness :
  fst (drainA (rejectAfter 4) structuredBatch) = FirehoseAck "req-1" exampleNow
  /\ exampleNow = exampleNow
  /\ accepted (rejectAfter 4) (snd (drainA (rejectAfter 4) structuredBatch))
  /\ drainA (rejectAfter 4) structuredBatch = drainA acceptAll structuredBatch.
Proof.
  assert (H : fst (drainA (rejectAfter 4) structuredBatch) = FirehoseAck "req-1" exampleNow)
    by (vm_compute; reflexivity).
  split; [exact H|].
  exact (firehose_ack_delivered storedgzip.NewReader storedgzip.ReadAll decimalVerboseID
           (rejectAfter 4) exampleNow exampleRand structuredBatch "req-1" exampleNow H).
Defined.

(** [structuredBatch]: its first call has the five attributes. *)
Lemma firehose_record_attributes_witness :
  In firstEventCall (snd (drainA acceptAll structuredBatch))
  /\ hlog.Level (snd firstEventCall) = "info"
  /\ firehoseTagged (snd firstEventCall).
Proof.
  assert (H : In firstEventCall (snd (drainA acceptAll structuredBatch)))
    by (vm_compute; left; reflexivity).
  split; [exact H|].
  exact (firehose_record_attributes storedgzip.NewReader storedgzip.ReadAll decimalVerboseID
           acceptAll exampleNow exampleRand structuredBatch firstEventCall H).
Defined.

(** [otherObjectBatch]: its one record is a JSON object of other keys. *)
Lemma firehose_other_json_dropped_witness :
  firehoseEnvelope storedgzip.NewReader storedgzip.ReadAll exampleRand otherObjectBatch
  = Ok otherObjectEnvelope
  /\ firehoseProject decimalVerboseID otherObjectBatch = Ok 42
  /\ Forall (unrecognised storedgzip.NewReader storedgzip.ReadAll)
       (Envelope.Records otherObjectEnvelope)
  /\ drainA acceptAll otherObjectBatch = (FirehoseAck "req-4" exampleNow, []).
Proof.
  assert (He : firehoseEnvelope storedgzip.NewReader storedgzip.ReadAll exampleRand
                 otherObjectBatch = Ok otherObjectEnvelope) by (vm_compute; reflexivity).
  assert (Hp : firehoseProject decimalVerboseID otherObjectBatch = Ok 42)
    by (vm_compute; reflexivity).
  assert (Hu : Forall (unrecognised storedgzip.NewReader storedgzip.ReadAll)
                 (Envelope.Records otherObjectEnvelope)).
  { constructor; [|constructor].
    exists (bytes64 otherObject), (bytes64 otherObject),
           (JObj [("foo", JNum "1"); ("bar", JArr [JBool true])]).
    split; [vm_compute; reflexivity|].
    split; [vm_compute; reflexivity|].
    split; [vm_compute; reflexivity|].
    right. eexists. split; [reflexivity|].
    constructor; [vm_compute; reflexivity|].
    constructor; [vm_compute; reflexivity|]. constructor. }
  repeat (split; [assumption|]).
  exact (firehose_other_json_dropped storedgzip.NewReader storedgzip.ReadAll decimalVerboseID
           acceptAll exampleNow exampleRand otherObjectBatch otherObjectEnvelope 42 He Hp Hu).
Defined.

(** A record that holds the JSON text of a string. *)
Lemma firehose_json_scalar_raw_witness :
  base64.DecodeString jsonString = Ok (bytes64 jsonString)
  /\ recordPayload storedgzip.NewReader storedgzip.ReadAll (bytes64 jsonString)
     = Ok (bytes64 jsonString)
  /\ parse_json (bytes64 jsonString) = Ok (JStr "just a string")
  /\ snd (firehoseRecord storedgzip.NewReader storedgzip.ReadAll acceptAll 42 1700000000000
            (Envelope.mkRecord jsonString) [])
     = [] ++ [(42, rawLog 1700000000000 (bytes64 jsonString))].
Proof.
  assert (Hd : base64.DecodeString jsonString = Ok (bytes64 jsonString))
    by (vm_compute; reflexivity).
  assert (Hm : recordPayload storedgzip.NewReader storedgzip.ReadAll (bytes64 jsonString)
               = Ok (bytes64 jsonString)) by (vm_compute; reflexivity).
  assert (Hv : parse_json (bytes64 jsonString) = Ok (JStr "just a string"))
    by (vm_compute; reflexivity).
  repeat (split; [assumption|]).
  exact (firehose_json_scalar_raw storedgzip.NewReader storedgzip.ReadAll acceptAll 42
           1700000000000 (Envelope.mkRecord jsonString) [] _ _ _ Hd Hm Hv eq_refl).
Defined.

(** [fractionTimestampRequest]: the timestamp has a fraction part. *)
Lemma firehose_envelope_mismatch_witness :
  firehoseBody storedgzip.NewReader storedgzip.ReadAll fractionTimestampRequest
  = Ok (avail (Body fractionTimestampRequest))
  /\ parse_json (avail (Body fractionTimestampRequest))
     = Ok (JObj [("timestamp", JNum "1700000000000.0"); ("records", JArr [])])
  /\ envelopeMismatch "timestamp" (JNum "1700000000000.0") = true
  /\ drainA acceptAll fractionTimestampRequest
     = (HTTPError UnmarshalTypeError StatusBadRequest, []).
Proof.
  assert (Hb : firehoseBody storedgzip.NewReader storedgzip.ReadAll fractionTimestampRequest
               = Ok (avail (Body fractionTimestampRequest))) by (vm_compute; reflexivity).
  assert (Hv : parse_json (avail (Body fractionTimestampRequest))
               = Ok (JObj [("timestamp", JNum "1700000000000.0"); ("records", JArr [])]))
    by (vm_compute; reflexivity).
  assert (Hk : envelopeMismatch "timestamp" (JNum "1700000000000.0") = true)
    by (vm_compute; reflexivity).
  repeat (split; [assumption|]).
  exact (firehose_envelope_mismatch storedgzip.NewReader storedgzip.ReadAll decimalVerboseID
           acceptAll exampleNow exampleRand fractionTimestampRequest _ _
           "timestamp" (JNum "1700000000000.0") Hb Hv (or_introl eq_refl) Hk).
Defined.

(** [typesRequest]: the key user occurs twice at the top and once among the
    attributes of the body; the last top-level value is submitted. *)
Lemma json_harvest_rule_witness :
  In (7, typesRecord) (snd (drainB acceptAll typesRequest))
  /\ parse_json (avail (Body typesRequest)) = Ok (JObj typesMembers)
  /\ last_member "user" typesMembers = Some (JStr "bob")
  /\ attribute typesRecord "user" = Some "bob".
Proof.
  assert (H : In (7, typesRecord) (snd (drainB acceptAll typesRequest)))
    by (vm_compute; left; reflexivity).
  assert (Hb : io_ReadAll (Body typesRequest) = Ok (avail (Body typesRequest)))
    by reflexivity.
  assert (Hv : parse_json (avail (Body typesRequest)) = Ok (JObj typesMembers))
    by (vm_compute; reflexivity).
  assert (Hk : "user" <> ServiceNameKey) by discriminate.
  repeat (split; [first [assumption | reflexivity]|]).
  exact (json_harvest_rule decimalVerboseID acceptAll typesRequest 7 typesRecord _
           typesMembers "user" H Hb Hv Hk).
Defined.

(** [typesRequest]: the number 3 is not submitted as a decimal integer. *)
Lemma json_number_never_decimal_witness :
  In (7, typesRecord) (snd (drainB acceptAll typesRequest))
  /\ last_member "count" typesMembers = Some (JNum "3")
  /\ exists t,
      attribute typesRecord "count" = Some t
      /\ strconv.has_byte 69 69 t = true
      /\ forall i, t <> strconv.FormatInt i.
Proof.
  assert (H : In (7, typesRecord) (snd (drainB acceptAll typesRequest)))
    by (vm_compute; left; reflexivity).
  assert (Hb : io_ReadAll (Body typesRequest) = Ok (avail (Body typesRequest)))
    by reflexivity.
  assert (Hv : parse_json (avail (Body typesRequest)) = Ok (JObj typesMembers))
    by (vm_compute; reflexivity).
  assert (Hk : "count" <> ServiceNameKey) by discriminate.
  assert (Hl : last_member "count" typesMembers = Some (JNum "3")) by reflexivity.
  repeat (split; [assumption|]).
  exact (json_number_never_decimal decimalVerboseID acceptAll typesRequest 7 typesRecord _
           typesMembers "count" "3" H Hb Hv Hk Hl).
Defined.

(** [hugeNumberRequest]: 1e999 sits two levels below a field that is not
    harvested. *)
Lemma json_number_out_of_range_witness :
  jsonLogRecord (avail (Body hugeNumberRequest))
  = Ok (hlog.mkLog "hi" EmptyString EmptyString (made ∅))
  /\ parse_json (avail (Body hugeNumberRequest)) = Ok hugeNumberBody
  /\ numbers_in_range hugeNumberBody = false
  /\ drainB acceptAll hugeNumberRequest = (HTTPError UnmarshalTypeError StatusBadRequest, []).
Proof.
  assert (Hb : io_ReadAll (Body hugeNumberRequest) = Ok (avail (Body hugeNumberRequest)))
    by reflexivity.
  assert (Hl : jsonLogRecord (avail (Body hugeNumberRequest))
               = Ok (hlog.mkLog "hi" EmptyString EmptyString (made ∅)))
    by (vm_compute; reflexivity).
  assert (Hv : parse_json (avail (Body hugeNumberRequest)) = Ok hugeNumberBody)
    by (vm_compute; reflexivity).
  assert (Hn : numbers_in_range hugeNumberBody = false) by (vm_compute; reflexivity).
  repeat (split; [assumption|]).
  exact (proj1 (json_number_out_of_range decimalVerboseID acceptAll hugeNumberRequest _ _ _
                  Hb Hl Hv) Hn).
Defined.

(** [numericTimestampRequest]: the timestamp is a JSON number. *)
Lemma json_typed_field_mismatch_witness :
  parse_json (avail (Body numericTimestampRequest))
  = Ok (JObj [("message", JStr "hi"); ("timestamp", JNum "1700000000000")])
  /\ typedStringField "timestamp" = true
  /\ drainB acceptAll numericTimestampRequest
     = (HTTPError UnmarshalTypeError StatusBadRequest, []).
Proof.
  assert (Hb : io_ReadAll (Body numericTimestampRequest)
               = Ok (avail (Body numericTimestampRequest))) by reflexivity.
  assert (Hv : parse_json (avail (Body numericTimestampRequest))
               = Ok (JObj [("message", JStr "hi"); ("timestamp", JNum "1700000000000")]))
    by (vm_compute; reflexivity).
  assert (Hk : typedStringField "timestamp" = true) by (vm_compute; reflexivity).
  repeat (split; [assumption|]).
  exact (json_typed_field_mismatch decimalVerboseID acceptAll numericTimestampRequest _ _
           "timestamp" (JNum "1700000000000") Hb Hv (or_intror (or_introl eq_refl)) Hk
           eq_refl).
Defined.

(** [twoEntries] ranged over in one order and in the reverse order. *)
Lemma harvest_order_irrelevant_witness :
  harvest_in_order (map_to_list twoEntries) (made ∅)
  = harvest_in_order (rev (map_to_list twoEntries)) (made ∅).
Proof.
  apply (harvest_order_irrelevant twoEntries).
  - reflexivity.
  - symmetry. apply Permutation_rev.
Defined.
